(** * Metadata pipeline of the local image browser: a shallow embedding

    The development follows the metadata module of the repository (the
    TypeScript file that exports [parseImageMetadata], the [extract*] field
    extractors and the three [parse*Metadata] normalizers).

    Modelling conventions.
    - A JavaScript value is a [value]: [undefined], [null], booleans, numbers,
      strings, arrays and plain objects.  Objects are association lists in
      property order; arrays may carry extra named properties.
    - A JavaScript string is a [string] of bytes; the model is exact on ASCII
      text (letter case, white space and lengths are those of ASCII).
    - A JavaScript number is the rational it denotes ([Q], kept reduced).
      Every number of the program comes from a decimal literal (JSON text,
      [parseInt], [parseFloat]) and no arithmetic is done on them; rounding
      to a double, infinities and exponent notation when printing are not
      modelled.
    - A function that can throw returns a [res]; an [async] function returns
      the [res] its promise settles to ([Throw] is a rejected promise).
    - The host's [JSON] object, the EXIF reader and the type guards imported
      from the types module are the fields of the class [Platform]; a type
      guard is a predicate that always answers.
    - Values carry no identity.  The module mutates only objects it has just
      built or parsed; where it compares a stored value with a candidate
      ([same_value]), an object or an array counts as one not met before.
    - A buffer is a list of bytes, and decoding it yields the string of the
      same bytes. *)

From Stdlib Require Import ZArith QArith Ascii String List Lia.
From Stdlib.Strings Require Import Byte.
From stdpp Require Import base option list strings gmap pretty.

Local Open Scope string_scope.
Local Open Scope Z_scope.
#[local] Set Warnings "-register-all".

(** ** Exceptions *)

Inductive exn : Type :=
| TypeError
| RangeError
| SyntaxError
| HostError.

Inductive res (A : Type) : Type :=
| Ok (a : A)
| Throw (e : exn).
Arguments Ok {A} a.
Arguments Throw {A} e.

#[global] Instance res_ret : MRet res := fun A a => Ok a.
#[global] Instance res_bind : MBind res := fun A B f m =>
  match m with
  | Ok a => f a
  | Throw e => Throw e
  end.

(** [try { body } catch { handler }] *)
Definition try_catch {A} (body : res A) (handler : exn -> res A) : res A :=
  match body with
  | Ok a => Ok a
  | Throw e => handler e
  end.

(** ** Strings *)

Module Str.

Definition code (c : ascii) : N := N_of_ascii c.

Definition is_upper (c : ascii) : bool := ((65 <=? code c) && (code c <=? 90))%N.
Definition is_lower (c : ascii) : bool := ((97 <=? code c) && (code c <=? 122))%N.
Definition is_digit (c : ascii) : bool := ((48 <=? code c) && (code c <=? 57))%N.

(** White space of [\s] and of [trim], ASCII part. *)
Definition is_space (c : ascii) : bool :=
  ((9 <=? code c) && (code c <=? 13) || (code c =? 32))%N.

Definition lower_char (c : ascii) : ascii :=
  if is_upper c then ascii_of_N (code c + 32) else c.
Definition upper_char (c : ascii) : ascii :=
  if is_lower c then ascii_of_N (code c - 32) else c.

Fixpoint toLowerCase (s : string) : string :=
  match s with
  | EmptyString => EmptyString
  | String c s' => String (lower_char c) (toLowerCase s')
  end.

Definition chr (n : N) : string := String (ascii_of_N n) EmptyString.
Definition nl : string := chr 10.
Definition nul : string := chr 0.
Definition dq : string := chr 34.

Definition eqb (a b : string) : bool := String.eqb a b.

Definition is_empty (s : string) : bool :=
  match s with EmptyString => true | _ => false end.

Fixpoint drop (n : nat) (s : string) : string :=
  match n, s with
  | O, _ => s
  | S n', String _ s' => drop n' s'
  | S _, EmptyString => EmptyString
  end.

Fixpoint take (n : nat) (s : string) : string :=
  match n, s with
  | S n', String c s' => String c (take n' s')
  | _, _ => EmptyString
  end.

(** [s.indexOf(needle, from)], with -1 when there is no occurrence. *)
Fixpoint find_from (needle s : string) (i : nat) : option nat :=
  if String.prefix needle s then Some i
  else match s with
       | EmptyString => None
       | String _ s' => find_from needle s' (S i)
       end.

Definition indexOf (s needle : string) (from : Z) : Z :=
  let start := Z.to_nat (Z.min (Z.max from 0) (Z.of_nat (String.length s))) in
  match find_from needle (drop start s) start with
  | Some i => Z.of_nat i
  | None => -1
  end.

Definition includes (s needle : string) : bool := 0 <=? indexOf s needle 0.

(** [s.substring(a, b)] and [s.substring(a)]: arguments are clamped to the
    length and swapped when out of order. *)
Definition clamp (s : string) (a : Z) : nat :=
  Z.to_nat (Z.min (Z.max a 0) (Z.of_nat (String.length s))).

Definition substring (s : string) (a b : Z) : string :=
  let lo := Nat.min (clamp s a) (clamp s b) in
  let hi := Nat.max (clamp s a) (clamp s b) in
  take (hi - lo) (drop lo s).

Definition substring_from (s : string) (a : Z) : string := drop (clamp s a) s.

Fixpoint trimStart (s : string) : string :=
  match s with
  | String c s' => if is_space c then trimStart s' else s
  | EmptyString => EmptyString
  end.

Fixpoint trimEnd (s : string) : string :=
  match s with
  | EmptyString => EmptyString
  | String c s' =>
      match trimEnd s' with
      | EmptyString => if is_space c then EmptyString else String c EmptyString
      | t => String c t
      end
  end.

Definition trim (s : string) : string := trimEnd (trimStart s).

(** [s.split(sep)] for a one-character separator: never the empty list. *)
Fixpoint split (sep : ascii) (s : string) : list string :=
  match s with
  | EmptyString => [EmptyString]
  | String c s' =>
      if Ascii.eqb c sep then EmptyString :: split sep s'
      else match split sep s' with
           | p :: ps => String c p :: ps
           | [] => [String c EmptyString]
           end
  end.

Fixpoint join (sep : string) (l : list string) : string :=
  match l with
  | [] => EmptyString
  | [x] => x
  | x :: l' => x +:+ sep +:+ join sep l'
  end.

Definition of_bytes (l : list byte) : string := string_of_list_byte l.
Definition to_bytes (s : string) : list byte := list_byte_of_string s.

End Str.

(** ** Numbers *)

Module Num.

Definition zero : Q := 0%Q.
Definition of_Z (z : Z) : Q := inject_Z z.
Definition of_nat (n : nat) : Q := inject_Z (Z.of_nat n).

Definition digit_val (c : ascii) : N := (Str.code c - 48)%N.

(** The longest run of decimal digits in front of [s], and what follows. *)
Fixpoint span_digits (s : string) : string * string :=
  match s with
  | String c s' =>
      if Str.is_digit c then
        let '(d, r) := span_digits s' in (String c d, r)
      else (EmptyString, s)
  | EmptyString => (EmptyString, EmptyString)
  end.

Fixpoint digits_value_from (acc : N) (s : string) : N :=
  match s with
  | String c s' => digits_value_from (acc * 10 + digit_val c)%N s'
  | EmptyString => acc
  end.
Definition digits_value (s : string) : N := digits_value_from 0%N s.

(** [mant * 10 ^ e10], reduced. *)
Definition scaled (neg : bool) (mant : N) (e10 : Z) : Q :=
  let m := if neg then (- Z.of_N mant)%Z else Z.of_N mant in
  if (0 <=? e10)%Z then inject_Z (m * 10 ^ e10)
  else Qred (Qmake m (Z.to_pos (10 ^ (- e10)))).

Definition split_sign (s : string) : bool * string :=
  match s with
  | String "-" s' => (true, s')
  | String "+" s' => (false, s')
  | _ => (false, s)
  end.

(** [parseInt(s, 10)]; [None] is [NaN]. *)
Definition parseInt (s : string) : option Q :=
  let '(neg, body) := split_sign (Str.trimStart s) in
  let '(ds, _) := span_digits body in
  if Str.is_empty ds then None else Some (scaled neg (digits_value ds) 0).

(** The exponent part [e[+-]digits] in front of [s], when there is one. *)
Definition span_exponent (s : string) : Z * string :=
  match s with
  | String c s' =>
      if Ascii.eqb (Str.lower_char c) "e" then
        let '(eneg, body) := split_sign s' in
        let '(ds, r) := span_digits body in
        if Str.is_empty ds then (0, s)
        else ((if eneg then - Z.of_N (digits_value ds) else Z.of_N (digits_value ds)), r)
      else (0, s)
  | EmptyString => (0, s)
  end.

(** The longest decimal literal in front of [s] (sign apart): its value and
    what follows.  [None] when [s] starts with no digit and no [.digit]. *)
Definition span_decimal (neg : bool) (s : string) : option (Q * string) :=
  let '(ip, r1) := span_digits s in
  let '(fp, r2) :=
    match r1 with
    | String "." r => span_digits r
    | _ => (EmptyString, r1)
    end in
  if Str.is_empty ip && Str.is_empty fp then None
  else
    let '(e, r3) := span_exponent r2 in
    Some (scaled neg (digits_value (ip +:+ fp)) (e - Z.of_nat (String.length fp)), r3).

(** [parseFloat(s)]; [None] is [NaN]. *)
Definition parseFloat (s : string) : option Q :=
  let '(neg, body) := split_sign (Str.trimStart s) in
  match span_decimal neg body with
  | Some (q, _) => Some q
  | None => None
  end.

(** [Number(s)] on a string: the whole trimmed text must be one decimal
    literal; the empty text is 0. *)
Definition of_string (s : string) : option Q :=
  let t := Str.trim s in
  if Str.is_empty t then Some zero
  else
    let '(neg, body) := split_sign t in
    match span_decimal neg body with
    | Some (q, EmptyString) => Some q
    | _ => None
    end.

(** Digits of the fractional part [r / d], at most [fuel] of them. *)
Fixpoint frac_digits (fuel : nat) (r d : N) : string :=
  match fuel with
  | O => EmptyString
  | S fuel' =>
      if (r =? 0)%N then EmptyString
      else String (ascii_of_N (48 + (r * 10) / d)) (frac_digits fuel' ((r * 10) mod d)%N d)
  end.

(** [String(q)] for an integer or a short decimal. *)
Definition to_string (q : Q) : string :=
  let q := Qred q in
  let n := Z.abs_N (Qnum q) in
  let d := Npos (Qden q) in
  let sign := if (Qnum q <? 0)%Z then "-" else "" in
  if (d =? 1)%N then sign +:+ pretty n
  else sign +:+ pretty (n / d)%N +:+ "." +:+ frac_digits (S (Pos.size_nat (Qden q))) (n mod d)%N d.

Definition eqb (a b : Q) : bool := Qeq_bool a b.
Definition ltb (a b : Q) : bool := negb (Qle_bool b a).
Definition leb (a b : Q) : bool := Qle_bool a b.

End Num.

(** ** Values *)

Inductive value : Type :=
| VUndefined
| VNull
| VBool (b : bool)
| VNum (q : Q)
| VStr (s : string)
| VArr (items : list value) (extra : list (string * value))
| VObj (fields : list (string * value)).

(** The tests [typeof v === 'string'], [typeof v === 'number'],
    [typeof v === 'object'], [Array.isArray(v)], [v === undefined], and
    [v === undefined || v === null]. *)
Definition is_string (v : value) : bool := match v with VStr _ => true | _ => false end.
Definition is_number (v : value) : bool := match v with VNum _ => true | _ => false end.
Definition is_object (v : value) : bool :=
  match v with VNull | VArr _ _ | VObj _ => true | _ => false end.
Definition isArray (v : value) : bool := match v with VArr _ _ => true | _ => false end.
Definition is_undefined (v : value) : bool := match v with VUndefined => true | _ => false end.
Definition nullish (v : value) : bool :=
  match v with VUndefined | VNull => true | _ => false end.

(** [Boolean(v)] *)
Definition truthy (v : value) : bool :=
  match v with
  | VUndefined | VNull => false
  | VBool b => b
  | VNum q => negb (Num.eqb q 0)
  | VStr s => negb (Str.is_empty s)
  | VArr _ _ | VObj _ => true
  end.

(** [a || b] on values already computed. *)
Definition or_else (a b : value) : value := if truthy a then a else b.
Infix "|||" := or_else (at level 50, left associativity).

Definition arr (items : list value) : value := VArr items [].
Definition str_arr (items : list string) : value := arr (List.map VStr items).
Definition num (z : Z) : value := VNum (Num.of_Z z).

(** *** Property keys *)

Fixpoint all_digits (s : string) : bool :=
  match s with
  | EmptyString => true
  | String c s' => Str.is_digit c && all_digits s'
  end.

(** The array index a property key denotes, when it is a canonical one. *)
Definition array_index (k : string) : option N :=
  match k with
  | EmptyString => None
  | String c rest =>
      if all_digits k && (negb (Ascii.eqb c "0") || Str.is_empty rest)
         && (Num.digits_value k <? 4294967295)%N
      then Some (Num.digits_value k) else None
  end.

Fixpoint lookup_field (k : string) (fields : list (string * value)) : option value :=
  match fields with
  | [] => None
  | (k', v) :: rest => if Str.eqb k k' then Some v else lookup_field k rest
  end.

Fixpoint update_field (k : string) (v : value) (fields : list (string * value))
  : list (string * value) :=
  match fields with
  | [] => [(k, v)]
  | (k', v') :: rest =>
      if Str.eqb k k' then (k, v) :: rest else (k', v') :: update_field k v rest
  end.

Fixpoint insert_by_index (e : N * (string * value)) (l : list (N * (string * value)))
  : list (N * (string * value)) :=
  match l with
  | [] => [e]
  | e' :: l' => if (fst e <? fst e')%N then e :: l else e' :: insert_by_index e l'
  end.

(** Own keys in the order of enumeration: array indices in ascending order,
    then the other keys in the order of their creation. *)
Definition ordered (fields : list (string * value)) : list (string * value) :=
  let indexed :=
    List.fold_left
      (fun acc kv => match array_index (fst kv) with
                     | Some i => insert_by_index (i, kv) acc
                     | None => acc
                     end) fields [] in
  (List.map snd indexed
   ++ List.filter (fun kv => match array_index (fst kv) with Some _ => false | None => true end)
        fields)%list.

Fixpoint indexed_from (i : N) (items : list value) : list (string * value) :=
  match items with
  | [] => []
  | x :: rest => (pretty i, x) :: indexed_from (N.succ i) rest
  end.

Fixpoint chars (s : string) : list value :=
  match s with
  | EmptyString => []
  | String c s' => VStr (String c EmptyString) :: chars s'
  end.

(** *** Reading and writing properties *)

(** [o.k] on a receiver that is neither [undefined] nor [null]. *)
Definition prop (o : value) (k : string) : value :=
  match o with
  | VObj fields => default VUndefined (lookup_field k fields)
  | VArr items extra =>
      if Str.eqb k "length" then VNum (Num.of_nat (length items))
      else match array_index k with
           | Some i => nth (N.to_nat i) items VUndefined
           | None => default VUndefined (lookup_field k extra)
           end
  | VStr s =>
      if Str.eqb k "length" then VNum (Num.of_nat (String.length s))
      else match array_index k with
           | Some i => nth (N.to_nat i) (chars s) VUndefined
           | None => VUndefined
           end
  | _ => VUndefined
  end.

(** [o.k]: a [TypeError] on [undefined] and [null]. *)
Definition get (o : value) (k : string) : res value :=
  if nullish o then Throw TypeError else Ok (prop o k).

(** [o?.k] *)
Definition get_opt (o : value) (k : string) : value :=
  if nullish o then VUndefined else prop o k.

(** [k in o]: a [TypeError] when [o] is not an object. *)
Definition has_in (k : string) (o : value) : res bool :=
  match o with
  | VObj fields => Ok (bool_decide (is_Some (lookup_field k fields)))
  | VArr items extra =>
      Ok (Str.eqb k "length"
          || match array_index k with
             | Some i => (i <? N.of_nat (length items))%N
             | None => bool_decide (is_Some (lookup_field k extra))
             end)
  | _ => Throw TypeError
  end.

(** [o.k = v] in strict mode. *)
Definition set_prop (o : value) (k : string) (v : value) : res value :=
  match o with
  | VObj fields => Ok (VObj (update_field k v fields))
  | VArr items extra => Ok (VArr items (update_field k v extra))
  | _ => Throw TypeError
  end.

(** [Object.entries(o)] *)
Definition entries (o : value) : res (list (string * value)) :=
  match o with
  | VUndefined | VNull => Throw TypeError
  | VObj fields => Ok (ordered fields)
  | VArr items extra => Ok (indexed_from 0 items ++ ordered extra)%list
  | VStr s => Ok (indexed_from 0 (chars s))
  | VBool _ | VNum _ => Ok []
  end.

(** The elements [for (const x of o)] visits. *)
Definition elements_of (o : value) : res (list value) :=
  match o with
  | VArr items _ => Ok items
  | VStr s => Ok (chars s)
  | _ => Throw TypeError
  end.

(** *** Conversions *)

Fixpoint ToString (v : value) : string :=
  match v with
  | VUndefined => "undefined"
  | VNull => "null"
  | VBool true => "true"
  | VBool false => "false"
  | VNum q => Num.to_string q
  | VStr s => s
  | VArr items _ =>
      Str.join ","
        (List.map (fun x => match x with
                            | VUndefined | VNull => ""
                            | _ => ToString x
                            end) items)
  | VObj _ => "[object Object]"
  end.

(** [Number(v)]; [None] is [NaN]. *)
Definition ToNumber (v : value) : option Q :=
  match v with
  | VUndefined => None
  | VNull => Some Num.zero
  | VBool b => Some (if b then 1%Q else 0%Q)
  | VNum q => Some q
  | VStr s => Num.of_string s
  | VArr _ _ => Num.of_string (ToString v)
  | VObj _ => None
  end.

Definition isNaN (v : value) : bool :=
  match ToNumber v with Some _ => false | None => true end.

(** [v > q] and [v >= q] against a number. *)
Definition gt (v : value) (q : Q) : bool :=
  match ToNumber v with Some x => Num.ltb q x | None => false end.
Definition ge (v : value) (q : Q) : bool :=
  match ToNumber v with Some x => Num.leb q x | None => false end.

(** [v === s] and [v === q] *)
Definition is_str (v : value) (s : string) : bool :=
  match v with VStr t => Str.eqb t s | _ => false end.
Definition is_num (v : value) (q : Q) : bool :=
  match v with VNum x => Num.eqb x q | _ => false end.

(** [parseInt(v, 10)] and [parseFloat(v)] as numbers or [NaN]. *)
Definition parseInt (v : value) : option Q := Num.parseInt (ToString v).
Definition parseFloat (v : value) : option Q := Num.parseFloat (ToString v).

(** ** Regular expressions

    The patterns of the module, as syntax trees run by a backtracking
    matcher.  Repetition is only ever applied to a character class, and no
    pattern puts a capture group inside an alternative, so the captured
    groups are listed in the order of their closing parenthesis. *)

Module Re.

Record cls : Type := { negated : bool; member : ascii -> bool }.

Inductive re : Type :=
| Lit (s : string)
| Cls (c : cls)
| Star (c : cls)
| Plus (c : cls)
| Seq (a b : re)
| Alt (a b : re)
| Grp (r : re)
| WordB
| Bol
| Eol.

(** A sequence of patterns, one after the other. *)
Definition cat (l : list re) : re := List.fold_right Seq (Lit EmptyString) l.

Definition one_of (chars : string) : cls :=
  {| negated := false;
     member := fun c => Str.includes chars (String c EmptyString) |}.
Definition none_of (chars : string) : cls :=
  {| negated := true;
     member := fun c => Str.includes chars (String c EmptyString) |}.
Definition where_ (p : ascii -> bool) : cls := {| negated := false; member := p |}.
Definition unless (p : ascii -> bool) : cls := {| negated := true; member := p |}.

Definition space : cls := where_ Str.is_space.
Definition digit : cls := where_ Str.is_digit.
Definition is_word_char (c : ascii) : bool :=
  Str.is_upper c || Str.is_lower c || Str.is_digit c || Ascii.eqb c "_".

Section Matcher.

(** The [i] flag. *)
Variable ignoreCase : bool.

Definition same_char (a b : ascii) : bool :=
  if ignoreCase then Ascii.eqb (Str.upper_char a) (Str.upper_char b) else Ascii.eqb a b.

Definition in_cls (c : cls) (a : ascii) : bool :=
  xorb (negated c)
       (if ignoreCase then member c a || member c (Str.upper_char a) || member c (Str.lower_char a)
        else member c a).

(** The text left once the literal [l] is read off the front of [s], with the
    last character read. *)
Fixpoint strip (l s : string) (prev : option ascii) : option (option ascii * string) :=
  match l, s with
  | EmptyString, _ => Some (prev, s)
  | String a l', String b s' => if same_char a b then strip l' s' (Some b) else None
  | String _ _, EmptyString => None
  end.

Definition captures : Type := list string.
Definition cont (R : Type) : Type := option ascii -> string -> captures -> option R.

Fixpoint star {R} (c : cls) (prev : option ascii) (s : string) (caps : captures)
  (k : cont R) : option R :=
  match s with
  | String a s' =>
      if in_cls c a then
        match star c (Some a) s' caps k with
        | Some r => Some r
        | None => k prev s caps
        end
      else k prev s caps
  | EmptyString => k prev s caps
  end.

Definition is_word (o : option ascii) : bool :=
  match o with Some a => is_word_char a | None => false end.
Definition head (s : string) : option ascii :=
  match s with String a _ => Some a | EmptyString => None end.

Fixpoint run {R} (r : re) (prev : option ascii) (s : string) (caps : captures)
  (k : cont R) {struct r} : option R :=
  match r with
  | Lit l =>
      match strip l s prev with
      | Some (prev', s') => k prev' s' caps
      | None => None
      end
  | Cls c =>
      match s with
      | String a s' => if in_cls c a then k (Some a) s' caps else None
      | EmptyString => None
      end
  | Star c => star c prev s caps k
  | Plus c =>
      match s with
      | String a s' => if in_cls c a then star c (Some a) s' caps k else None
      | EmptyString => None
      end
  | Seq a b => run a prev s caps (fun prev' s' caps' => run b prev' s' caps' k)
  | Alt a b =>
      match run a prev s caps k with
      | Some x => Some x
      | None => run b prev s caps k
      end
  | Grp a =>
      run a prev s caps
        (fun prev' s' caps' =>
           k prev' s' (caps' ++ [Str.take (String.length s - String.length s') s])%list)
  | WordB => if xorb (is_word prev) (is_word (head s)) then k prev s caps else None
  | Bol => match prev with None => k prev s caps | Some _ => None end
  | Eol => match s with EmptyString => k prev s caps | String _ _ => None end
  end.

(** One match: where it starts, its text, its groups, and the text after it. *)
Record found : Type :=
  { index : nat; matched : string; groups : captures; rest : string }.

Definition at_here (r : re) (prev : option ascii) (s : string) (i : nat) : option found :=
  run r prev s []
    (fun _ s' caps =>
       Some {| index := i;
               matched := Str.take (String.length s - String.length s') s;
               groups := caps; rest := s' |}).

(** The leftmost match in [s], which stands at offset [i] of the whole text. *)
Fixpoint scan (r : re) (prev : option ascii) (s : string) (i : nat) : option found :=
  match at_here r prev s i with
  | Some f => Some f
  | None =>
      match s with
      | String a s' => scan r (Some a) s' (S i)
      | EmptyString => None
      end
  end.

(** [re.exec(s)] and [s.match(re)] without the [g] flag. *)
Definition exec (r : re) (s : string) : option found := scan r None s 0.

(** [s.search(re)] *)
Definition search (r : re) (s : string) : Z :=
  match exec r s with
  | Some f => Z.of_nat (index f)
  | None => -1
  end.

(** [re.test(s)] *)
Definition test (r : re) (s : string) : bool :=
  match exec r s with Some _ => true | None => false end.

Definition last_char (prev : option ascii) (s : string) : option ascii :=
  match Str.drop (String.length s - 1) s with
  | String a _ => Some a
  | EmptyString => prev
  end.

(** Every match of a [g] pattern, left to right; after an empty match the
    search moves on by one character. *)
Fixpoint all_from (fuel : nat) (r : re) (prev : option ascii) (s : string) (i : nat)
  : list found :=
  match fuel with
  | O => []
  | S fuel' =>
      match scan r prev s i with
      | None => []
      | Some f =>
          f :: match matched f, rest f with
               | EmptyString, String a s' => all_from fuel' r (Some a) s' (S (index f))
               | EmptyString, EmptyString => []
               | m, s' => all_from fuel' r (last_char prev m) s' (index f + String.length m)
               end
      end
  end.

Definition all (r : re) (s : string) : list found :=
  all_from (S (String.length s)) r None s 0.

(** [s.replace(re, rep)] with the [g] flag and a fixed replacement. *)
Fixpoint replace_from (fuel : nat) (r : re) (rep : string) (prev : option ascii) (s : string)
  : string :=
  match fuel with
  | O => s
  | S fuel' =>
      match scan r prev s 0 with
      | None => s
      | Some f =>
          Str.take (index f) s +:+ rep +:+
          match matched f, rest f with
          | EmptyString, String a s' => String a (replace_from fuel' r rep (Some a) s')
          | EmptyString, EmptyString => EmptyString
          | m, s' => replace_from fuel' r rep (last_char prev m) s'
          end
      end
  end.

Definition replace_all (r : re) (rep : string) (s : string) : string :=
  replace_from (S (String.length s)) r rep None s.

End Matcher.

(** The first group of a match, [m[1]]. *)
Definition group1 (f : found) : string := nth 0 (groups f) EmptyString.
Definition group2 (f : found) : string := nth 1 (groups f) EmptyString.

End Re.

(** ** Control flow

    [St S] is the monad of a block that updates a local variable of type [S]
    (an array being filled, the [result] object of a normalizer) and may
    throw: the state reached when the exception is thrown is kept, since that
    is what the code after a [catch] sees. *)

Definition St (S A : Type) : Type := S -> res A * S.

#[global] Instance St_ret S : MRet (St S) := fun A a s => (Ok a, s).
#[global] Instance St_bind S : MBind (St S) := fun A B f m s =>
  match m s with
  | (Ok a, s') => f a s'
  | (Throw e, s') => (Throw e, s')
  end.

Definition lift {S A} (r : res A) : St S A := fun s => (r, s).
Definition modify {S} (f : S -> S) : St S unit := fun s => (Ok tt, f s).
Definition read {S} : St S S := fun s => (Ok s, s).
Definition skip {S} : St S unit := mret tt.
Definition when {S} (b : bool) (body : St S unit) : St S unit := if b then body else skip.

(** [try { body } catch (error) { console.warn(...) }]: the state the body
    reached is what remains. *)
Definition attempt {S} (body : St S unit) : St S unit :=
  fun s => (Ok tt, snd (body s)).

Fixpoint for_each {S A} (l : list A) (body : A -> St S unit) : St S unit :=
  match l with
  | [] => skip
  | x :: rest => _ ← body x; for_each rest body
  end.

(** A loop that may [return] a value: the first iteration that yields one
    ends the loop. *)
Fixpoint find_first {A B} (l : list A) (body : A -> res (option B)) : res (option B) :=
  match l with
  | [] => Ok None
  | x :: rest =>
      r ← body x;
      match r with
      | Some v => Ok (Some v)
      | None => find_first rest body
      end
  end.

(** [xs.push(x)], [xs.includes(s)] and [xs.filter(Boolean)] on a local array. *)
Definition push (x : value) (xs : list value) : list value := (xs ++ [x])%list.
Definition includes_str (xs : list value) (s : string) : bool :=
  existsb (fun v => is_str v s) xs.
Definition filter_Boolean (xs : list value) : list value := List.filter truthy xs.

(** A method of strings called on a value: a [TypeError] on anything else. *)
Definition as_string (v : value) : res string :=
  match v with VStr s => Ok s | _ => Throw TypeError end.

(** ** The host and the types module

    [JSON_parse] is [None] where [JSON.parse] throws its [SyntaxError];
    [JSON_stringify] is [None] where [JSON.stringify] returns [undefined];
    [exifr_parse] is the EXIF reader with the module's [pick] list.  The
    three type guards are declared in the types module of the repository. *)

Class Platform : Type := {
  JSON_parse : string -> option value;
  JSON_stringify : value -> option string;
  exifr_parse : list byte -> res value;
  isInvokeAIMetadata : value -> bool;
  isAutomatic1111Metadata : value -> bool;
  isComfyUIMetadata : value -> bool;
}.

(** [JSON.parse(v)] on a value that is a string. *)
Definition parse_json `{Platform} (text : string) : res value :=
  match JSON_parse text with
  | Some v => Ok v
  | None => Throw SyntaxError
  end.

(** ** Patterns of the module *)

Definition quote_chars : string := "'" +:+ Str.dq.

(** [/[Q]\s*([^Q]*\.safetensors|[^Q]*\.ckpt|[^Q]*\.pt)\s*[Q]/g], where
    [Q] stands for the two quote characters, single and double *)
Definition re_model_file : Re.re :=
  Re.cat [Re.Cls (Re.one_of quote_chars); Re.Star Re.space;
          Re.Grp (Re.Alt (Re.cat [Re.Star (Re.none_of quote_chars); Re.Lit ".safetensors"])
                 (Re.Alt (Re.cat [Re.Star (Re.none_of quote_chars); Re.Lit ".ckpt"])
                         (Re.cat [Re.Star (Re.none_of quote_chars); Re.Lit ".pt"])));
          Re.Star Re.space; Re.Cls (Re.one_of quote_chars)].

(** [/[Q]/g] *)
Definition re_quote : Re.re := Re.Cls (Re.one_of quote_chars).

(** [/Model:\s*([^,\n]+)/i] *)
Definition re_Model : Re.re :=
  Re.cat [Re.Lit "Model:"; Re.Star Re.space; Re.Grp (Re.Plus (Re.none_of ("," +:+ Str.nl)))].

Definition hex_digit (c : ascii) : bool :=
  Str.is_digit c || ((97 <=? Str.code c) && (Str.code c <=? 102))%N.

(** [/Model hash:\s*([a-f0-9]+)/i] *)
Definition re_Model_hash : Re.re :=
  Re.cat [Re.Lit "Model hash:"; Re.Star Re.space; Re.Grp (Re.Plus (Re.where_ hex_digit))].

(** [/^[a-f0-9\-]+$/i] *)
Definition re_hex_key : Re.re :=
  Re.cat [Re.Bol; Re.Plus (Re.where_ (fun c => hex_digit c || Ascii.eqb c "-")); Re.Eol].

(** [/<lora:([^:>]+):[^>]*>/gi] and [/<lyco:([^:>]+):[^>]*>/gi] *)
Definition re_lora_tag : Re.re :=
  Re.cat [Re.Lit "<lora:"; Re.Grp (Re.Plus (Re.none_of ":>")); Re.Lit ":";
          Re.Star (Re.none_of ">"); Re.Lit ">"].
Definition re_lyco_tag : Re.re :=
  Re.cat [Re.Lit "<lyco:"; Re.Grp (Re.Plus (Re.none_of ":>")); Re.Lit ":";
          Re.Star (Re.none_of ">"); Re.Lit ">"].

(** [/\blora:([^\s,>]+)/gi] and [/\blyco:([^\s,>]+)/gi] *)
Definition not_space_comma_gt : Re.cls :=
  Re.unless (fun c => Str.is_space c || Ascii.eqb c "," || Ascii.eqb c ">").
Definition re_lora_word : Re.re :=
  Re.cat [Re.WordB; Re.Lit "lora:"; Re.Grp (Re.Plus not_space_comma_gt)].
Definition re_lyco_word : Re.re :=
  Re.cat [Re.WordB; Re.Lit "lyco:"; Re.Grp (Re.Plus not_space_comma_gt)].

(** [/Sampler:\s*([^,\n]+)/i] *)
Definition re_Sampler : Re.re :=
  Re.cat [Re.Lit "Sampler:"; Re.Star Re.space; Re.Grp (Re.Plus (Re.none_of ("," +:+ Str.nl)))].

(** [/\n[A-Z][a-z]+:/] *)
Definition re_param_line : Re.re :=
  Re.cat [Re.Lit Str.nl; Re.Cls (Re.where_ Str.is_upper); Re.Plus (Re.where_ Str.is_lower);
          Re.Lit ":"].

(** [/Steps:\s*(\d+)/i], which is also [/Steps:\s*([0-9]+)/i] *)
Definition re_Steps : Re.re :=
  Re.cat [Re.Lit "Steps:"; Re.Star Re.space; Re.Grp (Re.Plus Re.digit)].

(** [/CFG scale:\s*([0-9.]+)/i] *)
Definition re_CFG_scale : Re.re :=
  Re.cat [Re.Lit "CFG scale:"; Re.Star Re.space;
          Re.Grp (Re.Plus (Re.where_ (fun c => Str.is_digit c || Ascii.eqb c ".")))].

(** [/Seed:\s*([0-9]+)/i] *)
Definition re_Seed : Re.re :=
  Re.cat [Re.Lit "Seed:"; Re.Star Re.space; Re.Grp (Re.Plus Re.digit)].

(** [/Size:\s*(\d+)\s*x\s*(\d+)/i] *)
Definition re_Size : Re.re :=
  Re.cat [Re.Lit "Size:"; Re.Star Re.space; Re.Grp (Re.Plus Re.digit); Re.Star Re.space;
          Re.Lit "x"; Re.Star Re.space; Re.Grp (Re.Plus Re.digit)].

(** [/Size:\s*([0-9]+x[0-9]+)/i] *)
Definition re_Size_text : Re.re :=
  Re.cat [Re.Lit "Size:"; Re.Star Re.space;
          Re.Grp (Re.cat [Re.Plus Re.digit; Re.Lit "x"; Re.Plus Re.digit])].

(** ** The metadata module *)

Section Metadata.

Context `{Platform}.

(** [v.toLowerCase().includes(needle)] *)
Definition lower_includes (v : value) (needle : string) : res bool :=
  s ← as_string v; Ok (Str.includes (Str.toLowerCase s) needle).

(** [v && v.toLowerCase().includes(needle)] as a condition *)
Definition has_word (v : value) (needle : string) : res bool :=
  if truthy v then lower_includes v needle else Ok false.

(** A loop over a list that threads a local variable and may throw. *)
Fixpoint fold_res {A S} (l : list A) (s : S) (body : S -> A -> res S) : res S :=
  match l with
  | [] => Ok s
  | x :: rest => s' ← body s x; fold_res rest s' body
  end.

(** ['normalizedMetadata' in metadata && metadata.normalizedMetadata]: the
    cache, when the test holds. *)
Definition normalized_of (metadata : value) : res (option value) :=
  b ← has_in "normalizedMetadata" metadata;
  if b && truthy (prop metadata "normalizedMetadata")
  then Ok (Some (prop metadata "normalizedMetadata"))
  else Ok None.

(** [metadata && typeof metadata === 'object' && 'normalizedMetadata' in
    metadata && metadata.normalizedMetadata] *)
Definition normalized_of_object (metadata : value) : res (option value) :=
  if truthy metadata && is_object metadata then normalized_of metadata else Ok None.

(** *** Models *)

Definition extractModelName (modelData : value) : value :=
  match modelData with
  | VStr s => VStr (Str.trim s)
  | _ =>
      if truthy modelData && is_object modelData then
        let possibleNames :=
          [prop modelData "name"; prop modelData "model"; prop modelData "model_name";
           prop modelData "base_model"; prop modelData "mechanism"; prop modelData "type"] in
        match List.find (fun name => match name with
                                     | VStr s => negb (Str.is_empty s) && negb (Str.is_empty (Str.trim s))
                                     | _ => false
                                     end) possibleNames with
        | Some name => VStr (Str.trim (ToString name))
        | None =>
            match prop modelData "key" with
            | VStr k =>
                if Str.is_empty k then VNull
                else
                  let key := Str.trim k in
                  if (20 <? String.length key)%nat && Re.test true re_hex_key key then
                    let mechanism :=
                      prop modelData "mechanism" ||| prop modelData "type" ||| VStr "Model" in
                    VStr (ToString mechanism +:+ " (" +:+ Str.substring key 0 8 +:+ "...)")
                  else VStr key
            | _ => VNull
            end
        end
      else VNull
  end.

(** [if (x) { const modelName = extractModelName(x); if (modelName) models.push(modelName); }] *)
Definition push_model_name (x : value) (models : list value) : list value :=
  if truthy x then
    let modelName := extractModelName x in
    if truthy modelName then push modelName models else models
  else models.

(** The last piece of [s.split(sep)], or [s] when that piece is empty. *)
Definition last_piece (sep : ascii) (s : string) : string :=
  let piece := List.last (Str.split sep s) EmptyString in
  if Str.is_empty piece then s else piece.

Definition extractModelsFromInvokeAI (metadata : value) : res value :=
  model ← get metadata "model";
  let models := push_model_name model [] in
  let models := push_model_name (prop metadata "base_model") models in
  let models := push_model_name (prop metadata "model_name") models in
  match JSON_stringify metadata with
  | None => Throw TypeError
  | Some text =>
      let metadataStr := Str.toLowerCase text in
      let modelMatches := Re.all false re_model_file metadataStr in
      let models :=
        List.fold_left
          (fun models m =>
             let modelName := Str.trim (Re.replace_all false re_quote "" (Re.matched m)) in
             let modelName := last_piece "/" modelName in
             let modelName := last_piece "\" modelName in
             if negb (Str.is_empty modelName) && negb (includes_str models modelName)
             then push (VStr modelName) models else models)
          modelMatches models in
      Ok (arr (filter_Boolean models))
  end.

Definition extractModelsFromAutomatic1111 (metadata : value) : res value :=
  p ← get metadata "parameters";
  params ← as_string p;
  let models :=
    match Re.exec true re_Model params with
    | Some modelMatch =>
        let modelName := Str.trim (Re.group1 modelMatch) in
        if negb (Str.is_empty modelName) then [VStr modelName] else []
    | None => []
    end in
  let models :=
    match Re.exec true re_Model_hash params with
    | Some hashMatch =>
        let hash := Str.trim (Re.group1 hashMatch) in
        match models with
        | [] => [VStr ("Model (" +:+ Str.substring hash 0 8 +:+ "...)")]
        | _ => models
        end
    | None => models
    end in
  Ok (arr models).

(** [if (typeof x === 'string' && x.trim()) xs.push(x.trim())] *)
Definition push_trimmed (x : value) : St (list value) unit :=
  match x with
  | VStr s => when (negb (Str.is_empty (Str.trim s))) (modify (push (VStr (Str.trim s))))
  | _ => skip
  end.

(** The loop over [Object.entries(node.inputs)] that collects the string
    inputs whose key contains one of two words. *)
Definition push_inputs (inputs : value) (word1 word2 : string) : St (list value) unit :=
  when (truthy inputs)
    (es ← lift (entries inputs);
     for_each es (fun kv =>
       when (Str.includes (Str.toLowerCase (fst kv)) word1
             || Str.includes (Str.toLowerCase (fst kv)) word2)
         (push_trimmed (snd kv)))).

(** [let x = metadata.k; if (typeof x === 'string') x = JSON.parse(x);] *)
Definition parsed_field (metadata : value) (k : string) : res value :=
  v ← get metadata k;
  match v with
  | VStr text => parse_json text
  | _ => Ok v
  end.

Definition extractModelsFromComfyUI (metadata : value) : res value :=
  let body : St (list value) unit :=
    workflow ← lift (parsed_field metadata "workflow");
    prompt ← lift (parsed_field metadata "prompt");
    _ ← when (truthy workflow && truthy (prop workflow "nodes"))
          (nodes ← lift (elements_of (prop workflow "nodes"));
           for_each nodes (fun node =>
             type ← lift (get node "type");
             c1 ← lift (has_word type "checkpoint");
             c2 ← lift (if c1 : bool then Ok true else has_word type "model");
             when c2
               (let widgets_values := prop node "widgets_values" in
                _ ← when (truthy widgets_values && gt (prop widgets_values "length") 0)
                      (push_trimmed (prop widgets_values "0"));
                push_inputs (prop node "inputs") "ckpt_name" "model")));
    when (truthy prompt)
      (es ← lift (entries prompt);
       for_each es (fun kv =>
         let node := snd kv in
         class_type ← lift (get node "class_type");
         c ← lift (has_word class_type "checkpoint");
         when c (push_inputs (prop node "inputs") "ckpt_name" "model"))) in
  Ok (arr (filter_Boolean (snd (attempt body [])))).

Definition possibleModelFields : list string :=
  ["model"; "model_name"; "ckpt_name"; "checkpoint"; "model_hash"].

Definition extractModelsFromRawMetadata (metadata : value) : res value :=
  models ← fold_res possibleModelFields ([] : list value) (fun models field =>
              x ← get metadata field; Ok (push_model_name x models));
  let nodes := get_opt (prop metadata "workflow") "nodes" in
  models ←
    (if truthy nodes then
       l ← elements_of nodes;
       fold_res l models (fun models node =>
         class_type ← get node "class_type";
         let ckpt_name := get_opt (prop node "inputs") "ckpt_name" in
         if is_str class_type "CheckpointLoaderSimple" && truthy ckpt_name
         then Ok (push_model_name ckpt_name models)
         else Ok models)
     else Ok models);
  Ok (arr models).

Definition extractModels (metadata : value) : res value :=
  cached ← normalized_of metadata;
  let hit :=
    match cached with
    | Some normalized =>
        if truthy (prop normalized "models") && isArray (prop normalized "models")
        then Some (prop normalized "models") else None
    | None => None
    end in
  match hit with
  | Some models => Ok models
  | None =>
      if isInvokeAIMetadata metadata then extractModelsFromInvokeAI metadata
      else if isAutomatic1111Metadata metadata then extractModelsFromAutomatic1111 metadata
      else if isComfyUIMetadata metadata then extractModelsFromComfyUI metadata
      else
        special ← normalized_of_object metadata;
        let hit :=
          match special with
          | Some normalized =>
              if truthy (prop normalized "models") && isArray (prop normalized "models")
              then Some (prop normalized "models")
              else if truthy (prop normalized "model") && is_string (prop normalized "model")
              then Some (arr [prop normalized "model"])
              else None
          | None => None
          end in
        match hit with
        | Some models => Ok models
        | None => extractModelsFromRawMetadata metadata
        end
  end.

(** *** LoRAs *)

(** [===] between a value that the module has stored and a candidate.
    Objects and arrays are equal only to themselves, and a candidate read
    from the metadata is never one that was stored before. *)
Definition same_value (a b : value) : bool :=
  match a, b with
  | VStr x, VStr y => Str.eqb x y
  | VNum x, VNum y => Num.eqb x y
  | VBool x, VBool y => Bool.eqb x y
  | VNull, VNull | VUndefined, VUndefined => true
  | _, _ => false
  end.
Definition includes_value (xs : list value) (v : value) : bool := existsb (same_value v) xs.

(** [xs.join(sep)] on an array of values *)
Definition join_values (sep : string) (xs : list value) : string :=
  Str.join sep (List.map (fun x => if nullish x then "" else ToString x) xs).

(** The [while ((match = pattern.exec(text)) !== null)] loop of the LoRA
    scans: every match of the pattern adds its first group, trimmed, unless
    it is empty or already there. *)
Definition scan_loras (pattern : Re.re) (text : string) (loras : list value) : list value :=
  List.fold_left
    (fun loras m =>
       let loraName := Str.trim (Re.group1 m) in
       if negb (Str.is_empty loraName) && negb (includes_str loras loraName)
       then push (VStr loraName) loras else loras)
    (Re.all true pattern text) loras.

(** The name of one entry of [metadata.loras], or the empty string. *)
Definition lora_entry_name (lora : value) : string :=
  match lora with
  | VStr s => Str.trim s
  | _ =>
      if truthy lora && is_object lora then
        let model := prop lora "model" in
        let directNames :=
          ([prop lora "name"; prop lora "model_name"; prop lora "key"]
           ++ (if truthy model && is_object model then
                 [prop model "name"; prop model "model"; prop model "model_name"; prop model "key"]
               else if truthy model && is_string model then [model]
               else []))%list in
        match List.find (fun name => match name with
                                     | VStr s => (0 <? String.length (Str.trim s))%nat
                                     | _ => false
                                     end) directNames with
        | Some name => Str.trim (ToString name)
        | None => ""
        end
      else ""
  end.

Definition extractLorasFromInvokeAI (metadata : value) : res value :=
  prompt ← get metadata "prompt";
  promptText ←
    match prompt with
    | VStr s => Ok s
    | VArr items _ =>
        parts ← fold_res items ([] : list value) (fun parts p =>
                   match p with
                   | VStr _ => Ok (push p parts)
                   | _ => x ← get p "prompt"; Ok (push x parts)
                   end);
        Ok (join_values " " parts)
    | _ => Ok ""
    end;
  let loras := scan_loras re_lora_tag promptText [] in
  let loras := scan_loras re_lyco_tag promptText loras in
  let loras := scan_loras re_lora_word promptText loras in
  let loras := scan_loras re_lyco_word promptText loras in
  let loras :=
    match prop metadata "loras" with
    | VArr items _ =>
        List.fold_left
          (fun loras lora =>
             let loraName := lora_entry_name lora in
             if negb (Str.is_empty loraName)
                && (0 <? String.length loraName)%nat
                && negb (Str.eqb loraName "[object Object]")
                && negb (includes_str loras loraName)
             then push (VStr loraName) loras else loras)
          items loras
    | _ => loras
    end in
  let lora := prop metadata "lora" in
  let loras :=
    if truthy lora then
      let loraName :=
        match lora with
        | VStr s => VStr (Str.trim s)
        | _ =>
            if is_object lora then
              let loraName := prop lora "name" ||| prop lora "model" ||| prop lora "key" in
              if is_string loraName then loraName
              else prop lora "key"
                   ||| match JSON_stringify lora with Some t => VStr t | None => VUndefined end
            else VStr ""
        end in
      if truthy loraName && gt (prop loraName "length") 0 && negb (includes_value loras loraName)
      then push loraName loras else loras
    else loras in
  Ok (arr (filter_Boolean loras)).

Definition extractLorasFromAutomatic1111 (metadata : value) : res value :=
  p ← get metadata "parameters";
  params ← as_string p;
  let loras := scan_loras re_lora_tag params [] in
  let loras := scan_loras re_lyco_tag params loras in
  Ok (arr loras).

(** [v && (v.toLowerCase().includes(w1) || v.toLowerCase().includes(w2))] *)
Definition has_either (v : value) (w1 w2 : string) : res bool :=
  if truthy v then
    s ← as_string v;
    Ok (Str.includes (Str.toLowerCase s) w1 || Str.includes (Str.toLowerCase s) w2)
  else Ok false.

Definition extractLorasFromComfyUI (metadata : value) : res value :=
  let body : St (list value) unit :=
    workflow ← lift (parsed_field metadata "workflow");
    prompt ← lift (parsed_field metadata "prompt");
    _ ← when (truthy workflow && truthy (prop workflow "nodes"))
          (nodes ← lift (elements_of (prop workflow "nodes"));
           for_each nodes (fun node =>
             type ← lift (get node "type");
             c ← lift (has_either type "lora" "lyco");
             when c
               (let widgets_values := prop node "widgets_values" in
                _ ← when (truthy widgets_values && gt (prop widgets_values "length") 0)
                      (push_trimmed (prop widgets_values "0"));
                push_inputs (prop node "inputs") "lora_name" "lyco_name")));
    when (truthy prompt)
      (es ← lift (entries prompt);
       for_each es (fun kv =>
         let node := snd kv in
         class_type ← lift (get node "class_type");
         c ← lift (has_either class_type "lora" "lyco");
         when c (push_inputs (prop node "inputs") "lora_name" "lyco_name"))) in
  Ok (arr (filter_Boolean (snd (attempt body [])))).

Definition possibleLoraFields : list string :=
  ["loras"; "lora"; "lora_name"; "lyco"; "lyco_name"].

Definition extractLorasFromRawMetadata (metadata : value) : res value :=
  loras ← fold_res possibleLoraFields ([] : list value) (fun loras field =>
             x ← get metadata field;
             if truthy x then
               match x with
               | VArr items _ =>
                   Ok (loras ++ List.filter
                                  (fun l => match l with
                                            | VStr s => negb (Str.is_empty (Str.trim s))
                                            | _ => false
                                            end) items)%list
               | VStr s => Ok (push (VStr (Str.trim s)) loras)
               | _ => Ok loras
               end
             else Ok loras);
  let nodes := get_opt (prop metadata "workflow") "nodes" in
  loras ←
    (if truthy nodes then
       l ← elements_of nodes;
       fold_res l loras (fun loras node =>
         class_type ← get node "class_type";
         c ← has_either class_type "lora" "lyco";
         let lora_name := get_opt (prop node "inputs") "lora_name" in
         if (c : bool) && truthy lora_name then Ok (push lora_name loras) else Ok loras)
     else Ok loras);
  Ok (arr loras).

Definition extractLoras (metadata : value) : res value :=
  cached ← normalized_of metadata;
  let hit :=
    match cached with
    | Some normalized =>
        if truthy (prop normalized "loras") && isArray (prop normalized "loras")
        then Some (prop normalized "loras") else None
    | None => None
    end in
  match hit with
  | Some loras => Ok loras
  | None =>
      if isInvokeAIMetadata metadata then extractLorasFromInvokeAI metadata
      else if isAutomatic1111Metadata metadata then extractLorasFromAutomatic1111 metadata
      else if isComfyUIMetadata metadata then extractLorasFromComfyUI metadata
      else extractLorasFromRawMetadata metadata
  end.

(** *** Scheduler *)

Definition extractSchedulerFromAutomatic1111 (metadata : value) : res value :=
  p ← get metadata "parameters";
  params ← as_string p;
  match Re.exec true re_Sampler params with
  | Some samplerMatch => Ok (VStr (Str.trim (Re.group1 samplerMatch)))
  | None => Ok (VStr "Unknown")
  end.

Definition extractSchedulerFromComfyUI (metadata : value) : res value :=
  let body : res (option value) :=
    prompt ← parsed_field metadata "prompt";
    if truthy prompt then
      es ← entries prompt;
      find_first es (fun kv =>
        let node := snd kv in
        class_type ← get node "class_type";
        c ← has_word class_type "sampler";
        if (c : bool) && truthy (prop node "inputs") then
          let inputs := prop node "inputs" in
          match prop inputs "sampler_name" ||| prop inputs "scheduler" with
          | VStr samplerName =>
              if negb (Str.is_empty (Str.trim samplerName))
              then Ok (Some (VStr (Str.trim samplerName))) else Ok None
          | _ => Ok None
          end
        else Ok None)
    else Ok None in
  match body with
  | Ok (Some v) => Ok v
  | _ => Ok (VStr "Unknown")
  end.

Definition possibleSchedulerFields : list string :=
  ["scheduler"; "sampler"; "sampler_name"; "sampling_method"].

Definition extractSchedulerFromRawMetadata (metadata : value) : res value :=
  found ← find_first possibleSchedulerFields (fun field =>
             x ← get metadata field;
             match x with
             | VStr s => if Str.is_empty s then Ok None else Ok (Some (VStr (Str.trim s)))
             | _ => Ok None
             end);
  match found with
  | Some v => Ok v
  | None =>
      let nodes := get_opt (prop metadata "workflow") "nodes" in
      found ←
        (if truthy nodes then
           l ← elements_of nodes;
           find_first l (fun node =>
             class_type ← get node "class_type";
             c ← has_word class_type "sampler";
             let sampler_name := get_opt (prop node "inputs") "sampler_name" in
             if (c : bool) && truthy sampler_name then Ok (Some sampler_name) else Ok None)
         else Ok None);
      match found with
      | Some v => Ok v
      | None => Ok (VStr "Unknown")
      end
  end.

Definition extractScheduler (metadata : value) : res value :=
  cached ← normalized_of metadata;
  let hit :=
    match cached with
    | Some normalized =>
        if truthy (prop normalized "scheduler") then Some (prop normalized "scheduler") else None
    | None => None
    end in
  match hit with
  | Some scheduler => Ok scheduler
  | None =>
      if isInvokeAIMetadata metadata then
        scheduler ← get metadata "scheduler"; Ok (scheduler ||| VStr "Unknown")
      else if isAutomatic1111Metadata metadata then extractSchedulerFromAutomatic1111 metadata
      else if isComfyUIMetadata metadata then extractSchedulerFromComfyUI metadata
      else extractSchedulerFromRawMetadata metadata
  end.

(** *** Boards

    [boardIdCache] and [boardCounter] are module-level variables: the
    functions that reach them run in [St BoardState].  The [Map] is declared
    on string keys, and [boardIdCache] holds those.  The callers pass what
    the metadata holds, which need not be a string: the entries of the [Map]
    under keys of another type are in [untypedBoardIds], latest first.  The
    counter is a number that is never reset; it is exact while below 2^53. *)

Record BoardState : Type := {
  boardIdCache : gmap string string;
  untypedBoardIds : list (value * string);
  boardCounter : N;
}.

(** [const boardIdCache = new Map(); let boardCounter = 1;] *)
Definition initial_boards : BoardState :=
  {| boardIdCache := ∅; untypedBoardIds := []; boardCounter := 1 |}.

Definition getFriendlyBoardName (boardId : string) : St BoardState string :=
  fun st =>
    match boardIdCache st !! boardId with
    | Some name => (Ok name, st)
    | None =>
        let friendlyName := "My Board " +:+ pretty (boardCounter st) in
        (Ok friendlyName,
         {| boardIdCache := <[boardId := friendlyName]> (boardIdCache st);
            untypedBoardIds := untypedBoardIds st;
            boardCounter := N.succ (boardCounter st) |})
    end.

(** The call [getFriendlyBoardName(boardId)] on a value read from the
    metadata.  A [Map] finds a number or a boolean again by its value, and an
    object or an array only when it is the very same object; each look-up
    here presents a value that was parsed anew, so an object or an array is
    stored and not found again. *)
Definition friendly_name_of (boardId : value) : St BoardState value :=
  match boardId with
  | VStr s => name ← getFriendlyBoardName s; mret (VStr name)
  | _ =>
      fun st =>
        match List.find (fun entry => same_value (fst entry) boardId) (untypedBoardIds st) with
        | Some entry => (Ok (VStr (snd entry)), st)
        | None =>
            let friendlyName := "My Board " +:+ pretty (boardCounter st) in
            (Ok (VStr friendlyName),
             {| boardIdCache := boardIdCache st;
                untypedBoardIds := (boardId, friendlyName) :: untypedBoardIds st;
                boardCounter := N.succ (boardCounter st) |})
        end
  end.

Definition extractBoardFromWorkflow (workflow : value) : St BoardState value :=
  if negb (truthy workflow) || negb (truthy (prop workflow "nodes")) then mret VNull
  else
    nodes ← lift (elements_of (prop workflow "nodes"));
    (fix loop (nodes : list value) : St BoardState value :=
       match nodes with
       | [] => mret VNull
       | node :: rest =>
           data ← lift (get node "data");
           let type := get_opt data "type" in
           if truthy data && truthy type && (is_str type "l2i" || is_str type "canvas_output")
           then
             let boardInput := get_opt (prop data "inputs") "board" in
             if truthy (prop data "inputs") && truthy boardInput
                && truthy (prop boardInput "value")
                && truthy (prop (prop boardInput "value") "board_id")
             then friendly_name_of (prop (prop boardInput "value") "board_id")
             else loop rest
           else loop rest
       end) nodes.

(** [if (metadata.k && typeof metadata.k === 'string') return metadata.k.trim();] *)
Definition trimmed_string_field (metadata : value) (k : string) : option value :=
  match prop metadata k with
  | VStr s => if Str.is_empty s then None else Some (VStr (Str.trim s))
  | _ => None
  end.

(** The first candidate that is there. *)
Fixpoint first_some (candidates : list (option value)) : option value :=
  match candidates with
  | [] => None
  | Some v :: _ => Some v
  | None :: rest => first_some rest
  end.

Definition board_done (v : value) : St BoardState value := mret v.

Definition extractBoardFromInvokeAI (metadata : value) : St BoardState value :=
  board_name ← lift (get metadata "board_name");
  let board := prop metadata "board" in
  let direct :=
    first_some
      [trimmed_string_field metadata "board_name";
       trimmed_string_field metadata "board_id";
       trimmed_string_field metadata "boardName";
       trimmed_string_field metadata "boardId";
       trimmed_string_field metadata "Board Name";
       (if truthy board && is_object board then
          if truthy (prop board "name") then Some (prop board "name")
          else if truthy (prop board "board_name") then Some (prop board "board_name")
          else if truthy (prop board "id") then Some (prop board "id")
          else None
        else None);
       trimmed_string_field metadata "board"] in
  match direct with
  | Some v => board_done v
  | None =>
      let canvasData := prop metadata "canvas_v2_metadata" in
      let canvas_board_id :=
        if truthy canvasData && is_object canvasData then
          if truthy (prop canvasData "board_id") then Some (prop canvasData "board_id")
          else
            let boardObj := prop canvasData "board" in
            if truthy boardObj && is_object boardObj && truthy (prop boardObj "board_id")
            then Some (prop boardObj "board_id") else None
        else None in
      match canvas_board_id with
      | Some boardId => friendly_name_of boardId
      | None =>
          let workflow := prop metadata "workflow" in
          boardInfo ←
            (if truthy workflow && is_object workflow then
               match workflow with
               | VStr text =>
                   fun st =>
                     match parse_json text with
                     | Ok workflowObj =>
                         match extractBoardFromWorkflow workflowObj st with
                         | (Ok v, st') => (Ok v, st')
                         | (Throw _, st') => (Ok VNull, st')
                         end
                     | Throw _ => (Ok VNull, st)
                     end
               | _ => extractBoardFromWorkflow workflow
               end
             else board_done VNull);
          if truthy boardInfo then board_done boardInfo
          else
            es ← lift (entries metadata);
            match List.find (fun kv => Str.includes (Str.toLowerCase (fst kv)) "board"
                                       && match snd kv with
                                          | VStr s => negb (Str.is_empty (Str.trim s))
                                          | _ => false
                                          end) es with
            | Some kv => board_done (VStr (Str.trim (ToString (snd kv))))
            | None => board_done (VStr "Uncategorized")
            end
      end
  end.

Definition extractBoard (metadata : value) : St BoardState value :=
  if isInvokeAIMetadata metadata then extractBoardFromInvokeAI metadata
  else mret (VStr "Uncategorized").

(** *** The Automatic1111 grammar *)

(** [result.k = v] on the [result] object of a normalizer. *)
Definition put (k : string) (v : value) (result : value) : value :=
  match result with
  | VObj fields => VObj (update_field k v fields)
  | _ => result
  end.

Definition A1111_result : value :=
  VObj [("prompt", VStr ""); ("model", VStr ""); ("width", num 0); ("height", num 0);
        ("steps", num 0); ("scheduler", VStr ""); ("negativePrompt", VStr "");
        ("cfgScale", num 0); ("seed", VUndefined)].

Definition Negative_prompt_mark : string := Str.nl +:+ "Negative prompt:".

(** [parameters] is a string at every call, and no statement of the [try]
    block can throw on a string. *)
Definition parseA1111Metadata (parameters : string) : value :=
  let result := A1111_result in
  let negativePromptIndex := Str.indexOf parameters Negative_prompt_mark 0 in
  let result :=
    if negb (negativePromptIndex =? -1) then
      put "prompt" (VStr (Str.trim (Str.substring parameters 0 negativePromptIndex))) result
    else
      let firstParamIndex := Re.search false re_param_line parameters in
      if negb (firstParamIndex =? -1) then
        put "prompt" (VStr (Str.trim (Str.substring parameters 0 firstParamIndex))) result
      else put "prompt" (VStr (Str.trim parameters)) result in
  let result :=
    if negb (negativePromptIndex =? -1) then
      let negativePromptEndIndex := Str.indexOf parameters Str.nl (negativePromptIndex + 1) in
      if negb (negativePromptEndIndex =? -1) then
        put "negativePrompt"
          (VStr (Str.trim (Str.substring parameters (negativePromptIndex + 17)
                             negativePromptEndIndex))) result
      else
        put "negativePrompt"
          (VStr (Str.trim (Str.substring_from parameters (negativePromptIndex + 17)))) result
    else result in
  let result :=
    match Re.exec true re_Model parameters with
    | Some modelMatch => put "model" (VStr (Str.trim (Re.group1 modelMatch))) result
    | None => result
    end in
  let result :=
    match Re.exec true re_Steps parameters with
    | Some stepsMatch =>
        match Num.parseInt (Re.group1 stepsMatch) with
        | Some steps => put "steps" (VNum steps) result
        | None => result
        end
    | None => result
    end in
  let result :=
    match Re.exec true re_Sampler parameters with
    | Some samplerMatch => put "scheduler" (VStr (Str.trim (Re.group1 samplerMatch))) result
    | None => result
    end in
  let result :=
    match Re.exec true re_CFG_scale parameters with
    | Some cfgMatch =>
        match Num.parseFloat (Re.group1 cfgMatch) with
        | Some cfgScale => put "cfgScale" (VNum cfgScale) result
        | None => result
        end
    | None => result
    end in
  let result :=
    match Re.exec true re_Seed parameters with
    | Some seedMatch =>
        match Num.parseInt (Re.group1 seedMatch) with
        | Some seed => put "seed" (VNum seed) result
        | None => result
        end
    | None => result
    end in
  let result :=
    match Re.exec true re_Size parameters with
    | Some sizeMatch =>
        match Num.parseInt (Re.group1 sizeMatch), Num.parseInt (Re.group2 sizeMatch) with
        | Some width, Some height => put "height" (VNum height) (put "width" (VNum width) result)
        | _, _ => result
        end
    | None => result
    end in
  result.

(** [metadata.parameters && typeof metadata.parameters === 'string']: the
    embedded Automatic1111 block, parsed, when there is one. *)
Definition embedded_a1111 (metadata : value) : option value :=
  match prop metadata "parameters" with
  | VStr p => if Str.is_empty p then None else Some (parseA1111Metadata p)
  | _ => None
  end.

(** *** Prompt *)

(** The prompt of an Automatic1111 [parameters] string. *)
Definition a1111_prompt (params : string) : string :=
  let negativePromptIndex := Str.indexOf params Negative_prompt_mark 0 in
  if negb (negativePromptIndex =? -1) then
    Str.trim (Str.substring params 0 negativePromptIndex)
  else
    let firstParamIndex := Re.search false re_param_line params in
    if negb (firstParamIndex =? -1) then Str.trim (Str.substring params 0 firstParamIndex)
    else Str.trim params.

(** The InvokeAI branch of [extractPrompt]: [Some] when it returns. *)
Definition invokeai_prompt (metadata : value) : res (option value) :=
  let positive_prompt := prop metadata "positive_prompt" in
  let negative_prompt := prop metadata "negative_prompt" in
  if truthy positive_prompt then
    if truthy negative_prompt then
      Ok (Some (VStr (ToString positive_prompt +:+ " ### " +:+ ToString negative_prompt)))
    else Ok (Some positive_prompt)
  else
    match prop metadata "prompt" with
    | VStr s => Ok (Some (VStr s))
    | VArr items _ =>
        parts ← fold_res items ([] : list value) (fun parts p =>
                   match p with
                   | VStr _ => Ok (push p parts)
                   | _ => Ok (push (get_opt p "prompt" ||| VStr "") parts)
                   end);
        kept ← fold_res parts ([] : list value) (fun kept p =>
                  s ← as_string p;
                  Ok (if Str.is_empty (Str.trim s) then kept else push p kept));
        Ok (Some (VStr (join_values " " kept)))
    | VNull => Throw TypeError
    | VObj fields =>
        if truthy (prop (VObj fields) "prompt") then Ok (Some (prop (VObj fields) "prompt"))
        else Ok None
    | _ => Ok None
    end.

(** The ComfyUI branch of [extractPrompt], inside its [try]. *)
Definition comfyui_prompt (metadata : value) : res (option value) :=
  prompt ← parsed_field metadata "prompt";
  if truthy prompt then
    es ← entries prompt;
    encoded ← find_first es (fun kv =>
                 let node := snd kv in
                 class_type ← get node "class_type";
                 c1 ← has_word class_type "text";
                 c2 ← (if c1 : bool then has_word class_type "encode" else Ok false);
                 if (c2 : bool) && truthy (prop node "inputs") then
                   match prop (prop node "inputs") "text" with
                   | VStr text =>
                       if Str.is_empty text then Ok None else Ok (Some (VStr (Str.trim text)))
                   | _ => Ok None
                   end
                 else Ok None);
    match encoded with
    | Some v => Ok (Some v)
    | None =>
        find_first es (fun kv =>
          let node := snd kv in
          inputs ← get node "inputs";
          if truthy inputs then
            match prop inputs "text" with
            | VStr text =>
                if Str.is_empty text then Ok None else Ok (Some (VStr (Str.trim text)))
            | _ => Ok None
            end
          else Ok None)
    end
  else Ok None.

Definition extractPrompt (metadata : value) : res value :=
  cached ← normalized_of metadata;
  let hit :=
    match cached with
    | Some normalized =>
        if truthy (prop normalized "prompt") then Some (prop normalized "prompt") else None
    | None => None
    end in
  match hit with
  | Some prompt => Ok prompt
  | None =>
      let embedded :=
        match embedded_a1111 metadata with
        | Some a1111Data =>
            if truthy (prop a1111Data "prompt") then Some (prop a1111Data "prompt") else None
        | None => None
        end in
      match embedded with
      | Some prompt => Ok prompt
      | None =>
          from_invokeai ←
            (if isInvokeAIMetadata metadata then invokeai_prompt metadata else Ok None);
          match from_invokeai with
          | Some prompt => Ok prompt
          | None =>
              if isAutomatic1111Metadata metadata then
                params ← as_string (prop metadata "parameters");
                Ok (VStr (a1111_prompt params))
              else
                let from_comfyui :=
                  if isComfyUIMetadata metadata then
                    match comfyui_prompt metadata with
                    | Ok (Some prompt) => Some prompt
                    | _ => None
                    end
                  else None in
                match from_comfyui with
                | Some prompt => Ok prompt
                | None =>
                    special ← normalized_of_object metadata;
                    match special with
                    | Some normalized =>
                        if truthy (prop normalized "prompt") && is_string (prop normalized "prompt")
                        then Ok (prop normalized "prompt") else Ok (VStr "")
                    | None => Ok (VStr "")
                    end
                end
          end
      end
  end.

Definition extractNegativePrompt (metadata : value) : res value :=
  cached ← normalized_of metadata;
  let hit :=
    match cached with
    | Some normalized =>
        if truthy (prop normalized "negativePrompt")
        then Some (prop normalized "negativePrompt") else None
    | None => None
    end in
  match hit with
  | Some negativePrompt => Ok negativePrompt
  | None =>
      special ← normalized_of_object metadata;
      match special with
      | Some normalized =>
          if truthy (prop normalized "negativePrompt")
             && is_string (prop normalized "negativePrompt")
          then Ok (prop normalized "negativePrompt") else Ok VUndefined
      | None => Ok VUndefined
      end
  end.

(** *** CFG scale, steps, seed, dimensions *)

(** [normalized.k !== undefined && typeof normalized.k === 'number'] *)
Definition cached_number (cached : option value) (k : string) : option value :=
  match cached with
  | Some normalized =>
      if negb (is_undefined (prop normalized k)) && is_number (prop normalized k)
      then Some (prop normalized k) else None
  | None => None
  end.

(** [if (a1111Data.k) return a1111Data.k;] on the embedded block *)
Definition embedded_field (metadata : value) (k : string) : option value :=
  match embedded_a1111 metadata with
  | Some a1111Data => if truthy (prop a1111Data k) then Some (prop a1111Data k) else None
  | None => None
  end.

(** The ComfyUI branch of the three numeric extractors, inside its [try]:
    the first [KSampler] node of the workflow whose input [k] is there and
    parses to a number. *)
Definition ksampler_input (metadata : value) (k : string) (parse : value -> option Q)
  : res (option value) :=
  workflow ← parsed_field metadata "workflow";
  if truthy workflow then
    es ← entries workflow;
    find_first es (fun kv =>
      let node := snd kv in
      class_type ← get node "class_type";
      if is_str class_type "KSampler" && truthy (prop node "inputs")
         && truthy (prop (prop node "inputs") k)
      then
        match parse (prop (prop node "inputs") k) with
        | Some x => Ok (Some (VNum x))
        | None => Ok None
        end
      else Ok None)
  else Ok None.

(** [try { ... } catch (error) { console.warn(...) }] around a branch that
    may return. *)
Definition caught (body : res (option value)) : option value :=
  match body with
  | Ok (Some v) => Some v
  | _ => None
  end.

Definition extractCfgScale (metadata : value) : res value :=
  cached ← normalized_of metadata;
  match cached_number cached "cfgScale" with
  | Some cfgScale => Ok cfgScale
  | None =>
  match embedded_field metadata "cfgScale" with
  | Some cfgScale => Ok cfgScale
  | None =>
      if isInvokeAIMetadata metadata then Ok (prop metadata "cfg_scale")
      else
        from_a1111 ←
          (if isAutomatic1111Metadata metadata then
             params ← as_string (prop metadata "parameters");
             match Re.exec true re_CFG_scale params with
             | Some cfgMatch =>
                 match Num.parseFloat (Re.group1 cfgMatch) with
                 | Some cfgScale => Ok (Some (VNum cfgScale))
                 | None => Ok (Some VUndefined)
                 end
             | None => Ok None
             end
           else Ok None);
        match from_a1111 with
        | Some v => Ok v
        | None =>
            match (if isComfyUIMetadata metadata
                   then caught (ksampler_input metadata "cfg" parseFloat) else None) with
            | Some cfg => Ok cfg
            | None =>
                special ← normalized_of_object metadata;
                match cached_number special "cfgScale" with
                | Some cfgScale => Ok cfgScale
                | None => Ok VUndefined
                end
            end
        end
  end end.

Definition extractSteps (metadata : value) : res value :=
  cached ← normalized_of metadata;
  match cached_number cached "steps" with
  | Some steps => Ok steps
  | None =>
  special ← normalized_of_object metadata;
  match cached_number special "steps" with
  | Some steps => Ok steps
  | None =>
  match embedded_field metadata "steps" with
  | Some steps => Ok steps
  | None =>
      if isInvokeAIMetadata metadata then Ok (prop metadata "steps")
      else
        from_a1111 ←
          (if isAutomatic1111Metadata metadata then
             params ← as_string (prop metadata "parameters");
             match Re.exec true re_Steps params with
             | Some stepsMatch =>
                 match Num.parseInt (Re.group1 stepsMatch) with
                 | Some steps => Ok (Some (VNum steps))
                 | None => Ok (Some VUndefined)
                 end
             | None => Ok None
             end
           else Ok None);
        match from_a1111 with
        | Some v => Ok v
        | None =>
            match (if isComfyUIMetadata metadata
                   then caught (ksampler_input metadata "steps" parseInt) else None) with
            | Some steps => Ok steps
            | None => Ok VUndefined
            end
        end
  end end end.

Definition extractSeed (metadata : value) : res value :=
  cached ← normalized_of metadata;
  match cached_number cached "seed" with
  | Some seed => Ok seed
  | None =>
  match embedded_field metadata "seed" with
  | Some seed => Ok seed
  | None =>
      if isInvokeAIMetadata metadata then Ok (prop metadata "seed")
      else
        from_a1111 ←
          (if isAutomatic1111Metadata metadata then
             params ← as_string (prop metadata "parameters");
             match Re.exec true re_Seed params with
             | Some seedMatch =>
                 match Num.parseInt (Re.group1 seedMatch) with
                 | Some seed => Ok (Some (VNum seed))
                 | None => Ok (Some VUndefined)
                 end
             | None => Ok None
             end
           else Ok None);
        match from_a1111 with
        | Some v => Ok v
        | None =>
            match (if isComfyUIMetadata metadata
                   then caught (ksampler_input metadata "seed" parseInt) else None) with
            | Some seed => Ok seed
            | None =>
                special ← normalized_of_object metadata;
                match cached_number special "seed" with
                | Some seed => Ok seed
                | None => Ok VUndefined
                end
            end
        end
  end end.

(** The template [`${width}x${height}`] *)
Definition dimensions_text (width height : value) : value :=
  VStr (ToString width +:+ "x" +:+ ToString height).

(** [if (o.width && o.height) return `${o.width}x${o.height}`;] *)
Definition dimensions_of (o : value) (w h : string) : option value :=
  if truthy (prop o w) && truthy (prop o h)
  then Some (dimensions_text (prop o w) (prop o h)) else None.

(** The ComfyUI branch of [extractDimensions], inside its [try]. *)
Definition comfyui_dimensions (metadata : value) : res (option value) :=
  workflow ← parsed_field metadata "workflow";
  if truthy workflow then
    es ← entries workflow;
    find_first es (fun kv =>
      let node := snd kv in
      class_type ← get node "class_type";
      if is_str class_type "EmptyLatentImage" && truthy (prop node "inputs")
      then Ok (dimensions_of (prop node "inputs") "width" "height")
      else Ok None)
  else Ok None.

Definition extractDimensions (metadata : value) : res value :=
  cached ← normalized_of metadata;
  match from_option (fun normalized => dimensions_of normalized "width" "height") None cached with
  | Some dimensions => Ok dimensions
  | None =>
  match from_option (fun a1111Data => dimensions_of a1111Data "width" "height") None
          (embedded_a1111 metadata) with
  | Some dimensions => Ok dimensions
  | None =>
  match (if isInvokeAIMetadata metadata
         then dimensions_of metadata "width" "height" else None) with
  | Some dimensions => Ok dimensions
  | None =>
      from_a1111 ←
        (if isAutomatic1111Metadata metadata then
           params ← as_string (prop metadata "parameters");
           match Re.exec true re_Size_text params with
           | Some sizeMatch => Ok (Some (VStr (Re.group1 sizeMatch)))
           | None => Ok None
           end
         else Ok None);
      match from_a1111 with
      | Some v => Ok v
      | None =>
          match (if isComfyUIMetadata metadata
                 then caught (comfyui_dimensions metadata) else None) with
          | Some dimensions => Ok dimensions
          | None => Ok VUndefined
          end
      end
  end end end.

(** *** The InvokeAI normalizer *)

Definition set_field (k : string) (v : value) : St value unit := modify (put k v).

(** [if (metadata.k) result.k' = metadata.k;] *)
Definition copy_if_truthy (metadata : value) (k k' : string) : St value unit :=
  when (truthy (prop metadata k)) (set_field k' (prop metadata k)).

Definition InvokeAI_result : value :=
  VObj [("format", VStr "InvokeAI"); ("prompt", VStr ""); ("model", VStr "");
        ("width", num 0); ("height", num 0); ("steps", num 0); ("scheduler", VStr "");
        ("negativePrompt", VStr ""); ("cfgScale", num 0); ("seed", VUndefined);
        ("models", arr []); ("loras", arr [])].

Definition parseInvokeAIMetadata (metadata : value) : value :=
  let body : St value unit :=
    positive_prompt ← lift (get metadata "positive_prompt");
    _ ← match positive_prompt, prop metadata "prompt" with
        | VStr s, _ => set_field "prompt" (VStr s)
        | _, VStr s => set_field "prompt" (VStr s)
        | _, VArr items _ =>
            parts ← lift (fold_res items ([] : list value) (fun parts p =>
                      match p with
                      | VStr _ => Ok (push p parts)
                      | _ => x ← get p "prompt"; Ok (push (x ||| VStr "") parts)
                      end));
            kept ← lift (fold_res parts ([] : list value) (fun kept p =>
                     s ← as_string p;
                     Ok (if Str.is_empty (Str.trim s) then kept else push p kept)));
            set_field "prompt" (VStr (join_values " " kept))
        | _, _ => skip
        end;
    _ ← match prop metadata "negative_prompt" with
        | VStr s => set_field "negativePrompt" (VStr s)
        | _ => skip
        end;
    _ ← copy_if_truthy metadata "model_name" "model";
    _ ← copy_if_truthy metadata "width" "width";
    _ ← copy_if_truthy metadata "height" "height";
    _ ← copy_if_truthy metadata "steps" "steps";
    _ ← copy_if_truthy metadata "scheduler" "scheduler";
    _ ← copy_if_truthy metadata "cfg_scale" "cfgScale";
    _ ← copy_if_truthy metadata "seed" "seed";
    models ← lift (extractModelsFromInvokeAI metadata);
    _ ← set_field "models" models;
    loras ← lift (extractLorasFromInvokeAI metadata);
    _ ← set_field "loras" loras;
    when (gt (prop models "length") 0) (set_field "model" (prop models "0")) in
  snd (attempt body InvokeAI_result).

(** *** The ComfyUI normalizer *)

Definition ComfyUI_result : value :=
  VObj [("prompt", VStr ""); ("model", VStr ""); ("width", num 0); ("height", num 0);
        ("steps", num 0); ("scheduler", VStr ""); ("models", arr []); ("loras", arr []);
        ("board", VStr ""); ("negativePrompt", VStr ""); ("cfgScale", num 0);
        ("seed", VUndefined)].

(** [result.k.push(x)] *)
Definition push_to (k : string) (x : value) (result : value) : value :=
  match prop result k with
  | VArr items extra => put k (VArr (push x items) extra) result
  | _ => result
  end.

(** [o.k1 || o.k2 || ... || o.kn] *)
Fixpoint first_truthy (o : value) (keys : list string) : value :=
  match keys with
  | [] => VUndefined
  | [k] => prop o k
  | k :: rest => if truthy (prop o k) then prop o k else first_truthy o rest
  end.

(** The negative-prompt test of the text-encode pass, on the text of the
    node. *)
Definition isNegative (text : string) : bool :=
  Str.includes (Str.toLowerCase text) "blur"
  || Str.includes (Str.toLowerCase text) "deform"
  || Str.includes (Str.toLowerCase text) "ugly"
  || Str.includes (Str.toLowerCase text) "worst"
  || Str.includes (Str.toLowerCase text) "low quality"
  || Str.includes (Str.toLowerCase text) "bad"
  || Str.includes (Str.toLowerCase text) "negative".

(** The negative-prompt test of the fallback scan, on [inputs.text]. *)
Definition isNegative_fallback (inputs_text : string) : bool :=
  let text := Str.toLowerCase inputs_text in
  Str.includes text "blur" || Str.includes text "deform" || Str.includes text "ugly"
  || Str.includes text "worst" || Str.includes text "low quality" || Str.includes text "bad".

(** The node tests on [classType], once it is known to be a string. *)
Definition any_of (classType : string) (names : list string) : bool :=
  existsb (Str.eqb classType) names.

Definition sampler_names : list string :=
  ["KSampler"; "SamplerCustom"; "Sampler"; "SamplerEuler"; "SamplerEulerAncestral";
   "SamplerDPMPP2M"; "SamplerDPMPP2MKarras"; "SamplerDPMAdaptive"; "SamplerLMS";
   "SamplerHeun"; "SamplerDPM2"; "SamplerDPM2Ancestral"; "SamplerUniPC"; "SamplerTCD";
   "SamplerLCM"].

Definition is_sampler (classType : string) : bool :=
  Str.includes (Str.toLowerCase classType) "sampler"
  || any_of classType sampler_names
  || Str.includes (Str.toLowerCase classType) "ksampler"
  || Str.includes (Str.toLowerCase classType) "sample".

Definition is_checkpoint (classType : string) : bool :=
  Str.includes (Str.toLowerCase classType) "checkpoint"
  || Str.includes (Str.toLowerCase classType) "model"
  || any_of classType ["CheckpointLoaderSimple"; "CheckpointLoader"].

Definition is_lora (classType : string) : bool :=
  Str.includes (Str.toLowerCase classType) "lora"
  || any_of classType ["LoraLoader"; "LoraLoaderModelOnly"; "LoraLoaderModel"].

Definition is_text_encode (classType : string) : bool :=
  Str.includes (Str.toLowerCase classType) "clip"
  && Str.includes (Str.toLowerCase classType) "text"
  && (Str.includes (Str.toLowerCase classType) "encode"
      || any_of classType ["CLIPTextEncode"; "CLIPTextEncodeSDXL"]).

Definition is_seed_node (classType : string) : bool :=
  Str.includes (Str.toLowerCase classType) "seed"
  || any_of classType ["Seed Everywhere"; "Random Seed"].

Definition is_size_node (classType : string) : bool :=
  Str.includes (Str.toLowerCase classType) "latent"
  || any_of classType ["EmptyLatentImage"; "LatentFromPrompt"; "EmptyImage"; "ImageSize";
                       "LatentUpscale"; "LatentDownscale"]
  || Str.includes (Str.toLowerCase classType) "image"
  || Str.includes (Str.toLowerCase classType) "size"
  || Str.includes (Str.toLowerCase classType) "dimension".

(** A string input parsed, or a number input taken as it is, when the
    number passes the test. *)
Definition accepted (v : value) (parse : string -> option Q) (ok : Q -> bool) : option value :=
  match v with
  | VStr s =>
      match parse s with
      | Some x => if ok x then Some (VNum x) else None
      | None => None
      end
  | VNum x => if ok x then Some v else None
  | _ => None
  end.

Definition positive (x : Q) : bool := Num.ltb 0 x.
Definition non_negative (x : Q) : bool := Num.leb 0 x.
Definition between (lo hi : Q) (x : Q) : bool := Num.ltb lo x && Num.ltb x hi.

(** [if (accepted) result.k = it;] *)
Definition set_accepted (k : string) (o : option value) : St value unit :=
  match o with
  | Some v => set_field k v
  | None => skip
  end.

(** The passes of the main loop over one node. *)

Definition visit_checkpoint (classType : string) (inputs : value) : St value unit :=
  when (is_checkpoint classType)
    (match first_truthy inputs ["ckpt_name"; "checkpoint"; "model_name"] with
     | VStr ckptName => when (negb (Str.is_empty ckptName)) (modify (push_to "models" (VStr ckptName)))
     | _ => skip
     end).

Definition visit_lora (classType : string) (inputs : value) : St value unit :=
  when (is_lora classType)
    (match first_truthy inputs ["lora_name"; "lora"; "name"] with
     | VStr loraName => when (negb (Str.is_empty loraName)) (modify (push_to "loras" (VStr loraName)))
     | _ => skip
     end).

Definition visit_text_encode (classType : string) (inputs : value) : St value unit :=
  when (is_text_encode classType)
    (match first_truthy inputs ["text"; "prompt"; "string"] with
     | VStr text =>
         when (negb (Str.is_empty text))
           (result ← read;
            if isNegative text && negb (truthy (prop result "negativePrompt"))
            then set_field "negativePrompt" (VStr text)
            else if negb (isNegative text) && negb (truthy (prop result "prompt"))
            then set_field "prompt" (VStr text)
            else skip)
     | _ => skip
     end).

Definition visit_sampler (classType : string) (inputs : value) : St value unit :=
  when (is_sampler classType)
    (let steps := first_truthy inputs ["steps"; "step_count"; "num_steps"; "steps_count"] in
     let cfg := first_truthy inputs ["cfg"; "cfg_scale"; "guidance_scale"; "scale"; "guidance";
                                     "cfg_value"] in
     let seed := first_truthy inputs ["seed"; "noise_seed"; "seed_value"] in
     let samplerName := first_truthy inputs ["sampler_name"; "sampler"; "sampling_method";
                                             "method"] in
     _ ← set_accepted "steps" (accepted steps Num.parseInt positive);
     _ ← set_accepted "cfgScale" (accepted cfg Num.parseFloat positive);
     _ ← when (negb (nullish seed))
           (if isArray seed then skip
            else set_accepted "seed" (accepted seed Num.parseInt non_negative));
     if truthy samplerName && is_string samplerName then set_field "scheduler" samplerName
     else if truthy (prop inputs "scheduler") && is_string (prop inputs "scheduler")
     then set_field "scheduler" (prop inputs "scheduler")
     else skip).

Definition visit_seed (classType : string) (inputs : value) : St value unit :=
  when (is_seed_node classType)
    (es ← lift (entries inputs);
     result ← read;
     match List.find (fun kv => Str.includes (Str.toLowerCase (fst kv)) "seed"
                                && is_number (snd kv) && gt (snd kv) 0
                                && negb (truthy (prop result "seed"))) es with
     | Some kv => set_field "seed" (snd kv)
     | None => skip
     end).

(** [if (typeof v === 'number' && v > 0) result.k = v;] *)
Definition set_positive_number (k : string) (v : value) : St value unit :=
  when (is_number v && gt v 0) (set_field k v).

Definition visit_size (classType : string) (inputs : value) : St value unit :=
  when (is_size_node classType)
    (let width := first_truthy inputs ["width"; "image_width"; "size_width"; "w"; "x"] in
     let height := first_truthy inputs ["height"; "image_height"; "size_height"; "h"; "y"] in
     _ ← set_positive_number "width" width;
     set_positive_number "height" height).

Definition visit_node (node : value) : St value unit :=
  if negb (truthy node) || negb (is_object node) then skip
  else
    classType ← lift (as_string (prop node "class_type" ||| prop node "type" ||| VStr ""));
    let inputs := prop node "inputs" ||| VObj [] in
    _ ← visit_checkpoint classType inputs;
    _ ← visit_lora classType inputs;
    _ ← visit_text_encode classType inputs;
    _ ← visit_sampler classType inputs;
    _ ← visit_seed classType inputs;
    visit_size classType inputs.

(** The fallback scan of every node's [text] input. *)
Definition fallback_text (node : value) : St value unit :=
  node_inputs ← lift (get node "inputs");
  let inputs := node_inputs ||| VObj [] in
  match prop inputs "text" with
  | VStr inputs_text =>
      when (negb (Str.is_empty inputs_text))
        (result ← read;
         if isNegative_fallback inputs_text then
           when (negb (truthy (prop result "negativePrompt")))
             (set_field "negativePrompt" (VStr inputs_text))
         else
           when (negb (truthy (prop result "prompt"))) (set_field "prompt" (VStr inputs_text)))
  | _ => skip
  end.

(** The fallback scan of the usual parameter names in any node. *)
Definition fallback_numbers (node : value) : St value unit :=
  node_inputs ← lift (get node "inputs");
  let inputs := node_inputs ||| VObj [] in
  let possibleSteps := first_truthy inputs ["steps"; "step_count"; "num_steps"; "steps_count";
                                            "step"; "n_steps"] in
  let possibleCfg := first_truthy inputs ["cfg"; "cfg_scale"; "guidance_scale"; "scale";
                                          "guidance"; "cfg_value"; "strength"] in
  let possibleSeed := first_truthy inputs ["seed"; "noise_seed"; "seed_value"; "random_seed"] in
  result ← read;
  _ ← when (is_num (prop result "steps") 0)
        (set_accepted "steps" (accepted possibleSteps Num.parseInt (between 0 200)));
  result ← read;
  _ ← when (is_num (prop result "cfgScale") 0)
        (set_accepted "cfgScale" (accepted possibleCfg Num.parseFloat (between 0 50)));
  result ← read;
  when (negb (nullish possibleSeed) && is_undefined (prop result "seed"))
    (match possibleSeed with
     | VStr s =>
         match Num.parseInt s with
         | Some seedValue => when (non_negative seedValue) (set_field "seed" (VNum seedValue))
         | None => skip
         end
     | seedValue => when (negb (isNaN seedValue) && ge seedValue 0) (set_field "seed" seedValue)
     end).

(** The last scan, over every input of every node. *)
Definition final_input (kv : string * value) : St value unit :=
  let key := Str.toLowerCase (fst kv) in
  let value := snd kv in
  result ← read;
  _ ← when ((Str.includes key "step" || Str.eqb key "steps" || Str.eqb key "n_steps")
            && is_num (prop result "steps") 0)
        (set_accepted "steps" (accepted value Num.parseInt (between 0 200)));
  result ← read;
  _ ← when ((Str.includes key "cfg" || Str.includes key "guidance" || Str.eqb key "scale"
             || Str.eqb key "strength")
            && is_num (prop result "cfgScale") 0)
        (set_accepted "cfgScale" (accepted value Num.parseFloat (between 0 50)));
  result ← read;
  when ((Str.includes key "seed" || Str.eqb key "noise_seed")
        && is_undefined (prop result "seed"))
    (set_accepted "seed" (accepted value Num.parseInt non_negative)).

Definition final_scan (node : value) : St value unit :=
  node_inputs ← lift (get node "inputs");
  es ← lift (entries (node_inputs ||| VObj []));
  for_each es final_input.

(** [let x = metadata.k; if (typeof x === 'string') { try { x = JSON.parse(x) }
    catch { return result } }]: [None] is the early [return]. *)
Definition parsed_or_return (v : value) : option value :=
  match v with
  | VStr text =>
      match parse_json text with
      | Ok x => Some x
      | Throw _ => None
      end
  | _ => Some v
  end.

Definition parseComfyUIMetadata (metadata : value) : value :=
  let body : St value unit :=
    workflow ← lift (get metadata "workflow");
    let prompt := prop metadata "prompt" in
    match parsed_or_return workflow with
    | None => skip
    | Some workflow =>
        match parsed_or_return prompt with
        | None => skip
        | Some prompt =>
            let dataSource := prompt ||| workflow in
            if negb (truthy dataSource) then skip
            else
              es ← lift (entries dataSource);
              let nodes := List.map snd es in
              _ ← for_each nodes (fun node => _ ← lift (get node "class_type"); skip);
              _ ← for_each nodes visit_node;
              result ← read;
              _ ← when (negb (truthy (prop result "prompt"))
                        && negb (truthy (prop result "negativePrompt")))
                    (for_each nodes fallback_text);
              result ← read;
              _ ← when ((is_num (prop result "steps") 0 || is_num (prop result "cfgScale") 0)
                        && negb (truthy (prop result "seed")))
                    (for_each nodes fallback_numbers);
              _ ← for_each nodes final_scan;
              result ← read;
              when (gt (prop (prop result "models") "length") 0)
                (set_field "model" (prop (prop result "models") "0"))
        end
    end in
  snd (attempt body ComfyUI_result).

(** *** Containers *)

Record File : Type := { name : string; contents : list byte }.

(** [buffer.byteLength] *)
Definition byteLength (buffer : list byte) : N := N.of_nat (length buffer).

(** [buffer.slice(a, b)]: both ends are clamped to the length. *)
Definition slice (buffer : list byte) (a b : N) : list byte :=
  let lo := N.min a (byteLength buffer) in
  let hi := N.min b (byteLength buffer) in
  List.firstn (N.to_nat (hi - lo)) (List.skipn (N.to_nat lo) buffer).

Fixpoint big_endian (acc : N) (bytes : list byte) : N :=
  match bytes with
  | [] => acc
  | b :: rest => big_endian (acc * 256 + Byte.to_N b)%N rest
  end.

(** [view.getUint32(offset)] and [view.getUint16(offset)]: a [RangeError]
    when the bytes are not all inside the buffer. *)
Definition getUint32 (buffer : list byte) (offset : N) : res N :=
  if (offset + 4 <=? byteLength buffer)%N
  then Ok (big_endian 0 (slice buffer offset (offset + 4)))
  else Throw RangeError.
Definition getUint16 (buffer : list byte) (offset : N) : res N :=
  if (offset + 2 <=? byteLength buffer)%N
  then Ok (big_endian 0 (slice buffer offset (offset + 2)))
  else Throw RangeError.

(** [decoder.decode(bytes)] *)
Definition decode (bytes : list byte) : string := Str.of_bytes bytes.

Definition relevant_keywords : list string :=
  ["invokeai_metadata"; "parameters"; "workflow"; "prompt"].

(** The body of [if (type === 'tEXt')]. *)
Definition record_text_chunk (chunkData : list byte) (chunks : gmap string string)
  : gmap string string :=
  let chunkString := decode chunkData in
  match Str.split "000" chunkString with
  | keyword :: text :: _ =>
      if existsb (Str.eqb keyword) relevant_keywords && negb (Str.is_empty text)
      then <[keyword := text]> chunks else chunks
  | _ => chunks
  end.

(** The [while (offset < buffer.byteLength)] loop.  Every turn moves
    [offset] forward by at least 12, so [fuel] turns are never used up when
    [fuel] is the length of the buffer (lemma [scan_chunks_fuel]). *)
Fixpoint scan_chunks (fuel : nat) (buffer : list byte) (offset : N)
  (chunks : gmap string string) : res (gmap string string) :=
  match fuel with
  | O => Ok chunks
  | S fuel' =>
      if (offset <? byteLength buffer)%N then
        length ← getUint32 buffer offset;
        let type := decode (slice buffer (offset + 4) (offset + 8)) in
        let chunks :=
          if Str.eqb type "tEXt"
          then record_text_chunk (slice buffer (offset + 8) (offset + 8 + length)) chunks
          else chunks in
        if Str.eqb type "IEND" then Ok chunks
        else scan_chunks fuel' buffer (offset + (12 + length)) chunks
      else Ok chunks
  end.

Definition png_chunks (buffer : list byte) : res (gmap string string) :=
  scan_chunks (List.length buffer) buffer 8 ∅.

(** [chunks.k] as a condition, and as the text it holds. *)
Definition chunk (chunks : gmap string string) (k : string) : option string :=
  match chunks !! k with
  | Some text => if Str.is_empty text then None else Some text
  | None => None
  end.

(** [try { x = JSON.parse(text); } catch { x = text; }] *)
Definition parsed_or_text (text : string) : value :=
  match parse_json text with
  | Ok v => v
  | Throw _ => VStr text
  end.

(** [try { m.normalizedMetadata = normalized; } catch (error) { ... }] *)
Definition with_normalized (m : value) (normalized : value) : value :=
  match set_prop m "normalizedMetadata" normalized with
  | Ok m' => m'
  | Throw _ => m
  end.

(** The four records [parsePNGMetadata] builds. *)
Definition comfy_record (workflowData promptData : value) : value :=
  let comfyMetadata := VObj [("workflow", workflowData); ("prompt", promptData)] in
  with_normalized comfyMetadata (parseComfyUIMetadata comfyMetadata).

Definition invokeai_record (metadata : value) : value :=
  with_normalized metadata (parseInvokeAIMetadata metadata).

Definition a1111_record (parameters : string) : value :=
  VObj [("parameters", VStr parameters);
        ("normalizedMetadata", parseA1111Metadata parameters)].

Definition comfy_prompt_record (promptData : value) : value :=
  let comfyMetadata := VObj [("prompt", promptData)] in
  with_normalized comfyMetadata (parseComfyUIMetadata comfyMetadata).

(** The priority cascade over the collected chunks. *)
Definition classify (chunks : gmap string string) : res value :=
  match chunk chunks "workflow" with
  | Some workflow =>
      let workflowData := parsed_or_text workflow in
      let promptData :=
        match chunk chunks "prompt" with
        | Some prompt => parsed_or_text prompt
        | None => VNull
        end in
      Ok (comfy_record workflowData promptData)
  | None =>
      match chunk chunks "invokeai_metadata" with
      | Some invokeai_metadata =>
          metadata ← parse_json invokeai_metadata;
          Ok (invokeai_record metadata)
      | None =>
          match chunk chunks "parameters" with
          | Some parameters => Ok (a1111_record parameters)
          | None =>
              match chunk chunks "prompt" with
              | Some prompt => Ok (comfy_prompt_record (parsed_or_text prompt))
              | None => Ok VNull
              end
          end
      end
  end.

Definition parsePNGMetadata (buffer : list byte) (file : File) : res value :=
  chunks ← png_chunks buffer;
  classify chunks.

Definition fieldsToCheck : list string :=
  ["userComment"; "imageDescription"; "description"; "xpComment"; "xpTitle"].

Definition parseJPEGMetadata (buffer : list byte) (file : File) : res value :=
  let body : res value :=
    exifData ← exifr_parse buffer;
    let metadataText :=
      List.find (fun text => negb (Str.is_empty text))
        (List.map (fun field =>
                     if truthy exifData then
                       match prop exifData field with
                       | VStr s => Str.trim s
                       | _ => ""
                       end
                     else "") fieldsToCheck) in
    match metadataText with
    | Some metadataText =>
        match parse_json metadataText with
        | Ok parsedMetadata =>
            if isInvokeAIMetadata parsedMetadata
            then Ok (invokeai_record parsedMetadata)
            else Ok parsedMetadata
        | Throw _ =>
            Ok (VObj [("parameters", VStr metadataText);
                      ("normalizedMetadata", parseA1111Metadata metadataText)])
        end
    | None => Ok VNull
    end in
  try_catch body (fun _ => Ok VNull).

(** [parseImageMetadata] returns the promise of [parsePNGMetadata] or of
    [parseJPEGMetadata] from inside its [try] block without awaiting it: the
    [catch] sees what the block itself throws, and the returned promise
    settles the result, whichever way. *)
Definition parseImageMetadata (file : File) : res value :=
  let buffer := contents file in
  let returned : res (res value) :=
    w0 ← getUint32 buffer 0;
    is_png ← (if (w0 =? 0x89504E47)%N
              then w1 ← getUint32 buffer 4; Ok (w1 =? 0x0D0A1A0A)%N
              else Ok false);
    if is_png : bool then Ok (parsePNGMetadata buffer file)
    else
      h ← getUint16 buffer 0;
      if (h =? 0xFFD8)%N then Ok (parseJPEGMetadata buffer file) else Ok (Ok VNull) in
  match returned with
  | Ok promise => promise
  | Throw _ => Ok VNull
  end.

(* ===== Section end ===== *)

End Metadata.

(** ** A reference host

    The theorems below hold for every [Platform].  The reference host is
    used to run the module on concrete files: a JSON reader and writer for
    ASCII text, an EXIF reader that finds nothing, and type guards that
    follow the shape of the three variants. *)

Module Json.

Definition is_ws (c : ascii) : bool :=
  (Str.code c =? 32)%N || (Str.code c =? 9)%N || (Str.code c =? 10)%N || (Str.code c =? 13)%N.

Fixpoint skip_ws (s : string) : string :=
  match s with
  | String c s' => if is_ws c then skip_ws s' else s
  | EmptyString => EmptyString
  end.

Definition hex_val (c : ascii) : option N :=
  if Str.is_digit c then Some (Str.code c - 48)%N
  else if ((97 <=? Str.code (Str.lower_char c)) && (Str.code (Str.lower_char c) <=? 102))%N
  then Some (Str.code (Str.lower_char c) - 87)%N
  else None.

(** The bytes of the code unit [n], in UTF-8. *)
Definition utf8 (n : N) : string :=
  if (n <? 128)%N then Str.chr n
  else if (n <? 2048)%N then Str.chr (192 + n / 64) +:+ Str.chr (128 + n mod 64)
  else Str.chr (224 + n / 4096) +:+ Str.chr (128 + (n / 64) mod 64) +:+ Str.chr (128 + n mod 64).

(** The characters of a string literal after its opening quote. *)
Fixpoint string_body (s : string) : option (string * string) :=
  match s with
  | EmptyString => None
  | String c s' =>
      if (Str.code c =? 34)%N then Some (EmptyString, s')
      else if (Str.code c <? 32)%N then None
      else if (Str.code c =? 92)%N then
        match s' with
        | String e s'' =>
            let simple (x : string) :=
              match string_body s'' with
              | Some (t, r) => Some (x +:+ t, r)
              | None => None
              end in
            if (Str.code e =? 34)%N then simple Str.dq
            else if Ascii.eqb e "\" then simple "\"
            else if Ascii.eqb e "/" then simple "/"
            else if Ascii.eqb e "b" then simple (Str.chr 8)
            else if Ascii.eqb e "f" then simple (Str.chr 12)
            else if Ascii.eqb e "n" then simple (Str.chr 10)
            else if Ascii.eqb e "r" then simple (Str.chr 13)
            else if Ascii.eqb e "t" then simple (Str.chr 9)
            else if Ascii.eqb e "u" then
              match s'' with
              | String h1 (String h2 (String h3 (String h4 s3))) =>
                  match hex_val h1, hex_val h2, hex_val h3, hex_val h4, string_body s3 with
                  | Some a, Some b, Some c', Some d, Some (t, r) =>
                      Some (utf8 (((a * 16 + b) * 16 + c') * 16 + d) +:+ t, r)
                  | _, _, _, _, _ => None
                  end
              | _ => None
              end
            else None
        | EmptyString => None
        end
      else
        match string_body s' with
        | Some (t, r) => Some (String c t, r)
        | None => None
        end
  end.

(** A number literal: no leading zeros, digits after a point. *)
Definition number (s : string) : option (Q * string) :=
  let '(neg, body) := match s with String "-" r => (true, r) | _ => (false, s) end in
  let '(ip, r1) := Num.span_digits body in
  let well_formed_int :=
    match ip with
    | EmptyString => false
    | String "0" (String _ _) => false
    | _ => true
    end in
  let '(fp, r2, frac_ok) :=
    match r1 with
    | String "." r =>
        let '(fp, r2) := Num.span_digits r in (fp, r2, negb (Str.is_empty fp))
    | _ => (EmptyString, r1, true)
    end in
  let '(e, r3, exp_ok) :=
    match r2 with
    | String c r =>
        if Ascii.eqb (Str.lower_char c) "e" then
          let '(eneg, eb) := Num.split_sign r in
          let '(ds, r3) := Num.span_digits eb in
          ((if eneg then - Z.of_N (Num.digits_value ds) else Z.of_N (Num.digits_value ds)),
           r3, negb (Str.is_empty ds))
        else (0, r2, true)
    | EmptyString => (0, r2, true)
    end in
  if well_formed_int && frac_ok && exp_ok then
    Some (Num.scaled neg (Num.digits_value (ip +:+ fp)) (e - Z.of_nat (String.length fp)), r3)
  else None.

Fixpoint value_ (fuel : nat) (s : string) : option (value * string) :=
  match fuel with
  | O => None
  | S fuel' =>
      match skip_ws s with
      | String c r =>
          if (Str.code c =? 34)%N then
            match string_body r with
            | Some (t, r') => Some (VStr t, r')
            | None => None
            end
          else if Ascii.eqb c "[" then
            match skip_ws r with
            | String "]" r' => Some (arr [], r')
            | _ => elements fuel' r []
            end
          else if Ascii.eqb c "{" then
            match skip_ws r with
            | String "}" r' => Some (VObj [], r')
            | _ => members fuel' r []
            end
          else if String.prefix "true" (String c r) then Some (VBool true, Str.drop 4 (String c r))
          else if String.prefix "false" (String c r) then Some (VBool false, Str.drop 5 (String c r))
          else if String.prefix "null" (String c r) then Some (VNull, Str.drop 4 (String c r))
          else
            match number (String c r) with
            | Some (q, r') => Some (VNum q, r')
            | None => None
            end
      | EmptyString => None
      end
  end
with elements (fuel : nat) (s : string) (acc : list value) : option (value * string) :=
  match fuel with
  | O => None
  | S fuel' =>
      match value_ fuel' s with
      | Some (v, r) =>
          match skip_ws r with
          | String "," r' => elements fuel' r' (acc ++ [v])%list
          | String "]" r' => Some (arr (acc ++ [v])%list, r')
          | _ => None
          end
      | None => None
      end
  end
with members (fuel : nat) (s : string) (acc : list (string * value)) : option (value * string) :=
  match fuel with
  | O => None
  | S fuel' =>
      match skip_ws s with
      | String c r =>
          if (Str.code c =? 34)%N then
            match string_body r with
            | Some (k, r1) =>
                match skip_ws r1 with
                | String ":" r2 =>
                    match value_ fuel' r2 with
                    | Some (v, r3) =>
                        match skip_ws r3 with
                        | String "," r4 => members fuel' r4 (update_field k v acc)
                        | String "}" r4 => Some (VObj (update_field k v acc), r4)
                        | _ => None
                        end
                    | None => None
                    end
                | _ => None
                end
            | None => None
            end
          else None
      | EmptyString => None
      end
  end.

(** [JSON.parse(text)] *)
Definition parse (text : string) : option value :=
  match value_ (S (String.length text)) text with
  | Some (v, r) => if Str.is_empty (skip_ws r) then Some v else None
  | None => None
  end.

Definition hex_digit_of (n : N) : string :=
  Str.chr (if (n <? 10)%N then 48 + n else 87 + n).

Fixpoint escape (s : string) : string :=
  match s with
  | EmptyString => EmptyString
  | String c s' =>
      (if (Str.code c =? 34)%N then "\" +:+ Str.dq
       else if Ascii.eqb c "\" then "\\"
       else if (Str.code c =? 8)%N then "\b"
       else if (Str.code c =? 12)%N then "\f"
       else if (Str.code c =? 10)%N then "\n"
       else if (Str.code c =? 13)%N then "\r"
       else if (Str.code c =? 9)%N then "\t"
       else if (Str.code c <? 32)%N
       then "\u00" +:+ hex_digit_of (Str.code c / 16) +:+ hex_digit_of (Str.code c mod 16)
       else String c EmptyString) +:+ escape s'
  end.

Definition quote (s : string) : string := Str.dq +:+ escape s +:+ Str.dq.

(** [JSON.stringify(v)] on values nested at most [fuel] deep. *)
Fixpoint stringify_at (fuel : nat) (v : value) : option string :=
  match fuel with
  | O => None
  | S fuel' =>
      match v with
      | VUndefined => None
      | VNull => Some "null"
      | VBool true => Some "true"
      | VBool false => Some "false"
      | VNum q => Some (Num.to_string q)
      | VStr s => Some (quote s)
      | VArr items _ =>
          Some ("[" +:+ Str.join "," (List.map (fun x => default "null" (stringify_at fuel' x)) items)
                +:+ "]")
      | VObj fields =>
          Some ("{" +:+ Str.join ","
                          (omap (fun kv => match stringify_at fuel' (snd kv) with
                                           | Some t => Some (quote (fst kv) +:+ ":" +:+ t)
                                           | None => None
                                           end) (ordered fields))
                +:+ "}")
      end
  end.

Fixpoint depth (v : value) : nat :=
  match v with
  | VArr items _ => S (List.fold_right (fun x d => Nat.max (depth x) d) O items)
  | VObj fields => S (List.fold_right (fun kv d => Nat.max (depth (snd kv)) d) O fields)
  | _ => 1
  end.

Definition stringify (v : value) : option string := stringify_at (depth v) v.

End Json.

(** Modelled from the spec: the type guards [isInvokeAIMetadata],
    [isAutomatic1111Metadata] and [isComfyUIMetadata] are declared in the
    types module, which is not part of the sources at hand.  The data model
    of the specification tells the variants apart by the fields they carry:
    the InvokeAI variant is a flat record of prompt, model, board, size,
    sampler and LoRA fields; the Automatic1111 variant is a [parameters]
    string; the ComfyUI variant is a [workflow] and/or a [prompt] graph. *)
Definition InvokeAI_fields : list string :=
  ["positive_prompt"; "negative_prompt"; "model"; "base_model"; "model_name";
   "board_name"; "board_id"; "boardName"; "boardId"; "Board Name"; "board";
   "canvas_v2_metadata"; "width"; "height"; "steps"; "scheduler"; "cfg_scale"; "seed";
   "loras"].
Definition spec_isInvokeAI (metadata : value) : bool :=
  match metadata with
  | VObj fields => existsb (fun k => bool_decide (is_Some (lookup_field k fields))) InvokeAI_fields
  | _ => false
  end.
Definition spec_isAutomatic1111 (metadata : value) : bool :=
  is_string (get_opt metadata "parameters").
Definition spec_isComfyUI (metadata : value) : bool :=
  match metadata with
  | VObj fields =>
      bool_decide (is_Some (lookup_field "workflow" fields))
      || bool_decide (is_Some (lookup_field "prompt" fields))
  | _ => false
  end.

Definition reference_host : Platform :=
  {| JSON_parse := Json.parse;
     JSON_stringify := Json.stringify;
     exifr_parse := fun _ => Ok VUndefined;
     isInvokeAIMetadata := spec_isInvokeAI;
     isAutomatic1111Metadata := spec_isAutomatic1111;
     isComfyUIMetadata := spec_isComfyUI |}.

(** ** Runs and test files *)

(** A run of [getFriendlyBoardName] over the board ids in the order they are
    met, within one process: the names returned, and the cache at the end. *)
Fixpoint resolve_all (ids : list string) (st : BoardState) : list (res string) * BoardState :=
  match ids with
  | [] => ([], st)
  | boardId :: rest =>
      let '(r, st') := getFriendlyBoardName boardId st in
      let '(rs, st'') := resolve_all rest st' in
      (r :: rs, st'')
  end.

Definition friendly_names (ids : list string) : list (res string) :=
  fst (resolve_all ids initial_boards).

(** The board cache is well formed when every name in it is [My Board n] for
    a number [n] already used up, and no two ids share a name. *)
Definition board_name (n : N) : string := "My Board " +:+ pretty n.

Record boards_wf (st : BoardState) : Prop := {
  wf_names : forall boardId nm, boardIdCache st !! boardId = Some nm ->
             exists n, (n < boardCounter st)%N /\ nm = board_name n;
  wf_inj : forall id1 id2 nm, boardIdCache st !! id1 = Some nm ->
           boardIdCache st !! id2 = Some nm -> id1 = id2;
}.

(** PNG files made of text chunks, for the worked examples. *)
Definition png_signature : list byte := [x89; x50; x4e; x47; x0d; x0a; x1a; x0a].

Definition byte_of_N (n : N) : byte := byte_of_ascii (ascii_of_N n).

Definition be32 (n : nat) : list byte :=
  let z := N.of_nat n in
  [byte_of_N (z / 16777216); byte_of_N ((z / 65536) mod 256);
   byte_of_N ((z / 256) mod 256); byte_of_N (z mod 256)].

(** length, type, data, and a CRC that nobody reads *)
Definition png_chunk (type : string) (data : list byte) : list byte :=
  (be32 (length data) ++ Str.to_bytes type ++ data ++ [x00; x00; x00; x00])%list.

Definition text_chunk (keyword text : string) : list byte :=
  png_chunk "tEXt" (Str.to_bytes (keyword +:+ Str.nul +:+ text)).

Definition png_file (file_name : string) (chunks : list (list byte)) : File :=
  {| name := file_name;
     contents := (png_signature ++ List.concat chunks ++ png_chunk "IEND" [])%list |}.

(** Every text the chunk table holds is non-empty. *)
Definition all_nonempty (chunks : gmap string string) : Prop :=
  forall k text, chunks !! k = Some text -> Str.is_empty text = false.

(** The function called yields a metadata record: it returns, and what it
    returns is not [null]. *)
Definition yields_record (r : res value) : Prop :=
  exists metadata, r = Ok metadata /\ metadata <> VNull.

(** The record is the one the ComfyUI branch builds. *)
Definition is_comfy_variant `{Platform} (metadata : value) : Prop :=
  exists workflowData promptData, metadata = comfy_record workflowData promptData.

(** The worked files of the properties below. *)

(** A PNG cut one byte after its signature. *)
Definition truncated_png : File :=
  {| name := "cut.png"; contents := (png_signature ++ [x00])%list |}.

(** The [parameters] text of the first scenario of the specification. *)
Definition scenario_parameters : string :=
  "a cat" +:+ Str.nl +:+ "Negative prompt: blurry" +:+ Str.nl
  +:+ "Steps: 20, Sampler: Euler a, CFG scale: 7.5, Seed: 42, Size: 512x768, Model: foo.safetensors".

Definition scenario_png : File :=
  png_file "scenario1.png" [text_chunk "parameters" scenario_parameters].

(** A PNG whose [invokeai_metadata] chunk is not JSON, with a [parameters]
    chunk beside it. *)
Definition malformed_invokeai_png : File :=
  png_file "malformed.png"
    [text_chunk "invokeai_metadata" "{oops"; text_chunk "parameters" scenario_parameters].

(** A PNG with [invokeai_metadata], [workflow] and [parameters] chunks. *)
Definition mixed_png : File :=
  png_file "mixed.png"
    [text_chunk "invokeai_metadata" "{}"; text_chunk "workflow" "{}";
     text_chunk "parameters" scenario_parameters].

(** The text [JSON.stringify] gives for a value, on the reference host. *)
Definition json_text (v : value) : string := default "" (Json.stringify v).

(** A ComfyUI execution graph with two checkpoint loaders of one file. *)
Definition checkpoint_node (ckpt_name : string) : value :=
  VObj [("class_type", VStr "CheckpointLoaderSimple");
        ("inputs", VObj [("ckpt_name", VStr ckpt_name)])].
Definition two_loaders_graph : value :=
  VObj [("1", checkpoint_node "sd.safetensors"); ("2", checkpoint_node "sd.safetensors")].
Definition two_loaders_png : File :=
  png_file "loaders.png" [text_chunk "prompt" (json_text two_loaders_graph)].

(** A node of class [classType] whose only input is [text]. *)
Definition text_node (classType text : string) : value :=
  VObj [("class_type", VStr classType); ("inputs", VObj [("text", VStr text)])].

(** ComfyUI metadata whose execution graph is the single node given. *)
Definition single_node_graph (node : value) : value :=
  VObj [("prompt", VObj [("1", node)])].

(** ** The denylist in the words of the specification

    Text containing any of blur, deform, ugly, worst, low quality, bad,
    negative, as a case-insensitive substring, is treated as negative. *)
Definition spec_denylist : list string :=
  ["blur"; "deform"; "ugly"; "worst"; "low quality"; "bad"; "negative"].
Definition spec_is_negative (text : string) : bool :=
  existsb (fun keyword => Str.includes (Str.toLowerCase text) keyword) spec_denylist.

(** ** What a populated cache is *)

(** [metadata] carries the cache [normalized]. *)
Definition carries_cache (metadata normalized : value) : Prop :=
  has_in "normalizedMetadata" metadata = Ok true
  /\ prop metadata "normalizedMetadata" = normalized
  /\ truthy normalized = true.

(** Metadata that is nothing but a cache, every field of it populated. *)
Definition cache_example : value :=
  VObj [("prompt", VStr "a cat"); ("negativePrompt", VStr "blurry");
        ("models", str_arr ["foo.safetensors"]); ("loras", str_arr ["detail"]);
        ("scheduler", VStr "Euler a"); ("board", VStr "Alpha");
        ("cfgScale", VNum (15 # 2)); ("steps", num 20); ("seed", num 42);
        ("width", num 512); ("height", num 768)].
Definition cached_example : value := VObj [("normalizedMetadata", cache_example)].

(** An InvokeAI record that also exposes a [parameters] string. *)
Definition invokeai_with_parameters : value :=
  VObj [("positive_prompt", VStr "a cat"); ("negative_prompt", VStr "blurry");
        ("parameters", VStr "a dog")].

(** An InvokeAI record with both prompts and nothing else. *)
Definition invokeai_two_prompts : value :=
  VObj [("positive_prompt", VStr "a cat"); ("negative_prompt", VStr "blurry")].

(** The metadata exposes no Automatic1111 block with a prompt of its own:
    [parameters] is not a non-empty string, or the prompt parsed from it is
    empty. *)
Definition no_embedded_prompt (metadata : value) : Prop :=
  forall a1111Data,
    embedded_a1111 metadata = Some a1111Data -> truthy (prop a1111Data "prompt") = false.

(** The metadata carries no cache with a populated prompt. *)
Definition no_cached_prompt (metadata : value) : Prop :=
  forall normalized,
    carries_cache metadata normalized -> truthy (prop normalized "prompt") = false.

(** ** Well-formed PNG files

    A chunk is a type of four characters and its data; [chunk_bytes] lays
    the chunks of a list out as the file holds them, and [recorded] is the
    table of the text chunks among them, read in the order of the list. *)
Definition whole_chunk (chunk : string * list byte) : Prop :=
  String.length (fst chunk) = 4%nat /\ fst chunk <> "IEND"
  /\ (N.of_nat (length (snd chunk)) < 2 ^ 32)%N.

Definition chunk_bytes (chunks : list (string * list byte)) : list byte :=
  concat (List.map (fun chunk => png_chunk (fst chunk) (snd chunk)) chunks).

Definition recorded (chunks : list (string * list byte)) (table : gmap string string)
  : gmap string string :=
  fold_left (fun table chunk =>
               if Str.eqb (fst chunk) "tEXt" then record_text_chunk (snd chunk) table
               else table) chunks table.

(** A text with no NUL character, and the table of a list of keywords and
    texts: a keyword that is one of the four, with a text that is not empty,
    is entered, over what the table held for it. *)
Definition plain_text (s : string) : Prop := ~ In "000"%char (list_ascii_of_string s).

Definition text_table (texts : list (string * string)) (table : gmap string string)
  : gmap string string :=
  fold_left (fun table kt =>
               if existsb (Str.eqb (fst kt)) relevant_keywords && negb (Str.is_empty (snd kt))
               then <[fst kt := snd kt]> table else table) texts table.

Definition text_chunks (texts : list (string * string)) : list (list byte) :=
  List.map (fun kt => text_chunk (fst kt) (snd kt)) texts.

(** The chunk of a keyword and its text: type [tEXt], data [keyword NUL text]. *)
Definition as_chunk (kt : string * string) : string * list byte :=
  ("tEXt", Str.to_bytes (fst kt +:+ Str.nul +:+ snd kt)).

(** The keyword and the text are free of NUL, and the chunk is shorter than
    the length field can tell. *)
Definition whole_text (kt : string * string) : Prop :=
  plain_text (fst kt) /\ plain_text (snd kt)
  /\ (N.of_nat (String.length (fst kt) + 1 + String.length (snd kt)) < 2 ^ 32)%N.

(** ** Effects on the board cache

    A computation leaves the boards alone, or it names at most one new
    board: the cache stays well formed and only grows, and the counter moves
    by one at most. *)
Definition leaves_boards {A} (m : St BoardState A) : Prop := forall st, snd (m st) = st.

Definition names_at_most_one_board {A} (m : St BoardState A) : Prop :=
  forall st, boards_wf st ->
    boards_wf (snd (m st))
    /\ boardIdCache st ⊆ boardIdCache (snd (m st))
    /\ (boardCounter st <= boardCounter (snd (m st)) <= boardCounter st + 1)%N.

(** The board ids [seen] so far are those the cache holds, and the counter
    is one more than their number. *)
Definition tracks (seen : list string) (st : BoardState) : Prop :=
  boardCounter st = N.of_nat (S (length (remove_dups seen)))
  /\ forall boardId, boardId ∈ seen <-> is_Some (boardIdCache st !! boardId).

(** The string fields that [extractBoardFromInvokeAI] tries first, in its
    order. *)
Definition board_string_fields : list string :=
  ["board_name"; "board_id"; "boardName"; "boardId"; "Board Name"].

(** [metadata.k] is a string that is not empty. *)
Definition nonempty_string_field (metadata : value) (k : string) : Prop :=
  exists s, prop metadata k = VStr s /\ s <> "".

(* ===== Properties ===== *)

(** * Properties *)

(** ** Sanity checks of the number model *)

Example parseFloat_7_5 : Num.parseFloat "7.5" = Some (15 # 2)%Q.
Proof. reflexivity. Qed.
Example parseFloat_dots : Num.parseFloat "1.2.3" = Some (6 # 5)%Q /\ Num.parseFloat "." = None
  /\ Num.parseFloat ".5" = Some (1 # 2)%Q /\ Num.parseFloat "5." = Some (5 # 1)%Q
  /\ Num.parseFloat "1e3x" = Some (1000 # 1)%Q /\ Num.parseFloat "2e" = Some (2 # 1)%Q.
Proof. repeat split; reflexivity. Qed.
Example to_string_7_5 : Num.to_string (15 # 2) = "7.5" /\ Num.to_string (512 # 1) = "512"
  /\ Num.to_string (-1 # 8) = "-0.125".
Proof. repeat split; vm_compute; reflexivity. Qed.

(** ** Board names *)

Section Boards.

Implicit Types (st : BoardState) (ids : list string).

Lemma board_name_inj (n m : N) : board_name n = board_name m -> n = m.
Proof.
  unfold board_name. cbn. intros E. injection E as E.
  by apply (inj pretty).
Qed.

Lemma initial_boards_wf : boards_wf initial_boards.
Proof. split; cbn; intros *; rewrite lookup_empty; discriminate. Qed.

(** One call: the name returned is the one the cache holds afterwards, the
    cache only grows, and it stays well formed. *)
Lemma getFriendlyBoardName_spec st boardId :
  boards_wf st ->
  exists nm st',
    getFriendlyBoardName boardId st = (Ok nm, st')
    /\ boardIdCache st' !! boardId = Some nm
    /\ boardIdCache st ⊆ boardIdCache st'
    /\ boards_wf st'.
Proof.
  intros [Hn Hi]. unfold getFriendlyBoardName.
  destruct (boardIdCache st !! boardId) as [nm|] eqn:E.
  - exists nm, st. repeat split; auto.
  - eexists _, _. split; [reflexivity|]. cbn. repeat split.
    + apply lookup_insert_eq.
    + by apply insert_subseteq.
    + cbn. intros id' nm'. rewrite lookup_insert. case_decide as D.
      * intros [= <-]. exists (boardCounter st). split; [lia | reflexivity].
      * intros L. destruct (Hn _ _ L) as (n & ? & ->). exists n. split; [lia | reflexivity].
    + cbn. intros id1 id2 nm'. rewrite !lookup_insert.
      repeat case_decide; subst; auto.
      * intros [= <-] L. destruct (Hn _ _ L) as (n & Hlt & E').
        apply board_name_inj in E'. lia.
      * intros L [= <-]. destruct (Hn _ _ L) as (n & Hlt & E').
        apply board_name_inj in E'. lia.
      * apply Hi.
Qed.

(** A whole run: every name returned is the one the final cache holds for
    its id. *)
Lemma resolve_all_spec ids st :
  boards_wf st ->
  boards_wf (snd (resolve_all ids st))
  /\ boardIdCache st ⊆ boardIdCache (snd (resolve_all ids st))
  /\ Forall2 (fun boardId r =>
                exists nm, r = Ok nm
                           /\ boardIdCache (snd (resolve_all ids st)) !! boardId = Some nm)
       ids (fst (resolve_all ids st)).
Proof.
  revert st. induction ids as [|boardId rest IH]; intros st Hwf; cbn.
  - split; [exact Hwf | split; [reflexivity | constructor]].
  - destruct (getFriendlyBoardName_spec st boardId Hwf) as (nm & st1 & E & L & Hsub & Hwf1).
    rewrite E. specialize (IH st1 Hwf1).
    destruct (resolve_all rest st1) as [rs st2]. cbn in *.
    destruct IH as (Hwf2 & Hsub2 & Hall).
    split; [exact Hwf2 | split].
    + by etrans.
    + constructor; auto. exists nm. split; auto. by eapply lookup_weaken.
Qed.

End Boards.

(** C5.  Within one process, that is along one run of the board cache from
    its initial state, every call of [getFriendlyBoardName] returns a name of
    the form [My Board n]; two calls with the same board id return the same
    name, and two calls with distinct board ids return distinct names. *)
Theorem board_names_stable_and_distinct
  (ids : list string) (i j : nat) (id1 id2 : string) (r1 r2 : res string) :
  ids !! i = Some id1 -> ids !! j = Some id2 ->
  friendly_names ids !! i = Some r1 -> friendly_names ids !! j = Some r2 ->
  exists n1 n2 : N,
    r1 = Ok ("My Board " +:+ pretty n1) /\ r2 = Ok ("My Board " +:+ pretty n2)
    /\ (id1 = id2 -> r1 = r2) /\ (id1 <> id2 -> r1 <> r2).
Proof.
  intros Hi Hj Hr1 Hr2. unfold friendly_names in *.
  destruct (resolve_all_spec ids initial_boards initial_boards_wf) as ([Hn Hinj] & _ & Hall).
  destruct (Forall2_lookup_lr _ _ _ _ _ _ Hall Hi Hr1) as (nm1 & -> & L1).
  destruct (Forall2_lookup_lr _ _ _ _ _ _ Hall Hj Hr2) as (nm2 & -> & L2).
  destruct (Hn _ _ L1) as (n1 & _ & ->). destruct (Hn _ _ L2) as (n2 & _ & ->).
  exists n1, n2. repeat split; auto.
  - intros <-. congruence.
  - intros Hne [= E]. cbn in E. apply pretty_N_inj in E. subst n2.
    apply Hne. exact (Hinj _ _ _ L1 L2).
Qed.

Lemma board_names_stable_and_distinct_witness :
  let ids := ["abc123"; "zzz"; "abc123"] in
  (ids !! 0%nat = Some "abc123" /\ ids !! 2%nat = Some "abc123"
   /\ ids !! 1%nat = Some "zzz"
   /\ friendly_names ids !! 0%nat = Some (Ok "My Board 1")
   /\ friendly_names ids !! 2%nat = Some (Ok "My Board 1")
   /\ friendly_names ids !! 1%nat = Some (Ok "My Board 2"))
  /\ (exists n1 n2 : N,
        Ok "My Board 1" = Ok ("My Board " +:+ pretty n1)
        /\ Ok "My Board 2" = Ok ("My Board " +:+ pretty n2)
        /\ ("abc123" = "zzz" -> @Ok string "My Board 1" = Ok "My Board 2")
        /\ ("abc123" <> "zzz" -> @Ok string "My Board 1" <> Ok "My Board 2")).
Proof.
  split.
  - repeat split; vm_compute; reflexivity.
  - apply (board_names_stable_and_distinct ["abc123"; "zzz"; "abc123"] 0 1 "abc123" "zzz");
      vm_compute; reflexivity.
Defined.

(** ** Containers and classification *)

Section Containers.

Context `{Platform}.

Implicit Types (buffer : list byte) (chunks : gmap string string) (file : File).

Lemma scan_chunks_step fuel buffer offset chunks :
  scan_chunks (S fuel) buffer offset chunks
  = if (offset <? byteLength buffer)%N then
      len ← getUint32 buffer offset;
      let chunks' :=
        if Str.eqb (decode (slice buffer (offset + 4) (offset + 8))) "tEXt"
        then record_text_chunk (slice buffer (offset + 8) (offset + 8 + len)) chunks
        else chunks in
      if Str.eqb (decode (slice buffer (offset + 4) (offset + 8))) "IEND" then Ok chunks'
      else scan_chunks fuel buffer (offset + (12 + len)) chunks'
    else Ok chunks.
Proof. reflexivity. Qed.

(** The fuel of the chunk loop is never used up: any two amounts that cover
    the bytes left give the same result. *)
Lemma scan_chunks_fuel fuel1 : forall fuel2 buffer offset chunks,
  (byteLength buffer <= offset + N.of_nat fuel1)%N ->
  (byteLength buffer <= offset + N.of_nat fuel2)%N ->
  scan_chunks fuel1 buffer offset chunks = scan_chunks fuel2 buffer offset chunks.
Proof.
  induction fuel1 as [|fuel1 IH]; intros fuel2 buffer offset chunks H1 H2.
  - destruct fuel2 as [|fuel2]; [reflexivity|]. rewrite scan_chunks_step.
    destruct (N.ltb_spec offset (byteLength buffer)); [lia | reflexivity].
  - destruct fuel2 as [|fuel2]; rewrite !scan_chunks_step.
    + destruct (N.ltb_spec offset (byteLength buffer)); [lia | reflexivity].
    + destruct (N.ltb_spec offset (byteLength buffer)); [|reflexivity].
      destruct (getUint32 buffer offset) as [len|e]; [|reflexivity]. cbn.
      destruct (Str.eqb _ "IEND"); [reflexivity|].
      apply IH; lia.
Qed.

Lemma record_text_chunk_nonempty data chunks :
  all_nonempty chunks -> all_nonempty (record_text_chunk data chunks).
Proof.
  intros Hc. unfold record_text_chunk.
  destruct (Str.split _ _) as [|keyword [|text ?]]; auto.
  destruct (existsb _ _); cbn; auto.
  destruct (Str.is_empty text) eqn:E; cbn; auto.
  intros k t. rewrite lookup_insert. case_decide; [|by apply Hc].
  by intros [= <-].
Qed.

Lemma scan_chunks_nonempty fuel : forall buffer offset chunks chunks',
  all_nonempty chunks -> scan_chunks fuel buffer offset chunks = Ok chunks' ->
  all_nonempty chunks'.
Proof.
  induction fuel as [|fuel IH]; intros buffer offset chunks chunks' Hc.
  - cbn. by intros [= <-].
  - rewrite scan_chunks_step.
    destruct (_ <? _)%N; [|by intros [= <-]].
    destruct (getUint32 buffer offset) as [len|e]; cbn; [|discriminate].
    set (chunks1 := if Str.eqb _ "tEXt" then _ else chunks).
    assert (all_nonempty chunks1) as Hc1.
    { subst chunks1. destruct (Str.eqb _ "tEXt"); auto using record_text_chunk_nonempty. }
    destruct (Str.eqb _ "IEND"); [by intros [= <-]|].
    by apply IH.
Qed.

(** A chunk the loop has recorded is a truthy string. *)
Lemma png_chunks_truthy buffer chunks k text :
  png_chunks buffer = Ok chunks -> chunks !! k = Some text -> chunk chunks k = Some text.
Proof.
  intros Hs Hk. unfold chunk. rewrite Hk.
  erewrite (scan_chunks_nonempty _ _ _ ∅ chunks); eauto.
  intros ? ?. rewrite lookup_empty. discriminate.
Qed.

Lemma png_chunks_absent chunks k : chunks !! k = None -> chunk chunks k = None.
Proof. intros Hk. unfold chunk. by rewrite Hk. Qed.

Lemma getUint32_signature_0 buffer rest :
  buffer = (png_signature ++ rest)%list -> getUint32 buffer 0 = Ok 0x89504E47%N.
Proof.
  intros ->. unfold getUint32, slice, byteLength. rewrite length_app. cbn [length png_signature].
  destruct (N.leb_spec (0 + 4) (N.of_nat (8 + length rest))); [|lia].
  rewrite !N.min_l by lia. reflexivity.
Qed.

Lemma getUint32_signature_4 buffer rest :
  buffer = (png_signature ++ rest)%list -> getUint32 buffer 4 = Ok 0x0D0A1A0A%N.
Proof.
  intros ->. unfold getUint32, slice, byteLength. rewrite length_app. cbn [length png_signature].
  destruct (N.leb_spec (4 + 4) (N.of_nat (8 + length rest))); [|lia].
  rewrite !N.min_l by lia. reflexivity.
Qed.

(** On a buffer that starts with the PNG signature, [parseImageMetadata] is
    [parsePNGMetadata]: nothing is caught on the way. *)
Lemma parseImageMetadata_png file rest :
  contents file = (png_signature ++ rest)%list ->
  parseImageMetadata file = parsePNGMetadata (contents file) file.
Proof.
  intros E. unfold parseImageMetadata.
  by rewrite (getUint32_signature_0 _ _ E), (getUint32_signature_4 _ _ E).
Qed.

(** What [parseImageMetadata] throws is what [parsePNGMetadata] throws. *)
Lemma parseImageMetadata_throws file e :
  parseImageMetadata file = Throw e -> parsePNGMetadata (contents file) file = Throw e.
Proof.
  unfold parseImageMetadata.
  destruct (getUint32 (contents file) 0) as [w0|]; cbn; [|discriminate].
  destruct (w0 =? _)%N; cbn.
  - destruct (getUint32 (contents file) 4) as [w1|]; cbn; [|discriminate].
    destruct (w1 =? _)%N; cbn; auto.
    destruct (getUint16 (contents file) 0) as [h|]; cbn; [|discriminate].
    destruct (h =? _)%N; [|discriminate].
    unfold parseJPEGMetadata, try_catch. by repeat case_match.
  - destruct (getUint16 (contents file) 0) as [h|]; cbn; [|discriminate].
    destruct (h =? _)%N; [|discriminate].
    unfold parseJPEGMetadata, try_catch. by repeat case_match.
Qed.

(** The tier of [workflow]. *)
Lemma classify_workflow chunks workflow :
  chunk chunks "workflow" = Some workflow ->
  classify chunks
  = Ok (comfy_record (parsed_or_text workflow)
          (match chunk chunks "prompt" with
           | Some prompt => parsed_or_text prompt
           | None => VNull
           end)).
Proof. intros E. unfold classify. by rewrite E. Qed.

(** The tier of [invokeai_metadata], when its text is not JSON. *)
Lemma classify_malformed_invokeai chunks text :
  chunk chunks "workflow" = None ->
  chunk chunks "invokeai_metadata" = Some text ->
  JSON_parse text = None ->
  classify chunks = Throw SyntaxError.
Proof.
  intros Ew Ei Ej. unfold classify, parse_json. by rewrite Ew, Ei, Ej.
Qed.

End Containers.

(** C1.  A PNG that stops one byte after its signature: the chunk loop reads
    a length past the end of the buffer, [parsePNGMetadata] rejects with the
    [RangeError], and [parseImageMetadata], which returned that promise
    without awaiting it, rejects too instead of returning [null]. *)
Theorem truncated_png_rejects (P : Platform) :
  parseImageMetadata truncated_png = Throw RangeError.
Proof. reflexivity. Qed.

(** C4.  A PNG file among whose recorded text chunks is [workflow]: whatever
    the other chunks are ([invokeai_metadata], [parameters] and [prompt] may
    each be there or not), [parseImageMetadata] returns the record of the
    ComfyUI branch, built from the [workflow] text. *)
Theorem workflow_chunk_takes_priority (P : Platform)
  (file : File) (rest : list byte) (chunks : gmap string string) (workflow : string) :
  contents file = (png_signature ++ rest)%list ->
  png_chunks (contents file) = Ok chunks ->
  chunks !! "workflow" = Some workflow ->
  exists metadata,
    parseImageMetadata file = Ok metadata
    /\ is_comfy_variant metadata
    /\ prop metadata "workflow" = parsed_or_text workflow.
Proof.
  intros Hsig Hchunks Hw.
  rewrite (parseImageMetadata_png _ _ Hsig). unfold parsePNGMetadata. rewrite Hchunks. cbn.
  rewrite (classify_workflow _ _ (png_chunks_truthy _ _ _ _ Hchunks Hw)).
  eexists. split; [reflexivity|]. split; [by eexists _, _|].
  reflexivity.
Qed.

Lemma workflow_chunk_takes_priority_witness :
  let P := reference_host in
  let chunks : gmap string string :=
    <["parameters" := scenario_parameters]>
      (<["workflow" := "{}"]> (<["invokeai_metadata" := "{}"]> ∅)) in
  (contents mixed_png = (png_signature ++ List.skipn 8 (contents mixed_png))%list
   /\ png_chunks (contents mixed_png) = Ok chunks
   /\ chunks !! "workflow" = Some "{}")
  /\ exists metadata,
       parseImageMetadata mixed_png = Ok metadata
       /\ is_comfy_variant metadata
       /\ prop metadata "workflow" = parsed_or_text "{}".
Proof.
  intros P chunks.
  assert (png_chunks (contents mixed_png) = Ok chunks) as Hchunks by (vm_compute; reflexivity).
  assert (chunks !! "workflow" = Some "{}") as Hw by (vm_compute; reflexivity).
  split; [split; [reflexivity | split; assumption]|].
  exact (workflow_chunk_takes_priority P mixed_png _ chunks "{}" eq_refl Hchunks Hw).
Defined.

(** C3, as the program has it.  In a PNG file with no [workflow] chunk whose
    [invokeai_metadata] chunk holds text that is not JSON, the presence of
    that chunk alone selects the InvokeAI tier: the cascade does not go on to
    a [parameters] or [prompt] chunk, and the file yields no metadata
    record, whatever its other chunks are. *)
Theorem malformed_invokeai_yields_no_record (P : Platform)
  (file : File) (rest : list byte) (chunks : gmap string string) (text : string) :
  contents file = (png_signature ++ rest)%list ->
  png_chunks (contents file) = Ok chunks ->
  chunks !! "workflow" = None ->
  chunks !! "invokeai_metadata" = Some text ->
  JSON_parse text = None ->
  ~ yields_record (parseImageMetadata file).
Proof.
  intros Hsig Hchunks Hw Hi Hj (metadata & E & _). revert E.
  rewrite (parseImageMetadata_png _ _ Hsig). unfold parsePNGMetadata. rewrite Hchunks. cbn.
  rewrite (classify_malformed_invokeai chunks text); auto.
  - discriminate.
  - by apply png_chunks_absent.
  - by eapply png_chunks_truthy.
Qed.

Lemma malformed_invokeai_yields_no_record_witness :
  let P := reference_host in
  let chunks : gmap string string :=
    <["parameters" := scenario_parameters]> (<["invokeai_metadata" := "{oops"]> ∅) in
  (contents malformed_invokeai_png
   = (png_signature ++ List.skipn 8 (contents malformed_invokeai_png))%list
   /\ png_chunks (contents malformed_invokeai_png) = Ok chunks
   /\ chunks !! "workflow" = None
   /\ chunks !! "invokeai_metadata" = Some "{oops"
   /\ JSON_parse "{oops" = None)
  /\ ~ yields_record (parseImageMetadata malformed_invokeai_png).
Proof.
  intros P chunks.
  assert (png_chunks (contents malformed_invokeai_png) = Ok chunks) as Hchunks
    by (vm_compute; reflexivity).
  assert (chunks !! "workflow" = None) as Hw by (vm_compute; reflexivity).
  assert (chunks !! "invokeai_metadata" = Some "{oops") as Hi by (vm_compute; reflexivity).
  assert (JSON_parse "{oops" = None) as Hj by (vm_compute; reflexivity).
  split; [repeat split; assumption|].
  exact (malformed_invokeai_yields_no_record P malformed_invokeai_png _ chunks "{oops"
           eq_refl Hchunks Hw Hi Hj).
Defined.

(** C3 as stated fails on this file: its [invokeai_metadata] chunk is not
    JSON and it carries the [parameters] chunk of the first scenario, yet the
    parse ends with the [SyntaxError] of [JSON.parse] and not with the
    Automatic1111 record of that chunk. *)
Lemma malformed_invokeai_is_not_parsed_as_a1111 :
  (png_chunks (contents malformed_invokeai_png)
   ≫= fun chunks => Ok (chunks !! "invokeai_metadata", chunks !! "parameters"))
  = Ok (Some "{oops", Some scenario_parameters)
  /\ @JSON_parse reference_host "{oops" = None
  /\ @parseImageMetadata reference_host malformed_invokeai_png = Throw SyntaxError
  /\ @parseImageMetadata reference_host malformed_invokeai_png
     <> Ok (a1111_record scenario_parameters).
Proof.
  assert (@parseImageMetadata reference_host malformed_invokeai_png = Throw SyntaxError) as E
    by (vm_compute; reflexivity).
  repeat split; try (vm_compute; reflexivity).
  rewrite E. discriminate.
Qed.

(** ** The cache comes first *)

Section Cache.

Context `{Platform}.

Implicit Types (metadata normalized : value).

Lemma carries_cache_normalized_of metadata normalized :
  carries_cache metadata normalized -> normalized_of metadata = Ok (Some normalized).
Proof.
  intros (Hin & Hp & Ht). unfold normalized_of. rewrite Hin. cbn. by rewrite Hp, Ht.
Qed.

Ltac use_cache Hc :=
  rewrite (carries_cache_normalized_of _ _ Hc); unfold mbind, res_bind.

Lemma extractPrompt_cached metadata normalized :
  carries_cache metadata normalized -> truthy (prop normalized "prompt") = true ->
  extractPrompt metadata = Ok (prop normalized "prompt").
Proof. intros Hc Hp. unfold extractPrompt. use_cache Hc. by rewrite Hp. Qed.

Lemma extractNegativePrompt_cached metadata normalized :
  carries_cache metadata normalized -> truthy (prop normalized "negativePrompt") = true ->
  extractNegativePrompt metadata = Ok (prop normalized "negativePrompt").
Proof. intros Hc Hp. unfold extractNegativePrompt. use_cache Hc. by rewrite Hp. Qed.

Lemma isArray_truthy v : isArray v = true -> truthy v = true.
Proof. by destruct v. Qed.

Lemma extractModels_cached metadata normalized :
  carries_cache metadata normalized -> isArray (prop normalized "models") = true ->
  extractModels metadata = Ok (prop normalized "models").
Proof.
  intros Hc Hp. unfold extractModels. use_cache Hc. by rewrite Hp, (isArray_truthy _ Hp).
Qed.

Lemma extractLoras_cached metadata normalized :
  carries_cache metadata normalized -> isArray (prop normalized "loras") = true ->
  extractLoras metadata = Ok (prop normalized "loras").
Proof.
  intros Hc Hp. unfold extractLoras. use_cache Hc. by rewrite Hp, (isArray_truthy _ Hp).
Qed.

Lemma extractScheduler_cached metadata normalized :
  carries_cache metadata normalized -> truthy (prop normalized "scheduler") = true ->
  extractScheduler metadata = Ok (prop normalized "scheduler").
Proof. intros Hc Hp. unfold extractScheduler. use_cache Hc. by rewrite Hp. Qed.

Lemma cached_number_hit normalized k :
  is_number (prop normalized k) = true ->
  cached_number (Some normalized) k = Some (prop normalized k).
Proof. intros Hp. unfold cached_number. rewrite Hp. by destruct (prop normalized k). Qed.

Lemma extractCfgScale_cached metadata normalized :
  carries_cache metadata normalized -> is_number (prop normalized "cfgScale") = true ->
  extractCfgScale metadata = Ok (prop normalized "cfgScale").
Proof.
  intros Hc Hp. unfold extractCfgScale. use_cache Hc. by rewrite (cached_number_hit _ _ Hp).
Qed.

Lemma extractSteps_cached metadata normalized :
  carries_cache metadata normalized -> is_number (prop normalized "steps") = true ->
  extractSteps metadata = Ok (prop normalized "steps").
Proof.
  intros Hc Hp. unfold extractSteps. use_cache Hc. by rewrite (cached_number_hit _ _ Hp).
Qed.

Lemma extractSeed_cached metadata normalized :
  carries_cache metadata normalized -> is_number (prop normalized "seed") = true ->
  extractSeed metadata = Ok (prop normalized "seed").
Proof.
  intros Hc Hp. unfold extractSeed. use_cache Hc. by rewrite (cached_number_hit _ _ Hp).
Qed.

Lemma extractDimensions_cached metadata normalized :
  carries_cache metadata normalized ->
  truthy (prop normalized "width") = true -> truthy (prop normalized "height") = true ->
  extractDimensions metadata
  = Ok (dimensions_text (prop normalized "width") (prop normalized "height")).
Proof.
  intros Hc Hw Hh. unfold extractDimensions. use_cache Hc.
  unfold from_option, dimensions_of. by rewrite Hw, Hh.
Qed.

(** [extractBoard] never looks at the cache: for metadata that is not
    InvokeAI the board is [Uncategorized], whatever the cache holds. *)
Lemma extractBoard_not_invokeai metadata st :
  isInvokeAIMetadata metadata = false ->
  extractBoard metadata st = (Ok (VStr "Uncategorized"), st).
Proof. intros Hi. unfold extractBoard. by rewrite Hi. Qed.

End Cache.

(** C2, as the program has it.  For each of the nine extractors of prompt,
    negative prompt, models, LoRAs, scheduler, CFG scale, steps, seed and
    dimensions, and every metadata that carries a cache in which the field is
    populated (a non-empty prompt, negative prompt or scheduler; an array of
    models or LoRAs; a number for CFG scale, steps or seed; a width and a
    height that are there), the extractor returns the cached value as it is,
    the dimensions being the cached width and height joined by [x].  The
    board extractor is not among them: it does not read the cache. *)
Theorem extractors_return_the_cached_field (P : Platform) (metadata normalized : value) :
  carries_cache metadata normalized ->
  (truthy (prop normalized "prompt") = true ->
   extractPrompt metadata = Ok (prop normalized "prompt"))
  /\ (truthy (prop normalized "negativePrompt") = true ->
      extractNegativePrompt metadata = Ok (prop normalized "negativePrompt"))
  /\ (isArray (prop normalized "models") = true ->
      extractModels metadata = Ok (prop normalized "models"))
  /\ (isArray (prop normalized "loras") = true ->
      extractLoras metadata = Ok (prop normalized "loras"))
  /\ (truthy (prop normalized "scheduler") = true ->
      extractScheduler metadata = Ok (prop normalized "scheduler"))
  /\ (is_number (prop normalized "cfgScale") = true ->
      extractCfgScale metadata = Ok (prop normalized "cfgScale"))
  /\ (is_number (prop normalized "steps") = true ->
      extractSteps metadata = Ok (prop normalized "steps"))
  /\ (is_number (prop normalized "seed") = true ->
      extractSeed metadata = Ok (prop normalized "seed"))
  /\ (truthy (prop normalized "width") = true -> truthy (prop normalized "height") = true ->
      extractDimensions metadata
      = Ok (VStr (ToString (prop normalized "width") +:+ "x"
                  +:+ ToString (prop normalized "height")))).
Proof.
  intros Hc. repeat split; intros.
  - by apply extractPrompt_cached.
  - by apply extractNegativePrompt_cached.
  - by apply extractModels_cached.
  - by apply extractLoras_cached.
  - by apply extractScheduler_cached.
  - by apply extractCfgScale_cached.
  - by apply extractSteps_cached.
  - by apply extractSeed_cached.
  - by apply extractDimensions_cached.
Qed.

Lemma extractors_return_the_cached_field_witness :
  let P := reference_host in
  carries_cache cached_example cache_example
  /\ extractPrompt cached_example = Ok (VStr "a cat")
  /\ extractNegativePrompt cached_example = Ok (VStr "blurry")
  /\ extractModels cached_example = Ok (str_arr ["foo.safetensors"])
  /\ extractLoras cached_example = Ok (str_arr ["detail"])
  /\ extractScheduler cached_example = Ok (VStr "Euler a")
  /\ extractCfgScale cached_example = Ok (VNum (15 # 2))
  /\ extractSteps cached_example = Ok (num 20)
  /\ extractSeed cached_example = Ok (num 42)
  /\ extractDimensions cached_example = Ok (VStr "512x768").
Proof.
  intros P.
  assert (carries_cache cached_example cache_example) as Hc by (repeat split; reflexivity).
  split; [exact Hc|].
  destruct (extractors_return_the_cached_field P cached_example cache_example Hc)
    as (H1 & H2 & H3 & H4 & H5 & H6 & H7 & H8 & H9).
  exact (conj (H1 eq_refl) (conj (H2 eq_refl) (conj (H3 eq_refl) (conj (H4 eq_refl)
           (conj (H5 eq_refl) (conj (H6 eq_refl) (conj (H7 eq_refl) (conj (H8 eq_refl)
           (H9 eq_refl eq_refl))))))))).
Defined.

(** C2 as stated fails for the board: this metadata carries a cache whose
    [board] is [Alpha], and [extractBoard] returns [Uncategorized] on every
    host, whether its guard takes the metadata for InvokeAI or not. *)
Lemma extractBoard_ignores_the_cache :
  carries_cache cached_example cache_example
  /\ prop cache_example "board" = VStr "Alpha"
  /\ forall (P : Platform) (st : BoardState),
       extractBoard cached_example st = (Ok (VStr "Uncategorized"), st).
Proof.
  repeat split; try reflexivity.
  intros P st. unfold extractBoard.
  destruct (isInvokeAIMetadata cached_example); reflexivity.
Qed.

(** ** The InvokeAI prompt *)

Section InvokeAIPrompt.

Context `{Platform}.

Lemma truthy_VStr (s : string) : s <> "" -> truthy (VStr s) = true.
Proof. by destruct s. Qed.

(** Without a populated cached prompt, the first test of [extractPrompt]
    does not return. *)
Lemma normalized_of_no_prompt (metadata : value) (fields_like : value) :
  prop metadata "positive_prompt" = fields_like -> fields_like <> VUndefined ->
  no_cached_prompt metadata ->
  exists cached,
    normalized_of metadata = Ok cached
    /\ match cached with
       | Some normalized => truthy (prop normalized "prompt") = false
       | None => True
       end.
Proof.
  intros Hp Hne Hno. unfold normalized_of.
  assert (exists b, has_in "normalizedMetadata" metadata = Ok b) as [b Hb].
  { destruct metadata; cbn in *; try (by subst); eauto. }
  rewrite Hb. cbn.
  destruct b; cbn; [|by eexists].
  destruct (truthy (prop metadata "normalizedMetadata")) eqn:Ht; [|by eexists].
  eexists. split; [reflexivity|]. cbn. apply Hno. by repeat split.
Qed.

End InvokeAIPrompt.

(** C9, as the program has it.  For metadata that the guard takes for
    InvokeAI, that carries no cache with a populated prompt, that exposes no
    [parameters] string from which the Automatic1111 grammar reads a prompt,
    and whose [positive_prompt] and [negative_prompt] are non-empty strings,
    [extractPrompt] returns the positive prompt, the separator [ ### ] and
    the negative prompt, in this order. *)
Theorem invokeai_prompt_joins_both_prompts (P : Platform)
  (metadata : value) (positive negative : string) :
  isInvokeAIMetadata metadata = true ->
  no_cached_prompt metadata ->
  no_embedded_prompt metadata ->
  prop metadata "positive_prompt" = VStr positive -> positive <> "" ->
  prop metadata "negative_prompt" = VStr negative -> negative <> "" ->
  extractPrompt metadata = Ok (VStr (positive +:+ " ### " +:+ negative)).
Proof.
  intros Hguard Hcache Hembedded Hpos Hpos_ne Hneg Hneg_ne.
  destruct (normalized_of_no_prompt metadata (VStr positive) Hpos ltac:(discriminate) Hcache)
    as (cached & Hn & Hc).
  unfold extractPrompt. rewrite Hn. unfold mbind, res_bind.
  assert ((match cached with
           | Some normalized =>
               if truthy (prop normalized "prompt") then Some (prop normalized "prompt") else None
           | None => None
           end) = None) as ->.
  { destruct cached; [by rewrite Hc | reflexivity]. }
  assert ((match embedded_a1111 metadata with
           | Some a1111Data =>
               if truthy (prop a1111Data "prompt") then Some (prop a1111Data "prompt") else None
           | None => None
           end) = None) as ->.
  { destruct (embedded_a1111 metadata) eqn:E; [by rewrite (Hembedded _ E) | reflexivity]. }
  rewrite Hguard. unfold invokeai_prompt.
  rewrite Hpos, Hneg, !truthy_VStr by assumption.
  reflexivity.
Qed.

Lemma invokeai_prompt_joins_both_prompts_witness :
  let P := reference_host in
  (isInvokeAIMetadata invokeai_two_prompts = true
   /\ no_cached_prompt invokeai_two_prompts
   /\ no_embedded_prompt invokeai_two_prompts
   /\ prop invokeai_two_prompts "positive_prompt" = VStr "a cat" /\ "a cat" <> ""
   /\ prop invokeai_two_prompts "negative_prompt" = VStr "blurry" /\ "blurry" <> "")
  /\ extractPrompt invokeai_two_prompts = Ok (VStr "a cat ### blurry").
Proof.
  intros P.
  assert (no_cached_prompt invokeai_two_prompts) as Hc.
  { intros normalized (Hin & _). vm_compute in Hin. discriminate. }
  assert (no_embedded_prompt invokeai_two_prompts) as He.
  { intros a1111Data E. vm_compute in E. discriminate. }
  split; [repeat split; (reflexivity || assumption || discriminate)|].
  exact (invokeai_prompt_joins_both_prompts P invokeai_two_prompts "a cat" "blurry"
           eq_refl Hc He eq_refl ltac:(discriminate) eq_refl ltac:(discriminate)).
Defined.

(** C9 as stated fails on this record: both prompts are non-empty strings
    and there is no cache, but the record also exposes a [parameters]
    string, and on every host [extractPrompt] returns the prompt read from
    that string. *)
Lemma invokeai_prompt_yields_to_parameters :
  prop invokeai_with_parameters "positive_prompt" = VStr "a cat"
  /\ prop invokeai_with_parameters "negative_prompt" = VStr "blurry"
  /\ no_cached_prompt invokeai_with_parameters
  /\ @isInvokeAIMetadata reference_host invokeai_with_parameters = true
  /\ (forall P : Platform, extractPrompt invokeai_with_parameters = Ok (VStr "a dog"))
  /\ VStr "a dog" <> VStr ("a cat" +:+ " ### " +:+ "blurry").
Proof.
  repeat split; try reflexivity; try discriminate.
  intros normalized (Hin & _). vm_compute in Hin. discriminate.
Qed.

(** ** A key that is not there does not match *)

Section AbsentKey.

Lemma lower_of_upper (c : ascii) : Str.lower_char (Str.upper_char c) = Str.lower_char c.
Proof. destruct c as [[] [] [] [] [] [] [] []]; reflexivity. Qed.

Lemma same_char_lower (a b : ascii) :
  Re.same_char true a b = true -> Str.lower_char a = Str.lower_char b.
Proof.
  unfold Re.same_char. intros E%Ascii.eqb_eq.
  by rewrite <- (lower_of_upper a), <- (lower_of_upper b), E.
Qed.

(** A literal read without regard to case is, in lower case, a prefix of the
    text in lower case. *)
Lemma strip_prefix_lower (l : string) : forall s prev r,
  Re.strip true l s prev = Some r ->
  String.prefix (Str.toLowerCase l) (Str.toLowerCase s) = true.
Proof.
  induction l as [|a l IH]; intros s prev r.
  - by destruct s.
  - destruct s as [|b s]; cbn; [intros [=]|].
    fold (Re.same_char true a b).
    destruct (Re.same_char true a b) eqn:E; [|intros [=]].
    intros Hs. rewrite (same_char_lower _ _ E).
    destruct (ascii_dec _ _) as [_|Hne]; [|by destruct Hne]. eauto.
Qed.

Lemma find_from_none (needle : string) : forall s i,
  Str.find_from needle s i = None ->
  String.prefix needle s = false
  /\ match s with
     | String _ s' => Str.find_from needle s' (S i) = None
     | EmptyString => True
     end.
Proof.
  intros s i. destruct s as [|c s']; cbn [Str.find_from].
  - destruct (String.prefix needle ""); [intros [=] | auto].
  - destruct (String.prefix needle (String c s')); [intros [=] | auto].
Qed.

(** A pattern that starts with a literal finds nothing in a text that does
    not contain the literal, case apart. *)
Lemma scan_absent_literal (l : string) (r : Re.re) : forall s prev i j,
  Str.find_from (Str.toLowerCase l) (Str.toLowerCase s) j = None ->
  Re.scan true (Re.Seq (Re.Lit l) r) prev s i = None.
Proof.
  induction s as [|c s IH]; intros prev i j Hf;
    destruct (find_from_none _ _ _ Hf) as [Hp Hrest].
  - cbn. unfold Re.at_here. cbn.
    destruct (Re.strip true l "" prev) as [[]|] eqn:E; [|reflexivity].
    apply strip_prefix_lower in E. cbn in *. congruence.
  - cbn [Re.scan]. unfold Re.at_here. cbn [Re.run].
    destruct (Re.strip true l (String c s) prev) as [[]|] eqn:E.
    + apply strip_prefix_lower in E. congruence.
    + eapply IH. exact Hrest.
Qed.

Lemma includes_false_find (s needle : string) :
  Str.includes s needle = false -> Str.find_from needle s 0 = None.
Proof.
  unfold Str.includes, Str.indexOf.
  replace (Z.to_nat (Z.min (Z.max 0 0) (Z.of_nat (String.length s)))) with 0%nat by lia.
  cbn [Str.drop]. destruct (Str.find_from needle s 0); [|reflexivity].
  intros E. apply Z.leb_gt in E. lia.
Qed.

Lemma exec_absent_literal (l : string) (r : Re.re) (s : string) :
  Str.includes (Str.toLowerCase s) (Str.toLowerCase l) = false ->
  Re.exec true (Re.Seq (Re.Lit l) r) s = None.
Proof.
  intros E. unfold Re.exec. eapply scan_absent_literal. by apply includes_false_find.
Qed.

Lemma no_Steps_match (parameters : string) :
  Str.includes (Str.toLowerCase parameters) "steps:" = false ->
  Re.exec true re_Steps parameters = None.
Proof. apply (exec_absent_literal "Steps:"). Qed.

Lemma no_CFG_scale_match (parameters : string) :
  Str.includes (Str.toLowerCase parameters) "cfg scale:" = false ->
  Re.exec true re_CFG_scale parameters = None.
Proof. apply (exec_absent_literal "CFG scale:"). Qed.

End AbsentKey.

(** ** The Automatic1111 cache *)

Section A1111Cache.

Context `{Platform}.

Lemma parseA1111Metadata_truthy (parameters : string) :
  truthy (parseA1111Metadata parameters) = true.
Proof. unfold parseA1111Metadata. cbv zeta. repeat case_match; reflexivity. Qed.

(** Without a match of the [Steps:] pattern the cache keeps its default. *)
Lemma parseA1111Metadata_steps_default (parameters : string) :
  Re.exec true re_Steps parameters = None ->
  prop (parseA1111Metadata parameters) "steps" = num 0.
Proof.
  intros E. unfold parseA1111Metadata. cbv zeta. rewrite E.
  repeat case_match; reflexivity.
Qed.

Lemma parseA1111Metadata_cfgScale_default (parameters : string) :
  Re.exec true re_CFG_scale parameters = None ->
  prop (parseA1111Metadata parameters) "cfgScale" = num 0.
Proof.
  intros E. unfold parseA1111Metadata. cbv zeta. rewrite E.
  repeat case_match; reflexivity.
Qed.

(** The record of the Automatic1111 tier carries the cache computed from its
    [parameters]. *)
Lemma a1111_record_carries_cache (parameters : string) :
  carries_cache (a1111_record parameters) (parseA1111Metadata parameters).
Proof. repeat split. apply parseA1111Metadata_truthy. Qed.

(** When the cache has no array of models and the guards take the metadata
    for Automatic1111, [extractModels] reads the [parameters] string. *)
Lemma extractModels_a1111 (metadata normalized : value) :
  carries_cache metadata normalized ->
  isArray (prop normalized "models") = false ->
  isInvokeAIMetadata metadata = false ->
  isAutomatic1111Metadata metadata = true ->
  extractModels metadata = extractModelsFromAutomatic1111 metadata.
Proof.
  intros Hc Hm Hi Ha. unfold extractModels.
  rewrite (carries_cache_normalized_of _ _ Hc). unfold mbind, res_bind.
  by rewrite Hm, andb_false_r, Hi, Ha.
Qed.

End A1111Cache.

(** C10.  For every [parameters] string, on the record that the
    Automatic1111 tier builds from it (the string and the cache that
    [parseA1111Metadata] computes from it): when the string has no [Steps:]
    key, that is when the pattern of the key finds no match in it,
    [extractSteps] returns the number 0, the default of the cache, and not
    [undefined]; when it has no [CFG scale:] key, [extractCfgScale] returns
    the number 0 and not [undefined]. *)
Theorem a1111_cache_defaults_are_returned (P : Platform) (parameters : string) :
  (Re.exec true re_Steps parameters = None ->
   extractSteps (a1111_record parameters) = Ok (VNum 0)
   /\ extractSteps (a1111_record parameters) <> Ok VUndefined)
  /\ (Re.exec true re_CFG_scale parameters = None ->
      extractCfgScale (a1111_record parameters) = Ok (VNum 0)
      /\ extractCfgScale (a1111_record parameters) <> Ok VUndefined).
Proof.
  pose proof (a1111_record_carries_cache parameters) as Hc.
  split; intros Habsent.
  - assert (prop (parseA1111Metadata parameters) "steps" = num 0) as E
      by (apply parseA1111Metadata_steps_default, Habsent).
    assert (extractSteps (a1111_record parameters) = Ok (VNum 0)) as ->.
    { rewrite (extractSteps_cached _ _ Hc); by rewrite E. }
    split; [reflexivity | discriminate].
  - assert (prop (parseA1111Metadata parameters) "cfgScale" = num 0) as E
      by (apply parseA1111Metadata_cfgScale_default, Habsent).
    assert (extractCfgScale (a1111_record parameters) = Ok (VNum 0)) as ->.
    { rewrite (extractCfgScale_cached _ _ Hc); by rewrite E. }
    split; [reflexivity | discriminate].
Qed.

(** The record of a prompt with no parameter line at all. *)
Lemma a1111_cache_defaults_are_returned_witness :
  (Re.exec true re_Steps "a cat" = None /\ Re.exec true re_CFG_scale "a cat" = None)
  /\ @extractSteps reference_host (a1111_record "a cat") = Ok (VNum 0)
  /\ @extractCfgScale reference_host (a1111_record "a cat") = Ok (VNum 0).
Proof.
  destruct (a1111_cache_defaults_are_returned reference_host "a cat") as [Hs Hc].
  split; [split; reflexivity|].
  split; [apply Hs | apply Hc]; reflexivity.
Defined.

(** In particular a text in which the words of the key do not occur, in
    either case, has no such key. *)
Corollary a1111_cache_defaults_without_the_words (P : Platform) (parameters : string) :
  (Str.includes (Str.toLowerCase parameters) "steps:" = false ->
   extractSteps (a1111_record parameters) = Ok (VNum 0))
  /\ (Str.includes (Str.toLowerCase parameters) "cfg scale:" = false ->
      extractCfgScale (a1111_record parameters) = Ok (VNum 0)).
Proof.
  pose proof (a1111_record_carries_cache parameters) as Hc.
  split; intros Habsent.
  - rewrite (extractSteps_cached _ _ Hc);
      by rewrite (parseA1111Metadata_steps_default _ (no_Steps_match _ Habsent)).
  - rewrite (extractCfgScale_cached _ _ Hc);
      by rewrite (parseA1111Metadata_cfgScale_default _ (no_CFG_scale_match _ Habsent)).
Qed.

(** C7.  The PNG file whose only text chunk is the [parameters] of the first
    scenario is parsed into the Automatic1111 record of that text; for that
    record, which the guards take for Automatic1111 and not for InvokeAI, the
    extractors give the prompt [a cat], the negative prompt [blurry], 20
    steps, CFG scale 7.5 (the number 15/2), seed 42, dimensions [512x768],
    the single model [foo.safetensors] and the scheduler [Euler a]. *)
Theorem first_scenario (P : Platform) :
  let record := a1111_record scenario_parameters in
  isInvokeAIMetadata record = false ->
  isAutomatic1111Metadata record = true ->
  parseImageMetadata scenario_png = Ok record
  /\ extractPrompt record = Ok (VStr "a cat")
  /\ extractNegativePrompt record = Ok (VStr "blurry")
  /\ extractSteps record = Ok (VNum 20)
  /\ extractCfgScale record = Ok (VNum (15 # 2))
  /\ extractSeed record = Ok (VNum 42)
  /\ extractDimensions record = Ok (VStr "512x768")
  /\ extractModels record = Ok (arr [VStr "foo.safetensors"])
  /\ extractScheduler record = Ok (VStr "Euler a").
Proof.
  intros record Hi Ha.
  pose proof (a1111_record_carries_cache scenario_parameters) as Hc.
  fold record in Hc.
  assert (parseA1111Metadata scenario_parameters
          = VObj [("prompt", VStr "a cat"); ("model", VStr "foo.safetensors");
                  ("width", VNum 512); ("height", VNum 768); ("steps", VNum 20);
                  ("scheduler", VStr "Euler a"); ("negativePrompt", VStr "blurry");
                  ("cfgScale", VNum (15 # 2)); ("seed", VNum 42)]) as Hn
    by (vm_compute; reflexivity).
  rewrite Hn in Hc.
  split; [vm_compute; reflexivity|].
  split; [by rewrite (extractPrompt_cached _ _ Hc)|].
  split; [by rewrite (extractNegativePrompt_cached _ _ Hc)|].
  split; [by rewrite (extractSteps_cached _ _ Hc)|].
  split; [by rewrite (extractCfgScale_cached _ _ Hc)|].
  split; [by rewrite (extractSeed_cached _ _ Hc)|].
  split; [by rewrite (extractDimensions_cached _ _ Hc)|].
  split; [|by rewrite (extractScheduler_cached _ _ Hc)].
  rewrite (extractModels_a1111 _ _ Hc eq_refl Hi Ha).
  vm_compute. reflexivity.
Qed.

Lemma first_scenario_witness :
  let P := reference_host in
  let record := a1111_record scenario_parameters in
  (isInvokeAIMetadata record = false /\ isAutomatic1111Metadata record = true)
  /\ parseImageMetadata scenario_png = Ok record
  /\ extractPrompt record = Ok (VStr "a cat")
  /\ extractNegativePrompt record = Ok (VStr "blurry")
  /\ extractSteps record = Ok (VNum 20)
  /\ extractCfgScale record = Ok (VNum (15 # 2))
  /\ extractSeed record = Ok (VNum 42)
  /\ extractDimensions record = Ok (VStr "512x768")
  /\ extractModels record = Ok (arr [VStr "foo.safetensors"])
  /\ extractScheduler record = Ok (VStr "Euler a").
Proof.
  intros P record.
  assert (isInvokeAIMetadata record = false) as Hi by (vm_compute; reflexivity).
  assert (isAutomatic1111Metadata record = true) as Ha by (vm_compute; reflexivity).
  split; [split; assumption|].
  exact (first_scenario P Hi Ha).
Defined.

(** ** Negative prompts in the ComfyUI normalizer *)

(** The test of the text-encode pass is the denylist of the specification. *)
Lemma isNegative_is_the_denylist (text : string) : isNegative text = spec_is_negative text.
Proof.
  unfold isNegative, spec_is_negative, spec_denylist. cbn [existsb].
  by rewrite orb_false_r, !orb_assoc.
Qed.

(** The test of the fallback scan is the same denylist without its last
    word. *)
Lemma isNegative_fallback_lacks_negative (text : string) :
  isNegative text
  = isNegative_fallback text || Str.includes (Str.toLowerCase text) "negative".
Proof. reflexivity. Qed.

(** C8.  The two tests differ on the text [negative space]: the text-encode
    pass, like the denylist of the specification, takes it for a negative
    prompt; the fallback scan, whose chain of tests stops at [bad], does
    not.  In a graph whose only node is a text-encode node the text becomes
    the negative prompt; in a graph whose only node is of another class, so
    that the fallback scan reads the text, it becomes the prompt. *)
Theorem fallback_scan_misses_the_word_negative (P : Platform) :
  spec_is_negative "negative space" = true
  /\ isNegative "negative space" = true
  /\ isNegative_fallback "negative space" = false
  /\ (let result := parseComfyUIMetadata
                      (single_node_graph (text_node "CLIPTextEncode" "negative space")) in
      prop result "negativePrompt" = VStr "negative space" /\ prop result "prompt" = VStr "")
  /\ (let result := parseComfyUIMetadata
                      (single_node_graph (text_node "PrimitiveNode" "negative space")) in
      prop result "negativePrompt" = VStr "" /\ prop result "prompt" = VStr "negative space").
Proof. repeat split; vm_compute; reflexivity. Qed.

(** ** Repeated models *)

(** C6.  A ComfyUI execution graph with two checkpoint loaders of the same
    file: the normalizer pushes the name once per node, so the cached
    [models] array, which [extractModels] returns as it is, holds the name
    twice.  Likewise [extractModelsFromInvokeAI] pushes [model] and
    [base_model] without looking for repeats, and takes a model that is
    literally named [[object Object]]. *)
Theorem models_can_repeat :
  @parseImageMetadata reference_host two_loaders_png
  = Ok (@comfy_prompt_record reference_host two_loaders_graph)
  /\ (forall P : Platform,
        prop (prop (comfy_prompt_record two_loaders_graph) "normalizedMetadata") "models"
        = arr [VStr "sd.safetensors"; VStr "sd.safetensors"]
        /\ extractModels (comfy_prompt_record two_loaders_graph)
           = Ok (arr [VStr "sd.safetensors"; VStr "sd.safetensors"]))
  /\ @extractModelsFromInvokeAI reference_host
       (VObj [("model", VStr "sd"); ("base_model", VStr "sd")])
     = Ok (arr [VStr "sd"; VStr "sd"])
  /\ @extractModelsFromInvokeAI reference_host (VObj [("model", VStr "[object Object]")])
     = Ok (arr [VStr "[object Object]"]).
Proof.
  split; [vm_compute; reflexivity|].
  split; [intros P; split; vm_compute; reflexivity|].
  split; vm_compute; reflexivity.
Qed.

(** * Further properties of the module *)

(** ** Files that are not PNG *)

Section Signatures.

Context `{Platform}.

Implicit Types (buffer : list byte) (file : File).

Lemma getUint32_short buffer offset :
  (byteLength buffer < offset + 4)%N -> getUint32 buffer offset = Throw RangeError.
Proof.
  intros Hlt. unfold getUint32.
  destruct (N.leb_spec (offset + 4) (byteLength buffer)); [lia | reflexivity].
Qed.

Lemma to_N_inj (a b : byte) : Byte.to_N a = Byte.to_N b -> a = b.
Proof.
  intros E. pose proof (Byte.of_to_N a) as Ha. rewrite E, Byte.of_to_N in Ha. congruence.
Qed.

(** The word read at the offset where four bytes stand. *)
Lemma getUint32_at buffer (pre : list byte) (b0 b1 b2 b3 : byte) (rest : list byte) :
  buffer = (pre ++ b0 :: b1 :: b2 :: b3 :: rest)%list ->
  getUint32 buffer (N.of_nat (length pre)) = Ok (big_endian 0 [b0; b1; b2; b3]).
Proof.
  intros ->. unfold getUint32, slice, byteLength. rewrite length_app. cbn [length].
  destruct (N.leb_spec (N.of_nat (length pre) + 4)
              (N.of_nat (length pre + S (S (S (S (length rest))))))); [|lia].
  rewrite !N.min_l by lia.
  replace (N.of_nat (length pre) + 4 - N.of_nat (length pre))%N with 4%N by lia.
  rewrite Nat2N.id, drop_app_length. reflexivity.
Qed.

Lemma getUint16_at buffer (pre : list byte) (b0 b1 : byte) (rest : list byte) :
  buffer = (pre ++ b0 :: b1 :: rest)%list ->
  getUint16 buffer (N.of_nat (length pre)) = Ok (big_endian 0 [b0; b1]).
Proof.
  intros ->. unfold getUint16, slice, byteLength. rewrite length_app. cbn [length].
  destruct (N.leb_spec (N.of_nat (length pre) + 2)
              (N.of_nat (length pre + S (S (length rest))))); [|lia].
  rewrite !N.min_l by lia.
  replace (N.of_nat (length pre) + 2 - N.of_nat (length pre))%N with 2%N by lia.
  rewrite Nat2N.id, drop_app_length. reflexivity.
Qed.

(** A buffer as long as a read needs, split at the read. *)
Lemma split_at_read buffer (offset n : nat) :
  (N.of_nat offset + N.of_nat n <= byteLength buffer)%N ->
  exists pre mid rest,
    buffer = (pre ++ mid ++ rest)%list /\ length pre = offset /\ length mid = n.
Proof.
  unfold byteLength. intros Hle.
  exists (take offset buffer), (take n (drop offset buffer)), (drop n (drop offset buffer)).
  rewrite !take_drop. split; [reflexivity|].
  rewrite !length_take, length_drop. lia.
Qed.

Lemma big_endian_4_inj (b0 b1 b2 b3 c0 c1 c2 c3 : byte) :
  big_endian 0 [b0; b1; b2; b3] = big_endian 0 [c0; c1; c2; c3] ->
  [b0; b1; b2; b3] = [c0; c1; c2; c3].
Proof.
  cbn [big_endian].
  pose proof (Byte.to_N_bounded b0). pose proof (Byte.to_N_bounded b1).
  pose proof (Byte.to_N_bounded b2). pose proof (Byte.to_N_bounded b3).
  pose proof (Byte.to_N_bounded c0). pose proof (Byte.to_N_bounded c1).
  pose proof (Byte.to_N_bounded c2). pose proof (Byte.to_N_bounded c3).
  intros E.
  assert (Byte.to_N b0 = Byte.to_N c0 /\ Byte.to_N b1 = Byte.to_N c1
          /\ Byte.to_N b2 = Byte.to_N c2 /\ Byte.to_N b3 = Byte.to_N c3) as (E0 & E1 & E2 & E3)
    by lia.
  by rewrite (to_N_inj _ _ E0), (to_N_inj _ _ E1), (to_N_inj _ _ E2), (to_N_inj _ _ E3).
Qed.

Lemma big_endian_2_inj (b0 b1 c0 c1 : byte) :
  big_endian 0 [b0; b1] = big_endian 0 [c0; c1] -> [b0; b1] = [c0; c1].
Proof.
  cbn [big_endian].
  pose proof (Byte.to_N_bounded b0). pose proof (Byte.to_N_bounded b1).
  pose proof (Byte.to_N_bounded c0). pose proof (Byte.to_N_bounded c1).
  intros E.
  assert (Byte.to_N b0 = Byte.to_N c0 /\ Byte.to_N b1 = Byte.to_N c1) as (E0 & E1) by lia.
  by rewrite (to_N_inj _ _ E0), (to_N_inj _ _ E1).
Qed.

(** A successful read of four bytes, as a split of the buffer. *)
Lemma getUint32_inv buffer (offset : nat) (w : N) :
  getUint32 buffer (N.of_nat offset) = Ok w ->
  exists pre b0 b1 b2 b3 rest,
    buffer = (pre ++ b0 :: b1 :: b2 :: b3 :: rest)%list /\ length pre = offset
    /\ w = big_endian 0 [b0; b1; b2; b3].
Proof.
  intros E.
  assert (N.of_nat offset + N.of_nat 4 <= byteLength buffer)%N as Hle.
  { destruct (N.le_gt_cases (N.of_nat offset + 4) (byteLength buffer)) as [|Hgt]; [lia|].
    rewrite getUint32_short in E by lia. discriminate. }
  destruct (split_at_read _ _ _ Hle) as (pre & mid & rest & -> & Hpre & Hmid).
  destruct mid as [|b0 [|b1 [|b2 [|b3 [|]]]]]; try discriminate.
  exists pre, b0, b1, b2, b3, rest. split; [reflexivity | split; [exact Hpre|]].
  subst offset. erewrite getUint32_at in E by reflexivity. congruence.
Qed.

Lemma getUint16_inv buffer (offset : nat) (w : N) :
  getUint16 buffer (N.of_nat offset) = Ok w ->
  exists pre b0 b1 rest,
    buffer = (pre ++ b0 :: b1 :: rest)%list /\ length pre = offset
    /\ w = big_endian 0 [b0; b1].
Proof.
  intros E.
  assert (N.of_nat offset + N.of_nat 2 <= byteLength buffer)%N as Hle.
  { destruct (N.le_gt_cases (N.of_nat offset + 2) (byteLength buffer)) as [|Hgt]; [lia|].
    revert E. unfold getUint16.
    destruct (N.leb_spec (N.of_nat offset + 2) (byteLength buffer)); [lia | discriminate]. }
  destruct (split_at_read _ _ _ Hle) as (pre & mid & rest & -> & Hpre & Hmid).
  destruct mid as [|b0 [|b1 [|]]]; try discriminate.
  exists pre, b0, b1, rest. split; [reflexivity | split; [exact Hpre|]].
  subst offset. erewrite getUint16_at in E by reflexivity. congruence.
Qed.

(** The two words that [parseImageMetadata] compares are the eight bytes of
    the PNG signature. *)
Lemma reads_png_signature buffer :
  getUint32 buffer 0 = Ok 0x89504E47%N -> getUint32 buffer 4 = Ok 0x0D0A1A0A%N ->
  exists rest, buffer = (png_signature ++ rest)%list.
Proof.
  intros E0 E4.
  destruct (getUint32_inv buffer 4 _ E4) as (pre & b4 & b5 & b6 & b7 & rest & -> & Hpre & Hw).
  destruct pre as [|b0 [|b1 [|b2 [|b3 [|]]]]]; try discriminate.
  assert (big_endian 0 [b4; b5; b6; b7] = big_endian 0 [x0d; x0a; x1a; x0a]) as Hw4
    by (by rewrite <- Hw).
  apply big_endian_4_inj in Hw4. injection Hw4 as -> -> -> ->.
  destruct (getUint32_inv _ 0 _ E0) as (pre & c0 & c1 & c2 & c3 & rest' & E & Hpre' & Hw').
  destruct pre; [|discriminate]. cbn in E. injection E as ? ? ? ? _. subst c0 c1 c2 c3.
  assert (big_endian 0 [b0; b1; b2; b3] = big_endian 0 [x89; x50; x4e; x47]) as Hw0
    by (by rewrite <- Hw').
  apply big_endian_4_inj in Hw0. injection Hw0 as -> -> -> ->.
  by exists rest.
Qed.

Lemma reads_jpeg_marker buffer :
  getUint16 buffer 0 = Ok 0xFFD8%N -> exists rest, buffer = (xff :: xd8 :: rest)%list.
Proof.
  intros E0.
  destruct (getUint16_inv buffer 0 _ E0) as (pre & b0 & b1 & rest & -> & Hpre & Hw).
  destruct pre; [|discriminate].
  assert (big_endian 0 [b0; b1] = big_endian 0 [xff; xd8]) as Hw0 by (by rewrite <- Hw).
  apply big_endian_2_inj in Hw0. injection Hw0 as -> ->.
  by exists rest.
Qed.

(** [parseJPEGMetadata] catches whatever its body throws. *)
Lemma parseJPEGMetadata_returns buffer file :
  exists metadata, parseJPEGMetadata buffer file = Ok metadata.
Proof. unfold parseJPEGMetadata, try_catch. repeat case_match; eauto. Qed.

End Signatures.

(** X1.  A file of fewer than four bytes has no metadata: the first read of
    the signature is past the end of the buffer, and the [catch] of
    [parseImageMetadata] turns the [RangeError] into [null].  This holds also
    when the bytes are the start of a PNG or of a JPEG file. *)
Theorem file_shorter_than_four_bytes_has_no_metadata (P : Platform) (file : File) :
  (byteLength (contents file) < 4)%N -> parseImageMetadata file = Ok VNull.
Proof.
  intros Hlt. unfold parseImageMetadata.
  by rewrite (getUint32_short (contents file) 0) by lia.
Qed.

Lemma file_shorter_than_four_bytes_has_no_metadata_witness :
  let file := {| name := "cut.jpg"; contents := [xff; xd8; xff] |} in
  (byteLength (contents file) < 4)%N
  /\ @parseImageMetadata reference_host file = Ok VNull.
Proof.
  intros file.
  assert (byteLength (contents file) < 4)%N as Hlt by (vm_compute; reflexivity).
  split; [exact Hlt|].
  exact (file_shorter_than_four_bytes_has_no_metadata reference_host file Hlt).
Defined.

(** X2.  A file that does not start with the eight bytes of the PNG
    signature never makes [parseImageMetadata] reject: it returns a record or
    [null].  When the file does not start with the JPEG marker [FF D8]
    either, it returns [null]. *)
Theorem file_without_png_signature_never_rejects (P : Platform) (file : File) :
  (forall rest, contents file <> (png_signature ++ rest)%list) ->
  (exists metadata, parseImageMetadata file = Ok metadata)
  /\ ((forall rest, contents file <> (xff :: xd8 :: rest)%list) ->
      parseImageMetadata file = Ok VNull).
Proof.
  intros Hpng. unfold parseImageMetadata.
  destruct (getUint32 (contents file) 0) as [w0|] eqn:E0; cbn; [|eauto].
  assert ((if (w0 =? 0x89504E47)%N
           then w1 ← getUint32 (contents file) 4; Ok (w1 =? 0x0D0A1A0A)%N
           else Ok false) = Ok false \/
          exists e, (if (w0 =? 0x89504E47)%N
                     then w1 ← getUint32 (contents file) 4; Ok (w1 =? 0x0D0A1A0A)%N
                     else Ok false) = Throw e) as [-> | [e ->]]; [|cbn|cbn; eauto].
  { destruct (N.eqb_spec w0 0x89504E47) as [->|]; [|by left].
    destruct (getUint32 (contents file) 4) as [w1|] eqn:E4; cbn; [|eauto].
    destruct (N.eqb_spec w1 0x0D0A1A0A) as [->|]; [|by left].
    destruct (reads_png_signature _ E0 E4) as [rest E]. by destruct (Hpng rest). }
  destruct (getUint16 (contents file) 0) as [h|] eqn:Eh; cbn; [|eauto].
  destruct (N.eqb_spec h 0xFFD8) as [->|]; [|eauto].
  split; [apply parseJPEGMetadata_returns|].
  intros Hjpeg. destruct (reads_jpeg_marker _ Eh) as [rest E]. by destruct (Hjpeg rest).
Qed.

Lemma file_without_png_signature_never_rejects_witness :
  let file := {| name := "notes.txt"; contents := Str.to_bytes "hello" |} in
  (forall rest, contents file <> (png_signature ++ rest)%list)
  /\ (forall rest, contents file <> (xff :: xd8 :: rest)%list)
  /\ @parseImageMetadata reference_host file = Ok VNull.
Proof.
  intros file.
  assert (forall rest, contents file <> (png_signature ++ rest)%list) as Hpng
    by (intros rest; discriminate).
  assert (forall rest, contents file <> (xff :: xd8 :: rest)%list) as Hjpeg
    by (intros rest; discriminate).
  split; [exact Hpng | split; [exact Hjpeg|]].
  exact (proj2 (file_without_png_signature_never_rejects reference_host file Hpng) Hjpeg).
Defined.

(** ** The chunk table *)

Section ChunkTable.

Implicit Types (buffer data : list byte) (chunks : gmap string string).

(** No piece of [s.split(sep)] holds the separator. *)
Lemma split_pieces (sep : ascii) (s : string) :
  Forall (fun piece => ~ In sep (list_ascii_of_string piece)) (Str.split sep s).
Proof.
  induction s as [|c s IH]; cbn.
  - constructor; [intros [] | constructor].
  - destruct (Ascii.eqb_spec c sep) as [->|Hne].
    + constructor; [intros [] | exact IH].
    + destruct (Str.split sep s) as [|p ps].
      * constructor; [|constructor]. cbn. intros [E|[]]. by destruct Hne.
      * inversion IH as [|? ? Hp Hps]; subst. constructor; [|exact Hps].
        cbn. intros [E|Hin]; [by destruct Hne | by destruct Hp].
Qed.

(** A property of the table that recording a chunk keeps is kept by the
    whole scan. *)
Lemma scan_chunks_keeps (Good : gmap string string -> Prop) :
  (forall data chunks, Good chunks -> Good (record_text_chunk data chunks)) ->
  forall fuel buffer offset chunks chunks',
    Good chunks -> scan_chunks fuel buffer offset chunks = Ok chunks' -> Good chunks'.
Proof.
  intros Hrec. induction fuel as [|fuel IH]; intros buffer offset chunks chunks' Hc.
  - cbn. by intros [= <-].
  - rewrite scan_chunks_step.
    destruct (_ <? _)%N; [|by intros [= <-]].
    destruct (getUint32 buffer offset) as [len|e]; cbn; [|discriminate].
    set (chunks1 := if Str.eqb _ "tEXt" then _ else chunks).
    assert (Good chunks1) as Hc1 by (subst chunks1; destruct (Str.eqb _ "tEXt"); auto).
    destruct (Str.eqb _ "IEND"); [by intros [= <-]|].
    by apply IH.
Qed.

Lemma relevant_keyword_spec (keyword : string) :
  existsb (Str.eqb keyword) relevant_keywords = true -> In keyword relevant_keywords.
Proof.
  intros E. apply existsb_exists in E as (k & Hin & E).
  apply String.eqb_eq in E. by subst.
Qed.

End ChunkTable.

(** X3.  Whatever the bytes of the file, when the chunk scan of
    [parsePNGMetadata] ends without an error, every entry of its table has
    one of the four keywords [invokeai_metadata], [parameters], [workflow],
    [prompt] as its key, and a text that is not empty and holds no NUL
    character (the text of a chunk stops at its second NUL). *)
Theorem chunk_table_holds_relevant_texts
  (buffer : list byte) (chunks : gmap string string) (keyword text : string) :
  png_chunks buffer = Ok chunks -> chunks !! keyword = Some text ->
  In keyword relevant_keywords
  /\ text <> ""
  /\ ~ In "000"%char (list_ascii_of_string text).
Proof.
  intros Hscan. revert keyword text.
  refine (scan_chunks_keeps
            (fun chunks => forall keyword text, chunks !! keyword = Some text ->
               In keyword relevant_keywords /\ text <> ""
               /\ ~ In "000"%char (list_ascii_of_string text))
            _ _ _ _ ∅ chunks _ Hscan).
  - intros data table Htable. unfold record_text_chunk.
    pose proof (split_pieces "000" (decode data)) as Hpieces.
    destruct (Str.split "000" (decode data)) as [|keyword [|text pieces]]; auto.
    destruct (existsb _ _) eqn:Hk; cbn; auto.
    destruct (Str.is_empty text) eqn:Ht; cbn; auto.
    intros k t. rewrite lookup_insert. case_decide as Hkey; [|by apply Htable].
    intros [= <-]. subst k. split; [by apply relevant_keyword_spec|].
    split; [by destruct text|].
    inversion Hpieces as [|? ? _ Hrest]; subst. by inversion Hrest.
  - intros k t. rewrite lookup_empty. discriminate.
Qed.

Lemma chunk_table_holds_relevant_texts_witness :
  let chunks : gmap string string := <["parameters" := scenario_parameters]> ∅ in
  (png_chunks (contents scenario_png) = Ok chunks
   /\ chunks !! "parameters" = Some scenario_parameters)
  /\ In "parameters" relevant_keywords
  /\ scenario_parameters <> ""
  /\ ~ In "000"%char (list_ascii_of_string scenario_parameters).
Proof.
  intros chunks.
  assert (png_chunks (contents scenario_png) = Ok chunks) as Hscan by (vm_compute; reflexivity).
  assert (chunks !! "parameters" = Some scenario_parameters) as Hk by (vm_compute; reflexivity).
  split; [by split|].
  exact (chunk_table_holds_relevant_texts _ chunks "parameters" scenario_parameters Hscan Hk).
Defined.

(** ** Well-formed PNG files *)

Section WellFormed.

Implicit Types (buffer data pre rest : list byte) (table : gmap string string).

Lemma to_N_byte_of_N (n : N) : (n < 256)%N -> Byte.to_N (byte_of_N n) = n.
Proof.
  intros Hn. unfold byte_of_N. apply Byte.to_of_N.
  by rewrite byte_of_ascii_via_N, N_ascii_embedding.
Qed.

Lemma big_endian_be32 (n : nat) : (N.of_nat n < 2 ^ 32)%N -> big_endian 0 (be32 n) = N.of_nat n.
Proof.
  intros Hn. unfold be32. cbn [big_endian].
  change (2 ^ 32)%N with 4294967296%N in Hn.
  rewrite !to_N_byte_of_N; zify; Z.to_euclidean_division_equations; lia.
Qed.

Lemma length_to_bytes (s : string) : length (Str.to_bytes s) = String.length s.
Proof.
  unfold Str.to_bytes, list_byte_of_string. rewrite length_map.
  induction s as [|c s IH]; cbn; [reflexivity | by rewrite IH].
Qed.

(** The bytes between two offsets, when the buffer is split there. *)
Lemma slice_at buffer pre (mid : list byte) rest (a b : N) :
  buffer = (pre ++ mid ++ rest)%list ->
  a = N.of_nat (length pre) -> b = (a + N.of_nat (length mid))%N ->
  slice buffer a b = mid.
Proof.
  intros -> -> ->. unfold slice, byteLength. rewrite !length_app.
  rewrite !N.min_l by lia.
  replace (N.of_nat (length pre) + N.of_nat (length mid) - N.of_nat (length pre))%N
    with (N.of_nat (length mid)) by lia.
  by rewrite !Nat2N.id, drop_app_length, take_app_length.
Qed.

(** One turn of the loop on a chunk that is whole. *)
Lemma scan_chunks_chunk (fuel : nat) buffer pre (type : string) data rest table :
  buffer = (pre ++ png_chunk type data ++ rest)%list ->
  String.length type = 4%nat -> (N.of_nat (length data) < 2 ^ 32)%N ->
  scan_chunks (S fuel) buffer (N.of_nat (length pre)) table
  = let table' := if Str.eqb type "tEXt" then record_text_chunk data table else table in
    if Str.eqb type "IEND" then Ok table'
    else scan_chunks fuel buffer (N.of_nat (length (pre ++ png_chunk type data))) table'.
Proof.
  intros Hb Htype Hlen. rewrite scan_chunks_step.
  assert (length (png_chunk type data) = 12 + length data)%nat as Hchunk.
  { unfold png_chunk. rewrite !length_app, length_to_bytes, Htype. cbn. lia. }
  assert ((N.of_nat (length pre) <? byteLength buffer)%N = true) as ->.
  { apply N.ltb_lt. unfold byteLength. rewrite Hb, !length_app, Hchunk. lia. }
  assert (getUint32 buffer (N.of_nat (length pre)) = Ok (N.of_nat (length data))) as ->.
  { rewrite <- (big_endian_be32 (length data) Hlen).
    apply (getUint32_at buffer pre _ _ _ _
             (Str.to_bytes type ++ data ++ [x00; x00; x00; x00] ++ rest)%list).
    rewrite Hb. unfold png_chunk, be32. by rewrite <- !app_assoc. }
  cbn [mbind res_bind].
  assert (slice buffer (N.of_nat (length pre) + 4) (N.of_nat (length pre) + 8)
          = Str.to_bytes type) as ->.
  { apply (slice_at buffer (pre ++ be32 (length data)) (Str.to_bytes type)
             (data ++ [x00; x00; x00; x00] ++ rest)%list).
    - rewrite Hb. unfold png_chunk. by rewrite <- !app_assoc.
    - rewrite length_app. cbn. lia.
    - rewrite length_to_bytes, Htype. lia. }
  assert (slice buffer (N.of_nat (length pre) + 8)
            (N.of_nat (length pre) + 8 + N.of_nat (length data)) = data) as ->.
  { apply (slice_at buffer (pre ++ be32 (length data) ++ Str.to_bytes type) data
             ([x00; x00; x00; x00] ++ rest)%list).
    - rewrite Hb. unfold png_chunk. by rewrite <- !app_assoc.
    - rewrite !length_app, length_to_bytes, Htype. cbn. lia.
    - reflexivity. }
  unfold decode, Str.of_bytes, Str.to_bytes. rewrite string_of_list_byte_of_string.
  cbv zeta.
  replace (N.of_nat (length pre) + (12 + N.of_nat (length data)))%N
    with (N.of_nat (length (pre ++ png_chunk type data)))
    by (rewrite length_app, Hchunk; lia).
  reflexivity.
Qed.

Lemma scan_chunks_whole (chunks : list (string * list byte)) :
  forall (fuel : nat) buffer pre rest table,
    Forall whole_chunk chunks ->
    buffer = (pre ++ chunk_bytes chunks ++ png_chunk "IEND" [] ++ rest)%list ->
    (length chunks < fuel)%nat ->
    scan_chunks fuel buffer (N.of_nat (length pre)) table = Ok (recorded chunks table).
Proof.
  induction chunks as [|[type data] chunks IH]; intros fuel buffer pre rest table Hall Hb Hfuel.
  - destruct fuel as [|fuel]; [lia|].
    rewrite (scan_chunks_chunk fuel buffer pre "IEND" [] rest table);
      [reflexivity | exact Hb | reflexivity | cbn; lia].
  - destruct fuel as [|fuel]; [cbn in Hfuel; lia|].
    inversion Hall as [|? ? (Htype & Hne & Hlen) Hrest]; subst. cbn in Htype, Hne, Hlen.
    rewrite (scan_chunks_chunk fuel _ pre type data
               (chunk_bytes chunks ++ png_chunk "IEND" [] ++ rest)%list table);
      [|by unfold chunk_bytes; cbn [concat List.map fst snd]; rewrite <- !app_assoc|done|done].
    cbv zeta. destruct (Str.eqb type "IEND") eqn:E.
    { unfold Str.eqb in E. apply String.eqb_eq in E. contradiction. }
    rewrite (IH fuel _ (pre ++ png_chunk type data)%list rest); [reflexivity|done| |cbn in Hfuel; lia].
    unfold chunk_bytes. cbn [concat List.map fst snd]. by rewrite <- !app_assoc.
Qed.

Lemma length_chunk_bytes (chunks : list (string * list byte)) :
  (8 * length chunks <= length (chunk_bytes chunks))%nat.
Proof.
  induction chunks as [|[type data] chunks IH]; [cbn; lia|].
  unfold chunk_bytes in *. cbn [concat List.map fst snd length]. rewrite length_app.
  remember (length (concat (List.map (fun chunk => png_chunk (fst chunk) (snd chunk)) chunks)))
    as n.
  unfold png_chunk, be32. rewrite !length_app. cbn [length]. lia.
Qed.

(** The payload [keyword NUL text] of a text chunk, split again. *)
Lemma split_keyword_text (keyword text : string) :
  ~ In "000"%char (list_ascii_of_string keyword) ->
  ~ In "000"%char (list_ascii_of_string text) ->
  Str.split "000" (keyword +:+ Str.nul +:+ text) = [keyword; text].
Proof.
  intros Hk Ht.
  assert (Str.split "000" text = [text]) as Etext.
  { clear Hk. induction text as [|c text IH]; [reflexivity|]. cbn [Str.split].
    destruct (Ascii.eqb_spec c "000") as [->|_]; [destruct Ht; cbn; by left|].
    rewrite IH; [reflexivity|]. intros Hin. apply Ht. cbn. by right. }
  induction keyword as [|c keyword IH].
  - change ("" +:+ Str.nul +:+ text) with (String "000" text). cbn [Str.split].
    by rewrite Etext.
  - change (String c keyword +:+ Str.nul +:+ text)
      with (String c (keyword +:+ Str.nul +:+ text)). cbn [Str.split].
    destruct (Ascii.eqb_spec c "000") as [->|_]; [destruct Hk; cbn; by left|].
    rewrite IH; [reflexivity|]. intros Hin. apply Hk. cbn. by right.
Qed.

End WellFormed.

Section TextChunks.

Implicit Types (table : gmap string string) (texts : list (string * string)).

Lemma length_append (s t : string) :
  String.length (s +:+ t) = (String.length s + String.length t)%nat.
Proof.
  induction s as [|c s IH]; [reflexivity|].
  change (S (String.length (s +:+ t)) = S (String.length s + String.length t)).
  by rewrite IH.
Qed.

Lemma recorded_text_chunks texts : forall table,
  Forall (fun kt => plain_text (fst kt) /\ plain_text (snd kt)) texts ->
  recorded (List.map as_chunk texts) table = text_table texts table.
Proof.
  induction texts as [|[keyword text] texts IH]; intros table Hall; [reflexivity|].
  inversion Hall as [|? ? [Hk Ht] Hrest]; subst. cbn in Hk, Ht.
  unfold recorded, text_table in *. cbn [List.map fold_left as_chunk fst snd].
  change (Str.eqb "tEXt" "tEXt") with true. cbv iota.
  rewrite IH by exact Hrest. f_equal.
  unfold record_text_chunk, decode, Str.of_bytes, Str.to_bytes.
  by rewrite string_of_list_byte_of_string, split_keyword_text.
Qed.

Lemma whole_text_chunk texts : Forall whole_text texts -> Forall whole_chunk (List.map as_chunk texts).
Proof.
  intros Hall. apply Forall_map. eapply Forall_impl; [exact Hall|].
  intros [keyword text] (_ & _ & Hlen). cbn in Hlen. unfold whole_chunk, as_chunk. cbn [fst snd].
  split; [reflexivity | split; [discriminate|]].
  rewrite length_to_bytes, !length_append. cbn [String.length Str.nul Str.chr]. lia.
Qed.

Lemma chunk_bytes_text_chunks texts : chunk_bytes (List.map as_chunk texts) = concat (text_chunks texts).
Proof. unfold chunk_bytes, text_chunks. by rewrite map_map. Qed.

End TextChunks.

(** X4.  A PNG file that is well formed (the signature, then chunks with a
    type of four characters and data shorter than 2^32 bytes, then the [IEND]
    chunk) is scanned without an error, whatever bytes follow [IEND]: the
    loop visits the chunks in order, records the [tEXt] chunks among them
    and stops at [IEND]. *)
Theorem well_formed_png_is_scanned_up_to_IEND
  (chunks : list (string * list byte)) (trailer : list byte) :
  Forall whole_chunk chunks ->
  png_chunks (png_signature ++ chunk_bytes chunks ++ png_chunk "IEND" [] ++ trailer)
  = Ok (recorded chunks ∅).
Proof.
  intros Hall. unfold png_chunks.
  apply (scan_chunks_whole chunks _ _ png_signature trailer ∅ Hall eq_refl).
  pose proof (length_chunk_bytes chunks). rewrite !length_app. cbn [length png_signature]. lia.
Qed.

Lemma well_formed_png_is_scanned_up_to_IEND_witness :
  let chunks := [("IHDR", [x00; x00; x02; x00; x00; x00; x03; x00; x08; x02; x00; x00; x00]);
                 as_chunk ("prompt", "{}"); ("tEXt", Str.to_bytes "no keyword here")] in
  Forall whole_chunk chunks
  /\ png_chunks (png_signature ++ chunk_bytes chunks ++ png_chunk "IEND" [] ++ [xff; xff])
     = Ok (<["prompt" := "{}"]> ∅).
Proof.
  intros chunks.
  assert (Forall whole_chunk chunks) as Hall.
  { repeat constructor; try discriminate; vm_compute; reflexivity. }
  split; [exact Hall|].
  exact (well_formed_png_is_scanned_up_to_IEND chunks [xff; xff] Hall).
Defined.

(** X5.  Text chunks are read back: in a PNG file made of the signature,
    text chunks [keyword NUL text] free of other NUL characters, and [IEND],
    the table of the scan holds, for each of the four keywords, the text of
    the last chunk of that keyword whose text is not empty; chunks of other
    keywords and chunks with an empty text leave no trace. *)
Theorem text_chunks_are_read_back (texts : list (string * string)) (trailer : list byte) :
  Forall whole_text texts ->
  png_chunks (png_signature ++ concat (text_chunks texts) ++ png_chunk "IEND" [] ++ trailer)
  = Ok (text_table texts ∅).
Proof.
  intros Hall. unfold png_chunks.
  rewrite <- chunk_bytes_text_chunks.
  rewrite (scan_chunks_whole (List.map as_chunk texts) _ _ png_signature trailer ∅
             (whole_text_chunk _ Hall) eq_refl).
  - f_equal. apply recorded_text_chunks. eapply Forall_impl; [exact Hall|].
    by intros kt (? & ? & _).
  - pose proof (length_chunk_bytes (List.map as_chunk texts)).
    rewrite !length_app. cbn [length png_signature]. lia.
Qed.

Lemma text_chunks_are_read_back_witness :
  let texts := [("parameters", "a cat"); ("Comment", "made by hand"); ("prompt", "");
                ("parameters", "a dog")] in
  Forall whole_text texts
  /\ png_chunks (png_signature ++ concat (text_chunks texts) ++ png_chunk "IEND" [] ++ [])
     = Ok (<["parameters" := "a dog"]> ∅).
Proof.
  intros texts.
  assert (Forall whole_text texts) as Hall.
  { repeat constructor; try (vm_compute; reflexivity);
      intros Hin; vm_compute in Hin; repeat destruct Hin as [Hin|Hin]; discriminate || done. }
  split; [exact Hall|].
  rewrite (text_chunks_are_read_back texts [] Hall). vm_compute. reflexivity.
Defined.

(** ** Fields of objects *)

Section Fields.

Implicit Types (k : string) (v : value) (fields : list (string * value)).

Lemma lookup_update_eq k v fields : lookup_field k (update_field k v fields) = Some v.
Proof.
  induction fields as [|[k' v'] fields IH]; cbn [update_field lookup_field].
  - unfold Str.eqb. by rewrite String.eqb_refl.
  - destruct (Str.eqb k k') eqn:E; cbn [lookup_field].
    + unfold Str.eqb. by rewrite String.eqb_refl.
    + by rewrite E.
Qed.

Lemma lookup_update_ne k k' v fields :
  k' <> k -> lookup_field k' (update_field k v fields) = lookup_field k' fields.
Proof.
  intros Hne.
  assert (Str.eqb k' k = false) as Hkk by (by apply String.eqb_neq).
  induction fields as [|[k0 v0] fields IH]; cbn [update_field lookup_field].
  - by rewrite Hkk.
  - destruct (Str.eqb k k0) eqn:E; cbn [lookup_field].
    + apply String.eqb_eq in E. subst k0. by rewrite Hkk.
    + by rewrite IH.
Qed.

(** [result.k = v], read back. *)
Lemma prop_put_eq k v fields : prop (put k v (VObj fields)) k = v.
Proof. unfold put, prop. by rewrite lookup_update_eq. Qed.

Lemma prop_put_ne k k' v (result : value) : k' <> k -> prop (put k v result) k' = prop result k'.
Proof.
  intros Hne. destruct result; try reflexivity. unfold put, prop. by rewrite lookup_update_ne.
Qed.

End Fields.

(** ** The tiers below [workflow] *)

Section Tiers.

Context `{Platform}.

Implicit Types (file : File) (chunks : gmap string string).

(** [classify] in terms of the entries of the table the scan has built. *)
Lemma parseImageMetadata_classify file rest chunks :
  contents file = (png_signature ++ rest)%list ->
  png_chunks (contents file) = Ok chunks ->
  parseImageMetadata file = classify chunks
  /\ forall k, chunk chunks k = chunks !! k.
Proof.
  intros Hsig Hchunks. split.
  - rewrite (parseImageMetadata_png _ _ Hsig). unfold parsePNGMetadata. by rewrite Hchunks.
  - intros k. destruct (chunks !! k) as [text|] eqn:E.
    + by apply (png_chunks_truthy _ _ _ _ Hchunks).
    + by apply png_chunks_absent.
Qed.

(** What [with_normalized] does to an object: one field more, the others as
    they were. *)
Lemma with_normalized_object (fields : list (string * value)) (normalized : value) :
  prop (with_normalized (VObj fields) normalized) "normalizedMetadata" = normalized
  /\ forall k, k <> "normalizedMetadata" ->
       prop (with_normalized (VObj fields) normalized) k = prop (VObj fields) k.
Proof.
  unfold with_normalized, set_prop, prop. split.
  - by rewrite lookup_update_eq.
  - intros k Hk. by rewrite lookup_update_ne.
Qed.

End Tiers.

(** X6.  The InvokeAI tier.  In a PNG file with no [workflow] chunk whose
    [invokeai_metadata] chunk is the JSON text of an object,
    [parseImageMetadata] returns that object with one field more,
    [normalizedMetadata], which holds what [parseInvokeAIMetadata] computes
    from the object; every other field is as the JSON text has it.  A
    [parameters] or [prompt] chunk beside it is not read. *)
Theorem invokeai_chunk_is_returned_with_its_cache (P : Platform)
  (file : File) (rest : list byte) (chunks : gmap string string) (text : string)
  (fields : list (string * value)) :
  contents file = (png_signature ++ rest)%list ->
  png_chunks (contents file) = Ok chunks ->
  chunks !! "workflow" = None ->
  chunks !! "invokeai_metadata" = Some text ->
  JSON_parse text = Some (VObj fields) ->
  exists metadata,
    parseImageMetadata file = Ok metadata
    /\ prop metadata "normalizedMetadata" = parseInvokeAIMetadata (VObj fields)
    /\ forall k, k <> "normalizedMetadata" -> prop metadata k = prop (VObj fields) k.
Proof.
  intros Hsig Hchunks Hw Hi Hj.
  destruct (parseImageMetadata_classify file rest chunks Hsig Hchunks) as [-> Hchunk].
  unfold classify, parse_json. rewrite !Hchunk, Hw, Hi, Hj. cbn.
  eexists. split; [reflexivity|]. apply with_normalized_object.
Qed.

Lemma invokeai_chunk_is_returned_with_its_cache_witness :
  let P := reference_host in
  let text := "{" +:+ Str.dq +:+ "positive_prompt" +:+ Str.dq +:+ ":" +:+ Str.dq +:+ "a cat"
              +:+ Str.dq +:+ "}" in
  let file := png_file "invoke.png"
                [text_chunk "invokeai_metadata" text; text_chunk "parameters" "a dog"] in
  let chunks : gmap string string :=
    <["parameters" := "a dog"]> (<["invokeai_metadata" := text]> ∅) in
  (contents file = (png_signature ++ List.skipn 8 (contents file))%list
   /\ png_chunks (contents file) = Ok chunks
   /\ chunks !! "workflow" = None
   /\ chunks !! "invokeai_metadata" = Some text
   /\ JSON_parse text = Some (VObj [("positive_prompt", VStr "a cat")]))
  /\ exists metadata,
       parseImageMetadata file = Ok metadata
       /\ prop metadata "normalizedMetadata"
          = parseInvokeAIMetadata (VObj [("positive_prompt", VStr "a cat")])
       /\ forall k, k <> "normalizedMetadata" ->
            prop metadata k = prop (VObj [("positive_prompt", VStr "a cat")]) k.
Proof.
  intros P text file chunks.
  assert (png_chunks (contents file) = Ok chunks) as Hchunks by (vm_compute; reflexivity).
  assert (chunks !! "workflow" = None) as Hw by (vm_compute; reflexivity).
  assert (chunks !! "invokeai_metadata" = Some text) as Hi by (vm_compute; reflexivity).
  assert (JSON_parse text = Some (VObj [("positive_prompt", VStr "a cat")])) as Hj
    by (vm_compute; reflexivity).
  split; [repeat split; assumption|].
  exact (invokeai_chunk_is_returned_with_its_cache P file _ chunks text _
           eq_refl Hchunks Hw Hi Hj).
Defined.

(** X7.  The tiers below.  In a PNG file with neither a [workflow] nor an
    [invokeai_metadata] chunk, a [parameters] chunk gives the Automatic1111
    record of its text, whether there is a [prompt] chunk or not; without a
    [parameters] chunk, a [prompt] chunk gives the ComfyUI record of that
    prompt alone; and a file with none of the four chunks has no metadata. *)
Theorem lower_tiers_of_the_cascade (P : Platform)
  (file : File) (rest : list byte) (chunks : gmap string string) :
  contents file = (png_signature ++ rest)%list ->
  png_chunks (contents file) = Ok chunks ->
  chunks !! "workflow" = None ->
  chunks !! "invokeai_metadata" = None ->
  parseImageMetadata file
  = Ok match chunks !! "parameters", chunks !! "prompt" with
       | Some parameters, _ => a1111_record parameters
       | None, Some prompt => comfy_prompt_record (parsed_or_text prompt)
       | None, None => VNull
       end.
Proof.
  intros Hsig Hchunks Hw Hi.
  destruct (parseImageMetadata_classify file rest chunks Hsig Hchunks) as [-> Hchunk].
  unfold classify. rewrite !Hchunk, Hw, Hi.
  by destruct (chunks !! "parameters"), (chunks !! "prompt").
Qed.

Lemma lower_tiers_of_the_cascade_witness :
  let P := reference_host in
  let file := png_file "both.png" [text_chunk "prompt" "{}"; text_chunk "parameters" "a dog"] in
  let chunks : gmap string string := <["parameters" := "a dog"]> (<["prompt" := "{}"]> ∅) in
  (contents file = (png_signature ++ List.skipn 8 (contents file))%list
   /\ png_chunks (contents file) = Ok chunks
   /\ chunks !! "workflow" = None
   /\ chunks !! "invokeai_metadata" = None)
  /\ parseImageMetadata file = Ok (a1111_record "a dog").
Proof.
  intros P file chunks.
  assert (png_chunks (contents file) = Ok chunks) as Hchunks by (vm_compute; reflexivity).
  assert (chunks !! "workflow" = None) as Hw by (vm_compute; reflexivity).
  assert (chunks !! "invokeai_metadata" = None) as Hi by (vm_compute; reflexivity).
  split; [repeat split; assumption|].
  exact (lower_tiers_of_the_cascade P file _ chunks eq_refl Hchunks Hw Hi).
Defined.

(** ** More on board names *)

Section BoardNumbers.

Implicit Types (st : BoardState) (ids seen : list string).

Lemma remove_dups_snoc_seen seen (boardId : string) :
  boardId ∈ seen -> length (remove_dups (seen ++ [boardId])) = length (remove_dups seen).
Proof.
  intros Hin. apply Permutation_length, NoDup_Permutation; try apply NoDup_remove_dups.
  intros x. rewrite !elem_of_remove_dups, elem_of_app, list_elem_of_singleton.
  split; [intros [?| ->]; assumption | by left].
Qed.

Lemma remove_dups_snoc_new seen (boardId : string) :
  boardId ∉ seen -> length (remove_dups (seen ++ [boardId])) = S (length (remove_dups seen)).
Proof.
  intros Hin.
  change (S (length (remove_dups seen))) with (length (boardId :: remove_dups seen)).
  apply Permutation_length, NoDup_Permutation.
  - apply NoDup_remove_dups.
  - constructor; [by rewrite elem_of_remove_dups | apply NoDup_remove_dups].
  - intros x. rewrite elem_of_cons, !elem_of_remove_dups, elem_of_app, list_elem_of_singleton.
    tauto.
Qed.

Lemma tracks_initial : tracks [] initial_boards.
Proof.
  split; [reflexivity|]. intros boardId. cbn. rewrite lookup_empty.
  split; [by intros ?%elem_of_nil | by intros [? ?]].
Qed.

(** One call moves the record of what was seen by one id. *)
Lemma getFriendlyBoardName_tracks seen st (boardId : string) :
  tracks seen st ->
  tracks (seen ++ [boardId]) (snd (getFriendlyBoardName boardId st))
  /\ (boardId ∉ seen ->
      fst (getFriendlyBoardName boardId st)
      = Ok (board_name (N.of_nat (S (length (remove_dups seen)))))).
Proof.
  intros [Hcount Hseen]. unfold getFriendlyBoardName.
  destruct (boardIdCache st !! boardId) as [nm|] eqn:E; cbn [fst snd].
  - assert (boardId ∈ seen) as Hin by (apply Hseen; eauto).
    split; [|by intros []]. split.
    + by rewrite remove_dups_snoc_seen.
    + intros x. rewrite elem_of_app, list_elem_of_singleton, <- Hseen.
      split; [intros [?| ->]; assumption | by left].
  - assert (boardId ∉ seen) as Hin by (rewrite Hseen, E; by intros [? ?]).
    split; [|intros _; unfold board_name; by rewrite Hcount]. split; cbn.
    + rewrite remove_dups_snoc_new by done. lia.
    + intros x. rewrite elem_of_app, list_elem_of_singleton, Hseen, lookup_insert.
      case_decide; subst; split; eauto; intros [?|?]; (done || by subst).
Qed.

Lemma resolve_all_numbers ids : forall seen st (i : nat) (boardId : string),
  tracks seen st ->
  ids !! i = Some boardId -> boardId ∉ seen -> boardId ∉ take i ids ->
  fst (resolve_all ids st) !! i
  = Some (Ok (board_name (N.of_nat (S (length (remove_dups (seen ++ take i ids))))))).
Proof.
  induction ids as [|boardId0 ids IH]; intros seen st i boardId Htracks Hi Hseen Hbefore;
    [discriminate|].
  destruct (getFriendlyBoardName_tracks seen st boardId0 Htracks) as [Htracks1 Hname].
  cbn [resolve_all].
  destruct (getFriendlyBoardName boardId0 st) as [r st1]. cbn [fst snd] in *.
  specialize (IH (seen ++ [boardId0])%list st1).
  destruct (resolve_all ids st1) as [rs st2]. cbn [fst snd] in *.
  destruct i as [|i]; cbn in Hi.
  - injection Hi as ->. cbn. rewrite app_nil_r. by rewrite Hname.
  - cbn [take] in Hbefore. apply not_elem_of_cons in Hbefore as [Hne Hbefore].
    cbn. etrans; [apply (IH i boardId Htracks1 Hi); [|done]|].
    + rewrite elem_of_app, list_elem_of_singleton. tauto.
    + by rewrite <- app_assoc.
Qed.

End BoardNumbers.

(** X8.  Boards are numbered in the order in which their ids are first met:
    in a run from the initial cache, a board id that has not occurred before
    position [i] gets the name [My Board n], where [n] is one more than the
    number of distinct ids met before it. *)
Theorem boards_are_numbered_in_order_of_first_appearance
  (ids : list string) (i : nat) (boardId : string) :
  ids !! i = Some boardId -> boardId ∉ take i ids ->
  friendly_names ids !! i
  = Some (Ok ("My Board " +:+ pretty (N.of_nat (S (length (remove_dups (take i ids))))))).
Proof.
  intros Hi Hbefore. unfold friendly_names.
  rewrite (resolve_all_numbers ids [] initial_boards i boardId tracks_initial Hi); try done.
  apply not_elem_of_nil.
Qed.

Lemma boards_are_numbered_in_order_of_first_appearance_witness :
  let ids := ["b"; "a"; "b"; "a"; "c"] in
  (ids !! 4%nat = Some "c" /\ "c" ∉ take 4 ids)
  /\ friendly_names ids !! 4%nat = Some (Ok "My Board 3").
Proof.
  intros ids.
  assert ("c" ∉ take 4 ids) as Hnew.
  { cbn. rewrite !not_elem_of_cons. repeat split; try discriminate. apply not_elem_of_nil. }
  split; [by split|].
  exact (boards_are_numbered_in_order_of_first_appearance ids 4 "c" eq_refl Hnew).
Defined.

Section BoardEffects.

Context `{Platform}.

Implicit Types (st : BoardState) (metadata workflow boardId : value).

Lemma leaves_lift {A} (r : res A) : leaves_boards (lift r : St BoardState A).
Proof. by intros st. Qed.

Lemma leaves_board_done (v : value) : leaves_boards (board_done v).
Proof. by intros st. Qed.

Lemma leaves_bind {A B} (m : St BoardState A) (k : A -> St BoardState B) :
  leaves_boards m -> (forall a, leaves_boards (k a)) -> leaves_boards (m ≫= k).
Proof.
  intros Hm Hk st. unfold mbind, St_bind. specialize (Hm st).
  destruct (m st) as [[a|e] st1]; cbn in *; subst; [apply Hk | reflexivity].
Qed.

Lemma names_none {A} (m : St BoardState A) : leaves_boards m -> names_at_most_one_board m.
Proof. intros Hm st Hwf. rewrite Hm. split; [exact Hwf | split; [reflexivity | lia]]. Qed.

Lemma names_after {A B} (m : St BoardState A) (k : A -> St BoardState B) :
  leaves_boards m -> (forall a, names_at_most_one_board (k a)) ->
  names_at_most_one_board (m ≫= k).
Proof.
  intros Hm Hk st Hwf. unfold mbind, St_bind. specialize (Hm st).
  destruct (m st) as [[a|e] st1]; cbn in *; subst; [by apply Hk|].
  split; [exact Hwf | split; [reflexivity | lia]].
Qed.

Lemma names_before {A B} (m : St BoardState A) (k : A -> St BoardState B) :
  names_at_most_one_board m -> (forall a, leaves_boards (k a)) ->
  names_at_most_one_board (m ≫= k).
Proof.
  intros Hm Hk st Hwf. unfold mbind, St_bind. specialize (Hm st Hwf).
  destruct (m st) as [[a|e] st1]; cbn in *; [|exact Hm].
  by rewrite Hk.
Qed.

Lemma getFriendlyBoardName_names (id : string) :
  names_at_most_one_board (getFriendlyBoardName id).
Proof.
  intros st Hwf.
  destruct (getFriendlyBoardName_spec st id Hwf) as (nm & st' & E & _ & Hsub & Hwf').
  rewrite E. cbn [snd]. split; [exact Hwf' | split; [exact Hsub|]].
  revert E. unfold getFriendlyBoardName.
  destruct (boardIdCache st !! id); intros [= _ <-]; cbn; lia.
Qed.

(** The entry of a key that is not a string: the string keys stay as they
    are. *)
Lemma untyped_board_names boardId :
  names_at_most_one_board
    (fun st =>
       match List.find (fun entry => same_value (fst entry) boardId) (untypedBoardIds st) with
       | Some entry => (Ok (VStr (snd entry)), st)
       | None =>
           let friendlyName := "My Board " +:+ pretty (boardCounter st) in
           (Ok (VStr friendlyName),
            {| boardIdCache := boardIdCache st;
               untypedBoardIds := (boardId, friendlyName) :: untypedBoardIds st;
               boardCounter := N.succ (boardCounter st) |})
       end).
Proof.
  intros st [Hn Hi].
  destruct (List.find _ _) as [entry|]; cbn.
  - split; [by split | split; [reflexivity | lia]].
  - split; [split; [|exact Hi] | split; [reflexivity | lia]].
    cbn. intros id nm L. destruct (Hn id nm L) as (n & ? & ->). exists n.
    split; [lia | reflexivity].
Qed.

Lemma friendly_name_of_names boardId : names_at_most_one_board (friendly_name_of boardId).
Proof.
  destruct boardId; try apply untyped_board_names.
  cbn [friendly_name_of]. apply names_before; [apply getFriendlyBoardName_names|].
  by intros name st.
Qed.

Lemma extractBoardFromWorkflow_names workflow :
  names_at_most_one_board (extractBoardFromWorkflow workflow).
Proof.
  unfold extractBoardFromWorkflow.
  destruct (negb (truthy workflow) || negb (truthy (prop workflow "nodes")));
    [by apply names_none|].
  apply names_after; [apply leaves_lift|]. intros nodes.
  induction nodes as [|node nodes IH]; [by apply names_none|].
  apply names_after; [apply leaves_lift|]. intros data.
  repeat case_match; auto using friendly_name_of_names.
Qed.

Lemma extractBoardFromInvokeAI_names metadata :
  names_at_most_one_board (extractBoardFromInvokeAI metadata).
Proof.
  unfold extractBoardFromInvokeAI.
  apply names_after; [apply leaves_lift|]. intros _. cbv zeta.
  destruct (first_some _); [apply names_none, leaves_board_done|].
  match goal with
  | |- names_at_most_one_board (match ?c with Some _ => _ | None => _ end) => destruct c
  end; [apply friendly_name_of_names|].
  apply names_before.
  - destruct (truthy (prop metadata "workflow") && is_object (prop metadata "workflow"));
      [|apply names_none, leaves_board_done].
    destruct (prop metadata "workflow"); try apply extractBoardFromWorkflow_names.
    intros st Hwf. destruct (parse_json s) as [workflowObj|e].
    + pose proof (extractBoardFromWorkflow_names workflowObj st Hwf) as Hw.
      by destruct (extractBoardFromWorkflow workflowObj st) as [[v|e] st1].
    + cbn. split; [exact Hwf | split; [reflexivity | lia]].
  - intros boardInfo. destruct (truthy boardInfo); [apply leaves_board_done|].
    apply leaves_bind; [apply leaves_lift|]. intros es.
    destruct (List.find _ es); apply leaves_board_done.
Qed.

End BoardEffects.

(** X9.  Whatever the metadata, one call of [extractBoard] on a well-formed
    board cache leaves it well formed; no entry of the cache is dropped or
    changed, and the counter moves by one at most: a call names at most one
    new board. *)
Theorem extractBoard_names_at_most_one_board (P : Platform)
  (metadata : value) (st : BoardState) :
  boards_wf st ->
  boards_wf (snd (extractBoard metadata st))
  /\ boardIdCache st ⊆ boardIdCache (snd (extractBoard metadata st))
  /\ (boardCounter st <= boardCounter (snd (extractBoard metadata st)) <= boardCounter st + 1)%N.
Proof.
  revert st. change (names_at_most_one_board (extractBoard metadata)).
  unfold extractBoard. destruct (isInvokeAIMetadata metadata).
  - apply extractBoardFromInvokeAI_names.
  - by apply names_none.
Qed.

Lemma extractBoard_names_at_most_one_board_witness :
  let P := reference_host in
  let metadata := VObj [("width", num 512);
                        ("canvas_v2_metadata", VObj [("board_id", VStr "f3a9")])] in
  boards_wf initial_boards
  /\ extractBoard metadata initial_boards
     = (Ok (VStr "My Board 1"),
        {| boardIdCache := <["f3a9" := "My Board 1"]> ∅; untypedBoardIds := [];
           boardCounter := 2 |})
  /\ boards_wf (snd (extractBoard metadata initial_boards))
  /\ boardIdCache initial_boards ⊆ boardIdCache (snd (extractBoard metadata initial_boards))
  /\ (boardCounter initial_boards <= boardCounter (snd (extractBoard metadata initial_boards))
      <= boardCounter initial_boards + 1)%N.
Proof.
  intros P metadata.
  split; [exact initial_boards_wf|].
  split; [vm_compute; reflexivity|].
  exact (extractBoard_names_at_most_one_board P metadata initial_boards initial_boards_wf).
Defined.
